(** * SD card initialisation over SPI

    A shallow embedding of [External/SDCard_Driver/Src/sd_driver_init.c]:
    power-on, entry into SPI mode, CRC on/off, the two operating-condition
    negotiations, the reset orchestrator and the CSD decoder.

    The driver talks to hardware; here every hardware call consults a
    deterministic transport (a function of the I/O performed so far) and is
    appended to a history, so that "which commands were issued", "how much
    time elapsed" and "no I/O happened" are ordinary statements about lists.
    The [while (true)] polling loops take fuel: [None] means the loop was
    still running when the fuel ran out. *)

From Stdlib Require Import ZArith List Bool Lia.
Import ListNotations.
Local Open Scope Z_scope.

(** ** Machine integers *)

Definition u8 (x : Z) : Z := x mod 2 ^ 8.
Definition u16 (x : Z) : Z := x mod 2 ^ 16.
Definition u32 (x : Z) : Z := x mod 2 ^ 32.

(** ** Status codes ([sd_error])

    The enumeration lives in a header that is not part of the sources at
    hand.  [SD_OK] is zero: the code tests failure with [if (status)] and
    starts every accumulator with [sd_error status = SD_OK] before OR-ing
    into it.  The four error codes are kept abstract. *)

Definition sd_error := Z.
Definition SD_OK : sd_error := 0.

Class sd_error_codes := {
  SD_ERROR : sd_error;
  SD_TIMEOUT : sd_error;
  SD_TRANSMISSION_ERROR : sd_error;
  SD_UNUSABLE_CARD : sd_error
}.

(** Modelled from the spec: the header declaring [sd_error] is missing; the
    codes are "bit-flag composable", "each a distinct bit", listed in the
    order OK, generic-error, timeout, transmission-error, unusable-card. *)
Definition flag_codes : sd_error_codes :=
  {| SD_ERROR := 1; SD_TIMEOUT := 2;
     SD_TRANSMISSION_ERROR := 4; SD_UNUSABLE_CARD := 8 |}.

(** [if (status)] and [(bool)status]. *)
Definition failed (status : sd_error) : bool := negb (status =? 0).

(** ** R1 status byte

    Modelled from the spec: the header declaring the R1 flags is missing;
    "bit0 = in-idle-state, ... bit2 = illegal-command, ... All clear (0x00)
    = ready". *)
Definition R1_CLEAR_FLAGS : Z := 0x00.
Definition R1_IN_IDLE_STATE : Z := 0x01.
Definition R1_ILLEGAL_COMMAND : Z := 0x04.

(** ** Commands and responses *)

Record sd_command := { cmd_index : Z; cmd_argument : Z }.

(** Modelled from the spec: [sd_card_get_cmd] is missing; it builds the
    6-byte frame from a command index and a 32-bit argument (the checksum
    is a function of the two), so a frame is identified with that pair. *)
Definition sd_card_get_cmd (index argument : Z) : sd_command :=
  {| cmd_index := index; cmd_argument := argument |}.

Definition sd_command_eqb (a b : sd_command) : bool :=
  (cmd_index a =? cmd_index b) && (cmd_argument a =? cmd_argument b).

(** A response is the byte block the card sent back; the typed views below
    read it the way the response structs overlay it. *)
Definition byte_at (bs : list Z) (i : nat) : Z := u8 (nth i bs 0).

(** [sd_r1_response]: the status byte. *)
Definition r1_of (resp : list Z) : Z := byte_at resp 0.

(** Modelled from the spec: [sd_r3_response] is missing; "a 1-byte status
    followed by 4 extra bytes (operating-conditions register)", most
    significant byte first. *)
Definition ocr_register_content (resp : list Z) (i : nat) : Z :=
  byte_at resp (1 + i).

(** Modelled from the spec: [sd_r7_response] and [GET_VOLTAGE_FROM_R7] are
    missing; "status byte + 4 bytes, of which the low 8 bits are the echoed
    check pattern and bits 11:8 of the next 16 are the accepted
    voltage-window field". *)
Definition high_order_part (resp : list Z) : Z := byte_at resp 0.
Definition echo_back_of_check_pattern (resp : list Z) : Z := byte_at resp 4.
Definition GET_VOLTAGE_FROM_R7 (resp : list Z) : Z :=
  Z.land (byte_at resp 3) 0xf.

(** ** Hardware history *)

Inductive payload :=
| Bytes (bs : list Z)
| Frame (c : sd_command).

Inductive event :=
| EvSelect
| EvDeselect
| EvTransmit (p : payload) (st : sd_error)
| EvReceive (st : sd_error) (b : Z)
| EvTick (t : Z)
| EvCmd (c : sd_command) (st : sd_error) (resp : list Z)
| EvCsd (st : sd_error) (csd : list Z).

(** The transport and the card behind it: what each call answers, given
    everything that happened before (most recent event first).  A receive
    that leaves its buffer untouched is the transport answering with the
    byte the buffer already held, which the history determines. *)
Class Transport := {
  hw_transmit : list event -> payload -> sd_error;
  hw_receive : list event -> sd_error * Z;
  hw_tick : list event -> Z;
  hw_command : list event -> sd_command -> sd_error * list Z;
  hw_csd : list event -> sd_error * list Z
}.

(** The status an event reported, if it is a call that reports one. *)
Definition event_status (e : event) : sd_error :=
  match e with
  | EvTransmit _ st => st
  | EvReceive st _ => st
  | EvCmd _ st _ => st
  | EvCsd st _ => st
  | EvSelect | EvDeselect | EvTick _ => SD_OK
  end.

(** Bitwise OR of every status in a stretch of history, accumulated in the
    order the calls were made. *)
Fixpoint or_statuses (h : list event) : sd_error :=
  match h with
  | [] => SD_OK
  | e :: h' => Z.lor (or_statuses h') (event_status e)
  end.

Definition is_tick (e : event) : bool :=
  match e with EvTick _ => true | _ => false end.

(** The commands issued through [SEND_CMD], oldest first. *)
Fixpoint commands_issued (h : list event) : list sd_command :=
  match h with
  | [] => []
  | EvCmd c _ _ :: h' => commands_issued h' ++ [c]
  | _ :: h' => commands_issued h'
  end.

(** ** Session state *)

Inductive sd_capacity := STANDART | HIGH_OR_EXTENDED.

Record sd_status := {
  version : Z;
  capacity : sd_capacity;
  error_in_initialization : bool
}.

(** The global [sd_card_status], the function-local static
    [sd_card_is_spi_mode], and the I/O performed so far. *)
Record machine := {
  history : list event;
  sd_card_status : sd_status;
  sd_card_is_spi_mode : bool
}.

(** [sd_status sd_card_status = { 0 }] and [sd_card_is_spi_mode = false];
    the capacity enumerator of value 0 is taken to be [STANDART]. *)
Definition power_up : machine :=
  {| history := [];
     sd_card_status :=
       {| version := 0; capacity := STANDART;
          error_in_initialization := false |};
     sd_card_is_spi_mode := false |}.

(** ** The state monad of the driver *)

Definition M (A : Type) : Type := machine -> option (A * machine).

Definition ret {A} (a : A) : M A := fun m => Some (a, m).

Definition bind {A B} (c : M A) (k : A -> M B) : M B :=
  fun m => match c m with
           | Some (a, m') => k a m'
           | None => None
           end.

Definition out_of_fuel {A} : M A := fun _ => None.

Declare Scope driver_scope.
Delimit Scope driver_scope with driver.
Notation "x <- c ;; k" := (bind c (fun x => k))
  (at level 61, c at next level, right associativity) : driver_scope.
Notation "c ;; k" := (bind c (fun _ => k))
  (at level 61, right associativity) : driver_scope.
Local Open Scope driver_scope.

Definition log (e : event) (m : machine) : machine :=
  {| history := e :: history m;
     sd_card_status := sd_card_status m;
     sd_card_is_spi_mode := sd_card_is_spi_mode m |}.

Definition get_status : M sd_status := fun m => Some (sd_card_status m, m).

Definition put_status (s : sd_status) : M unit :=
  fun m => Some (tt, {| history := history m;
                        sd_card_status := s;
                        sd_card_is_spi_mode := sd_card_is_spi_mode m |}).

Definition get_spi_mode : M bool := fun m => Some (sd_card_is_spi_mode m, m).

Definition set_spi_mode (b : bool) : M unit :=
  fun m => Some (tt, {| history := history m;
                        sd_card_status := sd_card_status m;
                        sd_card_is_spi_mode := b |}).

(** ** Where a function returned

    The C functions return a bare status; the model also says through which
    [return] statement, so that "returned by the deadline check" does not
    have to be guessed from the numeric code. *)
Inductive exit_point :=
| AtLatch      (* sd_card_enter_spi_mode, line 39 *)
| AtPowerOn    (* sd_card_enter_spi_mode, line 43 *)
| AtVoltage    (* lines 107 and 152 *)
| AtIllegal    (* line 118 *)
| AtDeadline   (* lines 59, 122 and 165 *)
| AtEnd.       (* the final return *)

(** The two card revisions the driver negotiates with. *)
Inductive revision := Earlier | Later.

(** How a polling loop was left. *)
Inductive poll_exit :=
| PollDone (status : sd_error)
    (* loop condition false, or [break]; the accumulated status *)
| PollReturn (at_ : exit_point) (code : sd_error).
    (* a [return code] inside the loop *)

(** ** The driver *)

Section Driver.

Context {codes : sd_error_codes} {card : Transport}.

(** *** Transport calls *)

Definition SELECT_SD : M unit := fun m => Some (tt, log EvSelect m).

Definition DISELECT_SD : M unit := fun m => Some (tt, log EvDeselect m).

Definition HAL_SPI_Transmit (p : payload) : M sd_error :=
  fun m => let st := hw_transmit (history m) p in
           Some (st, log (EvTransmit p st) m).

(** Returns the status and the byte now in the caller's buffer. *)
Definition sd_card_receive_byte : M (sd_error * Z) :=
  fun m => let r := hw_receive (history m) in
           Some ((fst r, u8 (snd r)), log (EvReceive (fst r) (u8 (snd r))) m).

Definition HAL_GetTick : M Z :=
  fun m => let t := u32 (hw_tick (history m)) in
           Some (t, log (EvTick t) m).

(** Modelled from the spec: the macro [SEND_CMD(hspi, cmd, response,
    status)] is missing; it transmits the frame, reads the response back
    into [response] and ORs what the transport reported into [status]
    ("callers combine via bitwise-OR across a sequence of sub-operations").
    Returns the response and the updated status. *)
Definition SEND_CMD (cmd : sd_command) (status : sd_error)
  : M (list Z * sd_error) :=
  fun m => let r := hw_command (history m) cmd in
           Some ((snd r, Z.lor status (fst r)),
                 log (EvCmd cmd (fst r) (snd r)) m).

(** Modelled from the spec: [sd_card_get_csd] is missing; it "reads the
    16-byte capacity/speed register via its dedicated command/response
    sequence" into the caller's zero-initialised buffer. *)
Definition sd_card_get_csd : M (sd_error * list Z) :=
  fun m => let r := hw_csd (history m) in
           Some (r, log (EvCsd (fst r) (snd r)) m).

(** *** [sd_card_power_on] *)

(** [for (i = 0; i < 10; i++) status |= HAL_SPI_Transmit(&dummy_data, 1)] *)
Fixpoint transmit_dummy (n : nat) (status : sd_error) : M sd_error :=
  match n with
  | O => ret status
  | S n' =>
      st <- HAL_SPI_Transmit (Bytes [0xff]) ;;
      transmit_dummy n' (Z.lor status st)
  end.

Definition sd_card_power_on : M sd_error :=
  DISELECT_SD ;;
  status <- transmit_dummy 10 SD_OK ;;
  rx <- sd_card_receive_byte ;;
  ret (Z.lor status (fst rx)).

(** *** [sd_card_enter_spi_mode] *)

Definition cmd_go_idle_state : sd_command := sd_card_get_cmd 0 0x0.

(** The [do ... while (r1 != R1_IN_IDLE_STATE)] loop: one receive, then the
    deadline test, then the loop condition. *)
Fixpoint spi_mode_poll (fuel : nat) (tickstart : Z) (status : sd_error)
  : M poll_exit :=
  match fuel with
  | O => out_of_fuel
  | S fuel' =>
      rx <- sd_card_receive_byte ;;
      let status := Z.lor status (fst rx) in
      now <- HAL_GetTick ;;
      if 500 <? u32 (now - tickstart) then ret (PollReturn AtDeadline SD_TIMEOUT)
      else if snd rx =? R1_IN_IDLE_STATE then ret (PollDone status)
      else spi_mode_poll fuel' tickstart status
  end.

Definition sd_card_enter_spi_mode_at (fuel : nat)
  : M (exit_point * sd_error) :=
  latched <- get_spi_mode ;;
  if latched then ret (AtLatch, SD_OK)
  else
    status <- sd_card_power_on ;;
    if failed status then ret (AtPowerOn, status)
    else
      SELECT_SD ;;
      st <- HAL_SPI_Transmit (Frame cmd_go_idle_state) ;;
      let status := Z.lor status st in
      rx <- sd_card_receive_byte ;;
      let status := Z.lor status (fst rx) in
      tickstart <- HAL_GetTick ;;
      e <- spi_mode_poll fuel tickstart status ;;
      match e with
      | PollDone status =>
          DISELECT_SD ;;
          (if status =? SD_OK then set_spi_mode true else ret tt) ;;
          ret (AtEnd, status)
      | PollReturn at_ code => ret (at_, code)
      end.

Definition sd_card_enter_spi_mode (fuel : nat) : M sd_error :=
  r <- sd_card_enter_spi_mode_at fuel ;; ret (snd r).

(** *** [sd_card_crc_on_off] *)

Definition cmd_crc_on_off (crc_enable : bool) : sd_command :=
  sd_card_get_cmd 59 (if crc_enable then 0x1 else 0x0).

Definition sd_card_crc_on_off (crc_enable : bool) : M sd_error :=
  r <- SEND_CMD (cmd_crc_on_off crc_enable) SD_OK ;;
  if negb (r1_of (fst r) =? R1_IN_IDLE_STATE) then ret SD_TRANSMISSION_ERROR
  else ret (snd r).

(** *** The two negotiations *)

Definition cmd_read_ocr : sd_command := sd_card_get_cmd 58 0x0.
Definition cmd_app : sd_command := sd_card_get_cmd 55 0x0.
Definition acmd_send_op_cond : sd_command := sd_card_get_cmd 41 0x0.

(** [(ocr[1] & 0x1f) && (ocr[2] & 0x80)] *)
Definition voltage_window_ok (ocr_response : list Z) : bool :=
  negb (Z.land (ocr_register_content ocr_response 1) 0x1f =? 0)
  && negb (Z.land (ocr_register_content ocr_response 2) 0x80 =? 0).

Fixpoint v1_poll (fuel : nat) (tickstart : Z) (status : sd_error)
  : M poll_exit :=
  match fuel with
  | O => out_of_fuel
  | S fuel' =>
      app <- SEND_CMD cmd_app status ;;
      op <- SEND_CMD acmd_send_op_cond (snd app) ;;
      let send_op_cond_response := r1_of (fst op) in
      if send_op_cond_response =? R1_CLEAR_FLAGS then ret (PollDone (snd op))
      else if negb (Z.land send_op_cond_response R1_ILLEGAL_COMMAND =? 0)
      then ret (PollReturn AtIllegal SD_UNUSABLE_CARD)
      else
        now <- HAL_GetTick ;;
        if 1000 <? u32 (now - tickstart)
        then ret (PollReturn AtDeadline SD_TIMEOUT)
        else v1_poll fuel' tickstart (snd op)
  end.

Definition sd_card_v1_init_process_at (fuel : nat)
  : M (exit_point * sd_error) :=
  ocr <- SEND_CMD cmd_read_ocr SD_OK ;;
  if negb (voltage_window_ok (fst ocr)) then ret (AtVoltage, SD_ERROR)
  else
    tickstart <- HAL_GetTick ;;
    e <- v1_poll fuel tickstart (snd ocr) ;;
    match e with
    | PollDone status =>
        s <- get_status ;;
        put_status {| version := 1; capacity := STANDART;
                      error_in_initialization := error_in_initialization s |} ;;
        ret (AtEnd, status)
    | PollReturn at_ code => ret (at_, code)
    end.

Definition sd_card_v1_init_process (fuel : nat) : M sd_error :=
  r <- sd_card_v1_init_process_at fuel ;; ret (snd r).

Fixpoint v2_poll (fuel : nat) (tickstart : Z) (status : sd_error)
  : M poll_exit :=
  match fuel with
  | O => out_of_fuel
  | S fuel' =>
      app <- SEND_CMD cmd_app status ;;
      op <- SEND_CMD acmd_send_op_cond (snd app) ;;
      let send_op_cond_response := r1_of (fst op) in
      if send_op_cond_response =? R1_CLEAR_FLAGS then ret (PollDone (snd op))
      else
        now <- HAL_GetTick ;;
        if 1000 <? u32 (now - tickstart)
        then ret (PollReturn AtDeadline SD_TIMEOUT)
        else v2_poll fuel' tickstart (snd op)
  end.

Definition sd_card_v2_init_process_at (fuel : nat)
  : M (exit_point * sd_error) :=
  ocr <- SEND_CMD cmd_read_ocr SD_OK ;;
  if negb (voltage_window_ok (fst ocr)) then ret (AtVoltage, SD_UNUSABLE_CARD)
  else
    tickstart <- HAL_GetTick ;;
    e <- v2_poll fuel tickstart (snd ocr) ;;
    match e with
    | PollDone status =>
        s <- get_status ;;
        let cap :=
          if negb (Z.land (ocr_register_content (fst ocr) 0) 0x2 =? 0)
          then HIGH_OR_EXTENDED else STANDART in
        put_status {| version := 2; capacity := cap;
                      error_in_initialization := error_in_initialization s |} ;;
        ret (AtEnd, status)
    | PollReturn at_ code => ret (at_, code)
    end.

Definition sd_card_v2_init_process (fuel : nat) : M sd_error :=
  r <- sd_card_v2_init_process_at fuel ;; ret (snd r).

(** One round of the polling loops, as both spell it out: CMD55, then
    ACMD41. *)
Definition op_cond_round (status : sd_error) : M (list Z * sd_error) :=
  app <- SEND_CMD cmd_app status ;; SEND_CMD acmd_send_op_cond (snd app).

(** *** [sd_card_reset] *)

Definition cmd_send_if_cond : sd_command :=
  sd_card_get_cmd 8 (Z.lor (Z.shiftl 1 8) 0x55).

(** [send_if_cond_response.high_order_part & R1_ILLEGAL_COMMAND] *)
Definition if_cond_illegal (r7 : list Z) : bool :=
  negb (Z.land (high_order_part r7) R1_ILLEGAL_COMMAND =? 0).

(** [echo_back_of_check_pattern == 0x55 && GET_VOLTAGE_FROM_R7(..) == 0x1] *)
Definition if_cond_accepted (r7 : list Z) : bool :=
  (echo_back_of_check_pattern r7 =? 0x55) && (GET_VOLTAGE_FROM_R7 r7 =? 0x1).

(** Everything after a successful interface-condition command, up to the
    label [end_of_initialization]. *)
Definition reset_negotiate (fuel : nat) (crc_enable : bool)
  (send_if_cond_response : list Z) (status : sd_error) : M sd_error :=
  st <- sd_card_crc_on_off crc_enable ;;
  let status := Z.lor status st in
  if if_cond_illegal send_if_cond_response then
    st <- sd_card_v1_init_process fuel ;; ret (Z.lor status st)
  else if negb (if_cond_accepted send_if_cond_response) then
    ret (Z.lor status SD_UNUSABLE_CARD)
  else
    st <- sd_card_v2_init_process fuel ;; ret (Z.lor status st).

(** The body of [sd_card_reset] before the label. *)
Definition reset_steps (fuel : nat) (crc_enable : bool) : M sd_error :=
  status <- sd_card_enter_spi_mode fuel ;;
  if failed status then ret status
  else
    r <- SEND_CMD cmd_send_if_cond status ;;
    if failed (snd r) then ret (snd r)
    else reset_negotiate fuel crc_enable (fst r) (snd r).

(** The label: [sd_card_status.error_in_initialization = (bool)status;
    return status]. *)
Definition end_of_initialization (status : sd_error) : M sd_error :=
  s <- get_status ;;
  put_status {| version := version s; capacity := capacity s;
                error_in_initialization := failed status |} ;;
  ret status.

Definition sd_card_reset (fuel : nat) (crc_enable : bool) : M sd_error :=
  status <- reset_steps fuel crc_enable ;;
  end_of_initialization status.

(** The two negotiations side by side. *)
Definition init_process_at (rev : revision) (fuel : nat)
  : M (exit_point * sd_error) :=
  match rev with
  | Earlier => sd_card_v1_init_process_at fuel
  | Later => sd_card_v2_init_process_at fuel
  end.

End Driver.

(** Whether an ACMD41 among these events was answered all-flags-clear. *)
Definition ready_event (e : event) : bool :=
  match e with
  | EvCmd c _ resp =>
      sd_command_eqb c acmd_send_op_cond && (r1_of resp =? R1_CLEAR_FLAGS)
  | _ => false
  end.

Definition saw_ready (h : list event) : bool := existsb ready_event h.

(** No tick reading among these events. *)
Definition no_ticks (h : list event) : Prop :=
  forallb (fun e => negb (is_tick e)) h = true.

(** Every tick reading among these events lies within [budget]
    milliseconds of [tickstart], as the code measures it:
    [HAL_GetTick() - tickstart <= budget] in 32-bit arithmetic. *)
Definition within_budget (budget tickstart : Z) (e : event) : Prop :=
  match e with
  | EvTick t => u32 (t - tickstart) <= budget
  | _ => True
  end.

Definition ticks_within (budget tickstart : Z) (h : list event) : Prop :=
  Forall (within_budget budget tickstart) h.

(** What a step leaves alone: the session state and the latch. *)
Definition same_session (m m' : machine) : Prop :=
  sd_card_status m' = sd_card_status m /\
  sd_card_is_spi_mode m' = sd_card_is_spi_mode m.

(** ** [sd_card_get_common_info] *)

(** Modelled from the spec: [sd_info] is declared in a missing header; the
    "geometry result" holds total byte capacity, maximum block size,
    command-class bitmap, maximum transfer speed and whether partial blocks
    are allowed.  The integer fields are taken to be unsigned and at most 32
    bits wide, so that [blocknr * info->max_data_block_size] is a 32-bit
    product, like the [uint32_t] locals next to it.  The speed is kept in
    hundredths instead of a [float]; it is [None] where the code indexes
    [transfer_rate_unit] past its four entries: what the program reads
    there is whatever lies behind the array, which the source does not
    determine, so [None] stands for no defined value and not for a
    value two runs share. *)
Record sd_info := {
  max_transfer_speed : option Z;
  command_classes : Z;
  max_data_block_size : Z;
  partial_blocks_allowed : bool;
  size : Z
}.

(** [csd_register[i]] of the 16-byte buffer, zero where nothing was
    written. *)
Definition csd_register (csd : list Z) (i : nat) : Z := byte_at csd i.

(** In tenths: 0.1, 1, 10, 100. *)
Definition transfer_rate_unit : list Z := [1; 10; 100; 1000].

(** In tenths: 0, 1.0, 1.2, 1.3, 1.5, 2.0, ... 8.0. *)
Definition time_value : list Z :=
  [0; 10; 12; 13; 15; 20; 25; 30; 35; 40; 45; 50; 55; 60; 70; 80].

Definition decode_max_transfer_speed (csd : list Z) : option Z :=
  match nth_error transfer_rate_unit
          (Z.to_nat (Z.land (csd_register csd 3) 0x7)) with
  | Some unit_ =>
      Some (unit_ * nth (Z.to_nat (Z.shiftr (Z.land (csd_register csd 3) 0x78) 3))
                      time_value 0)
  | None => None
  end.

Definition decode_command_classes (csd : list Z) : Z :=
  Z.lor (Z.shiftl (csd_register csd 4) 4)
        (Z.shiftr (Z.land (csd_register csd 5) 0xf0) 4).

(** [powf(2.f, (float)(csd_register[5] & 0xf))]: a power of two with an
    exponent of at most 15 is exact in single precision. *)
Definition decode_max_data_block_size (csd : list Z) : Z :=
  2 ^ Z.land (csd_register csd 5) 0xf.

(** [uint8_t size_mult = (csd_register[9] & 0xe0) >> 5] *)
Definition size_mult (csd : list Z) : Z :=
  u8 (Z.shiftr (Z.land (csd_register csd 9) 0xe0) 5).

(** [(uint32_t)(powf(2.f, (float)size_mult + 2) + 0.5f)] *)
Definition mult (csd : list Z) : Z := u32 (2 ^ (size_mult csd + 2)).

(** [uint16_t device_size = ((csd[6] & 0x3) << 11) | (csd[7] << 2) |
    ((csd[8] & 0xc0) >> 6)] *)
Definition device_size (csd : list Z) : Z :=
  u16 (Z.lor (Z.lor (Z.shiftl (Z.land (csd_register csd 6) 0x3) 11)
                    (Z.shiftl (csd_register csd 7) 2))
             (Z.shiftr (Z.land (csd_register csd 8) 0xc0) 6)).

(** [uint32_t blocknr = (device_size + 1) * mult] *)
Definition blocknr (csd : list Z) : Z := u32 ((device_size csd + 1) * mult csd).

(** [uint32_t c_size = ((csd[7] & 0x3f) << 16) | (csd[8] << 8) | csd[9]] *)
Definition c_size (csd : list Z) : Z :=
  u32 (Z.lor (Z.lor (Z.shiftl (Z.land (csd_register csd 7) 0x3f) 16)
                    (Z.shiftl (csd_register csd 8) 8))
             (csd_register csd 9)).

(** The [if (sd_card_status.version == 1) ... else ...] at the end. *)
Definition decode_size (version : Z) (csd : list Z) : Z :=
  if version =? 1
  then u32 (blocknr csd * decode_max_data_block_size csd)
  else u32 ((c_size csd + 1) * 512).

Definition decode_info (version : Z) (csd : list Z) : sd_info :=
  {| max_transfer_speed := decode_max_transfer_speed csd;
     command_classes := decode_command_classes csd;
     max_data_block_size := decode_max_data_block_size csd;
     partial_blocks_allowed := negb (Z.land (csd_register csd 6) 0x80 =? 0);
     size := decode_size version csd |}.

(** Returns the status and what [*info] holds afterwards. *)
Definition sd_card_get_common_info {card : Transport} (info : sd_info)
  : M (sd_error * sd_info) :=
  r <- sd_card_get_csd ;;
  if failed (fst r) then ret (fst r, info)
  else
    s <- get_status ;;
    ret (SD_OK, decode_info (version s) (snd r)).

(** ** The spec's reading of the device-size field

    The spec speaks of "a 12-bit device-size field" spread over CSD bytes 6
    to 8: the two low bits of byte 6, all of byte 7 and the two high bits of
    byte 8, read as one 12-bit number (the register's C_SIZE). *)
Definition device_size_field (csd : list Z) : Z :=
  Z.land (csd_register csd 6) 0x3 * 2 ^ 10
  + csd_register csd 7 * 2 ^ 2
  + Z.shiftr (csd_register csd 8) 6.

(** A CSD block whose device-size field reads 1024 (bit 10 set: the low bit
    of byte 6), everything else zero. *)
Definition csd_device_size_1024 : list Z :=
  [0x00; 0x00; 0x00; 0x00; 0x00; 0x00; 0x01; 0x00;
   0x00; 0x00; 0x00; 0x00; 0x00; 0x00; 0x00; 0x00].

(** ** Simulated cards

    A transport given by scripts: what the n-th transmit, the n-th receive
    and the n-th tick reading answer, and what the n-th issue of the command
    with a given index answers (all counted from 0). *)

Record script := {
  on_transmit : nat -> sd_error;
  on_receive : nat -> sd_error * Z;
  on_tick : nat -> Z;
  on_command : Z -> nat -> sd_error * list Z;
  on_csd : sd_error * list Z
}.

Definition is_transmit (e : event) : bool :=
  match e with EvTransmit _ _ => true | _ => false end.

Definition is_receive (e : event) : bool :=
  match e with EvReceive _ _ => true | _ => false end.

Definition is_command (index : Z) (e : event) : bool :=
  match e with EvCmd c _ _ => cmd_index c =? index | _ => false end.

Definition count (p : event -> bool) (h : list event) : nat :=
  length (filter p h).

Definition scripted (s : script) : Transport :=
  {| hw_transmit := fun h _ => on_transmit s (count is_transmit h);
     hw_receive := fun h => on_receive s (count is_receive h);
     hw_tick := fun h => on_tick s (count is_tick h);
     hw_command := fun h c =>
       on_command s (cmd_index c) (count (is_command (cmd_index c)) h);
     hw_csd := fun _ => on_csd s |}.

(** A card of the later revision: accepts the interface condition, reports
    the full voltage window and the capacity bit [ocr0] in OCR byte 0, and
    is ready at the [ready_at]-th ACMD41.  The clock advances [ms]
    milliseconds between two readings. *)
Definition v2_commands (ocr0 : Z) (ready_at : nat) (index : Z) (n : nat)
  : sd_error * list Z :=
  if index =? 8 then (SD_OK, [0x01; 0x00; 0x00; 0x01; 0x55])
  else if index =? 58 then (SD_OK, [0x01; ocr0; 0xff; 0x80; 0x00])
  else if index =? 41
  then (SD_OK, [if (ready_at <=? n)%nat then 0x00 else 0x01])
  else (SD_OK, [0x01]).

(** A card of the earlier revision: the interface-condition command is
    illegal; ACMD41 answers [busy] until the [ready_at]-th issue. *)
Definition v1_commands (busy : Z) (ready_at : nat) (index : Z) (n : nat)
  : sd_error * list Z :=
  if index =? 8 then (SD_OK, [0x05; 0x00; 0x00; 0x00; 0x00])
  else if index =? 58 then (SD_OK, [0x01; 0x00; 0xff; 0x80; 0x00])
  else if index =? 41
  then (SD_OK, [if (ready_at <=? n)%nat then 0x00 else busy])
  else (SD_OK, [0x01]).

Definition sample_csd : list Z :=
  [0x00; 0x26; 0x00; 0x32; 0x5f; 0x59; 0x83; 0xff;
   0xc0; 0x5f; 0x00; 0x00; 0x00; 0x00; 0x00; 0x01].

Definition simulated (ms : Z) (commands : Z -> nat -> sd_error * list Z)
  : Transport :=
  scripted {| on_transmit := fun _ => SD_OK;
              on_receive := fun _ => (SD_OK, R1_IN_IDLE_STATE);
              on_tick := fun n => ms * Z.of_nat n;
              on_command := commands;
              on_csd := (SD_OK, sample_csd) |}.

(** A transport whose go-idle transmit (the 11th) reports [bad] and whose
    card never reaches the idle state. *)
Definition silent_card (bad : sd_error) (ms : Z) : Transport :=
  scripted {| on_transmit := fun n => if (n =? 10)%nat then bad else SD_OK;
              on_receive := fun _ => (SD_OK, 0xff);
              on_tick := fun n => ms * Z.of_nat n;
              on_command := fun _ _ => (SD_OK, [0xff]);
              on_csd := (SD_OK, sample_csd) |}.

(** A card whose OCR read reports [bad] and an empty voltage window. *)
Definition no_voltage_commands (bad : sd_error) (r7_status : Z)
  (index : Z) (n : nat) : sd_error * list Z :=
  if index =? 8 then (SD_OK, [r7_status; 0x00; 0x00; 0x01; 0x55])
  else if index =? 58 then (bad, [0x01; 0x00; 0x00; 0x00; 0x00])
  else (SD_OK, [0x01]).

(** The machine a run leaves behind ([power_up] if it ran out of fuel). *)
Definition machine_after {A} (run : option (A * machine)) : machine :=
  match run with
  | Some (_, m) => m
  | None => power_up
  end.

(** A healthy later-revision card, ready at the third ACMD41, after mode
    entry and after a whole reset. *)
Definition healthy_v2 : Transport := simulated 1 (v2_commands 0x40 2).

Definition healthy_v2_in_spi_mode : machine :=
  Eval vm_compute in
    machine_after (@sd_card_enter_spi_mode flag_codes healthy_v2 5 power_up).

Definition healthy_v2_after_reset : machine :=
  Eval vm_compute in
    machine_after (@sd_card_reset flag_codes healthy_v2 5 true power_up).

(** A healthy earlier-revision card, ready at the second ACMD41. *)
Definition healthy_v1 : Transport := simulated 1 (v1_commands 0x01 1).

Definition healthy_v1_in_spi_mode : machine :=
  Eval vm_compute in
    machine_after (@sd_card_enter_spi_mode flag_codes healthy_v1 5 power_up).

Definition healthy_v1_after_reset : machine :=
  Eval vm_compute in
    machine_after (@sd_card_reset flag_codes healthy_v1 5 true power_up).

(** An earlier-revision card that stays busy, on a clock that advances 600
    ms between readings. *)
Definition busy_v1 : Transport := simulated 600 (v1_commands 0x01 100).

Definition busy_v1_timed_out : machine :=
  Eval vm_compute in
    machine_after (@sd_card_v1_init_process_at flag_codes busy_v1 5 power_up).

(** A card that answers in-idle-state at once, on a clock that advances
    501 ms between readings. *)
Definition slow_clock : Transport := simulated 501 (v2_commands 0x40 2).

Definition slow_clock_timed_out : machine :=
  Eval vm_compute in
    machine_after (@sd_card_enter_spi_mode_at flag_codes slow_clock 5 power_up).

(** A transport whose go-idle transmit reports a transmission error and
    whose card never reaches the idle state. *)
Definition faulty_silent : Transport := silent_card 4 300.

Definition faulty_silent_after_reset : machine :=
  Eval vm_compute in
    machine_after (@sd_card_reset flag_codes faulty_silent 5 true power_up).

Definition faulty_silent_timed_out : machine :=
  Eval vm_compute in
    machine_after (@sd_card_enter_spi_mode_at flag_codes faulty_silent 5
                     power_up).

(** A busy earlier-revision card on a clock that reads 0 twice and 5000
    from then on. *)
Definition jumping_clock : Transport :=
  scripted {| on_transmit := fun _ => SD_OK;
              on_receive := fun _ => (SD_OK, 0xff);
              on_tick := fun n => if (n <? 2)%nat then 0 else 5000;
              on_command := v1_commands 0x01 100;
              on_csd := (SD_OK, sample_csd) |}.

(** A later-revision card that echoes the wrong check pattern. *)
Definition bad_echo_commands (index : Z) (n : nat) : sd_error * list Z :=
  if index =? 8 then (SD_OK, [0x01; 0x00; 0x00; 0x01; 0xaa])
  else (SD_OK, [0x01]).

Definition bad_echo : Transport := simulated 1 bad_echo_commands.

Definition bad_echo_in_spi_mode : machine :=
  Eval vm_compute in
    machine_after (@sd_card_enter_spi_mode flag_codes bad_echo 5 power_up).

(** [*info] before the call. *)
Definition blank_info : sd_info :=
  {| max_transfer_speed := None; command_classes := 0;
     max_data_block_size := 0; partial_blocks_allowed := false; size := 0 |}.

(** ** Vocabulary for the properties of whole calls *)

(** [k] rounds of polling, as commands: CMD55 then ACMD41, [k] times. *)
Fixpoint poll_commands (k : nat) : list sd_command :=
  match k with
  | O => []
  | S k' => cmd_app :: acmd_send_op_cond :: poll_commands k'
  end.

(** The chip-select line as the most recent [SELECT_SD] or [DISELECT_SD]
    among these events left it: [Some true] selected, [Some false]
    deselected, [None] if neither occurs. *)
Fixpoint chip_select (h : list event) : option bool :=
  match h with
  | [] => None
  | EvSelect :: _ => Some true
  | EvDeselect :: _ => Some false
  | _ :: h' => chip_select h'
  end.

Definition exit_point_is_end (at_ : exit_point) : bool :=
  match at_ with AtEnd => true | _ => false end.

Definition is_receive_or_tick (e : event) : bool :=
  match e with EvReceive _ _ | EvTick _ => true | _ => false end.

Definition is_command_or_tick (e : event) : bool :=
  match e with EvCmd _ _ _ | EvTick _ => true | _ => false end.

(** The machine with [sd_card_status.error_in_initialization] overwritten. *)
Definition with_error_flag (b : bool) (m : machine) : machine :=
  {| history := history m;
     sd_card_status :=
       {| version := version (sd_card_status m);
          capacity := capacity (sd_card_status m);
          error_in_initialization := b |};
     sd_card_is_spi_mode := sd_card_is_spi_mode m |}.

(** A transport and card that cooperate with a reset: every transfer
    succeeds, every received byte is in-idle-state, the clock runs slowly
    enough for the deadlines (from one reading to the next it advances
    by at most 500 ms, and over any stretch of up to [n] further readings
    by at most 1000 ms, both modulo 2^32), the interface condition is
    answered as a card of revision [rev] does, CRC on/off is accepted, the
    OCR reports the voltage window, ACMD41 is never answered with the
    illegal-command flag, and it is answered all-flags-clear from its
    [n]-th issue on. *)
Record cooperative {card : Transport} (rev : revision) (crc_enable : bool)
    (n : nat) : Prop := {
  coop_transmit : forall h p, hw_transmit h p = SD_OK;
  coop_receive : forall h,
    fst (hw_receive h) = SD_OK /\
    u8 (snd (hw_receive h)) = R1_IN_IDLE_STATE;
  coop_clock_entry : forall h h',
    count is_tick h' = S (count is_tick h) ->
    u32 (hw_tick h' - hw_tick h) <= 500;
  coop_clock_poll : forall h h',
    (count is_tick h <= count is_tick h')%nat ->
    (count is_tick h' - count is_tick h <= n)%nat ->
    u32 (hw_tick h' - hw_tick h) <= 1000;
  coop_if_cond : forall h,
    fst (hw_command h cmd_send_if_cond) = SD_OK /\
    match rev with
    | Earlier => if_cond_illegal (snd (hw_command h cmd_send_if_cond)) = true
    | Later =>
        if_cond_illegal (snd (hw_command h cmd_send_if_cond)) = false /\
        if_cond_accepted (snd (hw_command h cmd_send_if_cond)) = true
    end;
  coop_crc : forall h,
    fst (hw_command h (cmd_crc_on_off crc_enable)) = SD_OK /\
    r1_of (snd (hw_command h (cmd_crc_on_off crc_enable))) = R1_IN_IDLE_STATE;
  coop_ocr : forall h,
    fst (hw_command h cmd_read_ocr) = SD_OK /\
    voltage_window_ok (snd (hw_command h cmd_read_ocr)) = true;
  coop_app : forall h, fst (hw_command h cmd_app) = SD_OK;
  coop_op_cond : forall h,
    fst (hw_command h acmd_send_op_cond) = SD_OK /\
    Z.land (r1_of (snd (hw_command h acmd_send_op_cond))) R1_ILLEGAL_COMMAND
    = 0;
  coop_ready : forall h,
    (n <= count (is_command 41) h)%nat ->
    r1_of (snd (hw_command h acmd_send_op_cond)) = R1_CLEAR_FLAGS
}.

(** A clock that advances: over any stretch of up to [budget] further
    readings, the reading has grown (modulo 2^32) by at least one
    millisecond per reading. *)
Definition advancing {card : Transport} (budget : nat) : Prop :=
  forall h h',
    (count is_tick h <= count is_tick h')%nat ->
    (count is_tick h' - count is_tick h <= budget)%nat ->
    Z.of_nat (count is_tick h' - count is_tick h)
    <= u32 (hw_tick h' - hw_tick h).

(** A clock that stands still as far as the deadlines can tell, and a
    transport that works while the card never sends the in-idle-state
    byte. *)
Record stopped_clock_and_mute_card {card : Transport} : Prop := {
  mute_transmit : forall h p, hw_transmit h p = SD_OK;
  mute_receive : forall h,
    fst (hw_receive h) = SD_OK /\
    u8 (snd (hw_receive h)) <> R1_IN_IDLE_STATE;
  mute_clock : forall h h', u32 (u32 (hw_tick h') - u32 (hw_tick h)) <= 500
}.

(** Two CSD blocks that agree on bytes 3 to 9. *)
Definition same_bytes_3_to_9 (csd csd' : list Z) : Prop :=
  forall i, (3 <= i <= 9)%nat -> csd_register csd i = csd_register csd' i.

(** ** More simulated cards *)

(** An earlier-revision card whose CMD55 reports a transmission error
    although the card answers, ready at the first ACMD41. *)
Definition flaky_commands (index : Z) (n : nat) : sd_error * list Z :=
  if index =? 8 then (SD_OK, [0x05; 0x00; 0x00; 0x00; 0x00])
  else if index =? 58 then (SD_OK, [0x01; 0x00; 0xff; 0x80; 0x00])
  else if index =? 55 then (4, [0x01])
  else if index =? 41 then (SD_OK, [0x00])
  else (SD_OK, [0x01]).

Definition flaky_v1 : Transport := simulated 1 flaky_commands.

(** A later-revision card that answers CMD59 with all flags clear instead
    of in-idle-state. *)
Definition crc_refused_commands (index : Z) (n : nat) : sd_error * list Z :=
  if index =? 59 then (SD_OK, [0x00]) else v2_commands 0x02 1 index n.

Definition crc_refused : Transport := simulated 1 crc_refused_commands.

(** A card whose interface-condition command fails on the transport. *)
Definition if_cond_failing_commands (index : Z) (n : nat)
  : sd_error * list Z :=
  if index =? 8 then (4, [0xff; 0xff; 0xff; 0xff; 0xff])
  else v2_commands 0x02 1 index n.

Definition if_cond_failing : Transport := simulated 1 if_cond_failing_commands.

(** A transport that works, a card that never leaves 0xff, and a clock
    that stands still. *)
Definition mute_card : Transport := silent_card SD_OK 0.

(** Machines the runs below end in. *)
Definition flaky_v1_negotiated : machine :=
  Eval vm_compute in
    machine_after (@init_process_at flag_codes flaky_v1 Earlier 5 power_up).

Definition flaky_v1_after_reset : machine :=
  Eval vm_compute in
    machine_after (@sd_card_reset flag_codes flaky_v1 5 true power_up).

Definition crc_refused_after_reset : machine :=
  Eval vm_compute in
    machine_after (@sd_card_reset flag_codes crc_refused 5 true power_up).

Definition healthy_v2_reset_again : machine :=
  Eval vm_compute in
    machine_after (@sd_card_reset flag_codes healthy_v2 5 true
                     healthy_v2_after_reset).

(** The sample register with other bytes 0 to 2 and 10 to 15. *)
Definition sample_csd_reframed : list Z :=
  [0x40; 0x0e; 0x7f; 0x32; 0x5f; 0x59; 0x83; 0xff;
   0xc0; 0x5f; 0xff; 0x12; 0x34; 0x56; 0x78; 0x9b].

(** * Properties *)

(** ** Bitwise OR of statuses *)

Lemma or_statuses_app (h2 h1 : list event) :
  or_statuses (h2 ++ h1) = Z.lor (or_statuses h1) (or_statuses h2).
Proof.
  induction h2 as [|e h2 IH]; cbn [or_statuses app].
  - unfold SD_OK. now rewrite Z.lor_0_r.
  - now rewrite IH, Z.lor_assoc.
Qed.

Lemma lor_zero_both (a b : Z) : Z.lor a b = 0 -> a = 0 /\ b = 0.
Proof. intros H. now apply Z.lor_eq_0_iff. Qed.

Lemma u32_sub (a b : Z) : u32 (u32 a - u32 b) = u32 (a - b).
Proof. unfold u32. now rewrite <- Zminus_mod. Qed.

Lemma failed_false (s : sd_error) : failed s = false -> s = SD_OK.
Proof.
  unfold failed, SD_OK. intros H. apply negb_false_iff in H. now apply Z.eqb_eq.
Qed.

Lemma failed_true (s : sd_error) : failed s = true -> s <> SD_OK.
Proof.
  unfold failed, SD_OK. intros H. apply negb_true_iff in H. now apply Z.eqb_neq.
Qed.

(** A status that is OK was built from OK statuses only. *)
Lemma or_statuses_ok (h : list event) :
  or_statuses h = SD_OK -> Forall (fun e => event_status e = SD_OK) h.
Proof.
  unfold SD_OK. induction h as [|e h IH]; cbn [or_statuses]; intros H.
  - constructor.
  - apply lor_zero_both in H. destruct H as [H1 H2]. constructor; auto.
Qed.

(** ** Reading a run of the monad *)

Lemma bind_inv {A B} (c : M A) (k : A -> M B) (m m' : machine) (b : B) :
  bind c k m = Some (b, m') ->
  exists a m1, c m = Some (a, m1) /\ k a m1 = Some (b, m').
Proof.
  unfold bind. destruct (c m) as [[a m1]|]; [|discriminate].
  intros H. now exists a, m1.
Qed.

Lemma bind_run {A B} (c : M A) (k : A -> M B) (m m1 : machine) (a : A) :
  c m = Some (a, m1) -> bind c k m = k a m1.
Proof. unfold bind. now intros ->. Qed.

Ltac bind_inv H :=
  let a := fresh "a" in
  let m1 := fresh "m" in
  let E := fresh "E" in
  apply bind_inv in H; destruct H as (a & m1 & E & H).

Lemma no_ticks_app (h2 h1 : list event) :
  no_ticks h2 -> no_ticks h1 -> no_ticks (h2 ++ h1).
Proof.
  unfold no_ticks. intros H2 H1. rewrite forallb_app. now rewrite H2, H1.
Qed.

Lemma ticks_within_app (budget tickstart : Z) (h2 h1 : list event) :
  ticks_within budget tickstart h2 -> ticks_within budget tickstart h1 ->
  ticks_within budget tickstart (h2 ++ h1).
Proof. unfold ticks_within. intros H2 H1. apply Forall_app. now split. Qed.

Section Properties.

Context {codes : sd_error_codes} {card : Transport}.

(** ** [sd_card_power_on] *)

Lemma transmit_dummy_run (n : nat) (status : sd_error) (m : machine) :
  exists h,
    transmit_dummy n status m
    = Some (Z.lor status (or_statuses h),
            {| history := h ++ history m;
               sd_card_status := sd_card_status m;
               sd_card_is_spi_mode := sd_card_is_spi_mode m |})
    /\ no_ticks h.
Proof.
  revert status m. induction n as [|n IH]; intros status m.
  - exists []. cbn. unfold ret, SD_OK. rewrite Z.lor_0_r.
    destruct m; split; reflexivity.
  - cbn [transmit_dummy]. unfold bind at 1. cbn [HAL_SPI_Transmit].
    destruct (IH (Z.lor status (hw_transmit (history m) (Bytes [255])))
                 (log (EvTransmit (Bytes [255])
                         (hw_transmit (history m) (Bytes [255]))) m))
      as (h & E & T).
    exists (h ++ [EvTransmit (Bytes [255])
                    (hw_transmit (history m) (Bytes [255]))]).
    split.
    + rewrite E. cbn [log history sd_card_status sd_card_is_spi_mode].
      rewrite or_statuses_app. cbn [or_statuses event_status].
      unfold SD_OK. rewrite Z.lor_0_l, Z.lor_assoc, <- app_assoc.
      reflexivity.
    + apply no_ticks_app; [assumption | reflexivity].
Qed.

Lemma power_on_run (m : machine) :
  exists h,
    sd_card_power_on m
    = Some (or_statuses h,
            {| history := h ++ history m;
               sd_card_status := sd_card_status m;
               sd_card_is_spi_mode := sd_card_is_spi_mode m |})
    /\ no_ticks h.
Proof.
  unfold sd_card_power_on.
  destruct (transmit_dummy_run 10 SD_OK (log EvDeselect m)) as (h & E & T).
  set (m1 := {| history := h ++ history (log EvDeselect m);
                sd_card_status := sd_card_status (log EvDeselect m);
                sd_card_is_spi_mode := sd_card_is_spi_mode (log EvDeselect m) |})
    in E.
  exists (EvReceive (fst (hw_receive (history m1)))
                    (u8 (snd (hw_receive (history m1))))
          :: h ++ [EvDeselect]).
  split.
  - unfold bind at 1. cbn [DISELECT_SD]. rewrite (bind_run _ _ _ _ _ E).
    unfold bind, sd_card_receive_byte, ret. cbn [fst snd].
    subst m1. cbn [log history sd_card_status sd_card_is_spi_mode].
    cbn [or_statuses event_status]. rewrite or_statuses_app.
    cbn [or_statuses event_status]. unfold SD_OK, log.
    cbn [app history sd_card_status sd_card_is_spi_mode].
    rewrite !Z.lor_0_l, <- app_assoc. reflexivity.
  - unfold no_ticks. cbn [forallb is_tick negb andb].
    apply no_ticks_app; [assumption | reflexivity].
Qed.


(** ** [sd_card_enter_spi_mode] *)

(** The polling loop only receives and reads the clock.  It is left
    normally right after a status byte equal to in-idle-state, with the OR
    of everything seen; it returns the timeout code only on a tick reading
    more than 500 ms after [tickstart]. *)
Lemma spi_mode_poll_inv (fuel : nat) (tickstart : Z) (status : sd_error)
    (m m' : machine) (e : poll_exit) :
  spi_mode_poll fuel tickstart status m = Some (e, m') ->
  exists t h,
    history m' = EvTick t :: h ++ history m /\
    same_session m m' /\
    ticks_within 500 tickstart h /\
    match e with
    | PollDone status' =>
        status' = Z.lor status (or_statuses (EvTick t :: h)) /\
        u32 (t - tickstart) <= 500 /\
        exists st h', h = EvReceive st R1_IN_IDLE_STATE :: h'
    | PollReturn at_ code =>
        at_ = AtDeadline /\ code = SD_TIMEOUT /\ 500 < u32 (t - tickstart)
    end.
Proof.
  revert status m. induction fuel as [|fuel IH]; intros status m H.
  - discriminate.
  - cbn [spi_mode_poll] in H. unfold bind at 1 in H.
    cbn [sd_card_receive_byte fst snd] in H.
    set (rx := hw_receive (history m)) in *.
    set (m1 := log (EvReceive (fst rx) (u8 (snd rx))) m) in *.
    unfold bind at 1 in H. cbn [HAL_GetTick] in H.
    set (t := u32 (hw_tick (history m1))) in *.
    destruct (500 <? u32 (t - tickstart)) eqn:D.
    + inversion H; subst e m'; clear H.
      exists t, [EvReceive (fst rx) (u8 (snd rx))].
      split; [reflexivity|]. split; [now split|].
      split; [repeat constructor|]. repeat split.
      now apply Z.ltb_lt.
    + apply Z.ltb_ge in D.
      destruct (u8 (snd rx) =? R1_IN_IDLE_STATE) eqn:I.
      * apply Z.eqb_eq in I. inversion H; subst e m'; clear H.
        exists t, [EvReceive (fst rx) (u8 (snd rx))].
        split; [reflexivity|]. split; [now split|].
        split; [repeat constructor|]. repeat split.
        -- cbn [or_statuses event_status]. unfold SD_OK.
           now rewrite Z.lor_0_r, Z.lor_0_l.
        -- assumption.
        -- exists (fst rx), []. now rewrite I.
      * apply IH in H. destruct H as (t' & h & Hh & Hs & Hw & He).
        exists t', (h ++ [EvTick t; EvReceive (fst rx) (u8 (snd rx))]).
        split; [|split; [|split]].
        -- rewrite Hh. cbn [log history app]. rewrite <- app_assoc.
           reflexivity.
        -- exact Hs.
        -- apply ticks_within_app; [exact Hw|].
           constructor; [exact D | repeat constructor].
        -- destruct e as [status'|at_ code]; [|exact He].
           destruct He as (Hst & Hd & st & h' & Hh').
           split; [|split; [exact Hd|]].
           ++ rewrite Hst. cbn [or_statuses]. rewrite or_statuses_app.
              cbn [or_statuses event_status]. unfold SD_OK.
              rewrite !Z.lor_0_r, !Z.lor_0_l, !Z.lor_assoc. reflexivity.
           ++ exists st, (h' ++ [EvTick t; EvReceive (fst rx) (u8 (snd rx))]).
              now rewrite Hh'.
Qed.

(** Flatten an OR of statuses over appended histories. *)
Ltac or_norm :=
  repeat (progress (cbn [or_statuses event_status app];
                    rewrite ?or_statuses_app));
  unfold SD_OK;
  rewrite ?Z.lor_0_r, ?Z.lor_0_l, ?Z.lor_assoc.

(** Every way [sd_card_enter_spi_mode] can return, with what it did. *)
Lemma enter_spi_mode_at_inv (fuel : nat) (m m' : machine)
    (at_ : exit_point) (r : sd_error) :
  sd_card_enter_spi_mode_at fuel m = Some ((at_, r), m') ->
  sd_card_status m' = sd_card_status m /\
  match at_ with
  | AtLatch =>
      sd_card_is_spi_mode m = true /\ r = SD_OK /\ m' = m
  | AtPowerOn =>
      sd_card_is_spi_mode m = false /\ sd_card_is_spi_mode m' = false /\
      r <> SD_OK /\
      exists h, history m' = h ++ history m /\ r = or_statuses h /\ no_ticks h
  | AtDeadline =>
      sd_card_is_spi_mode m = false /\ sd_card_is_spi_mode m' = false /\
      r = SD_TIMEOUT /\
      exists t t0 h1 h0,
        history m' = EvTick t :: h1 ++ EvTick t0 :: h0 ++ history m /\
        no_ticks h0 /\ 500 < u32 (t - t0) /\ ticks_within 500 t0 h1
  | AtEnd =>
      sd_card_is_spi_mode m = false /\
      sd_card_is_spi_mode m' = (r =? SD_OK) /\
      exists h, history m' = h ++ history m /\ r = or_statuses h /\
        exists t st h',
          h = EvDeselect :: EvTick t :: EvReceive st R1_IN_IDLE_STATE :: h'
  | AtVoltage | AtIllegal => False
  end.
Proof.
  unfold sd_card_enter_spi_mode_at. intros H.
  unfold bind at 1 in H. cbn [get_spi_mode] in H.
  destruct (sd_card_is_spi_mode m) eqn:L.
  { inversion H; subst. repeat split. }
  destruct (power_on_run m) as (hp & Ep & Tp).
  rewrite (bind_run _ _ _ _ _ Ep) in H.
  set (mp := {| history := hp ++ history m;
                sd_card_status := sd_card_status m;
                sd_card_is_spi_mode := sd_card_is_spi_mode m |}) in *.
  destruct (failed (or_statuses hp)) eqn:F.
  { inversion H; subst at_ r m'; clear H. split; [reflexivity|].
    repeat split; [exact L | now apply failed_true |].
    exists hp. repeat split. exact Tp. }
  apply failed_false in F.
  unfold bind at 1 in H. cbn [SELECT_SD] in H.
  unfold bind at 1 in H. cbn [HAL_SPI_Transmit] in H.
  set (ma := log EvSelect mp) in *.
  set (st1 := hw_transmit (history ma) (Frame cmd_go_idle_state)) in *.
  set (mb := log (EvTransmit (Frame cmd_go_idle_state) st1) ma) in *.
  unfold bind at 1 in H. cbn [sd_card_receive_byte fst snd] in H.
  set (rx := hw_receive (history mb)) in *.
  set (mc := log (EvReceive (fst rx) (u8 (snd rx))) mb) in *.
  unfold bind at 1 in H. cbn [HAL_GetTick] in H.
  set (t0 := u32 (hw_tick (history mc))) in *.
  set (md := log (EvTick t0) mc) in *.
  bind_inv H. apply spi_mode_poll_inv in E.
  destruct E as (t & h & Hh & [Hs Hl] & Hw & He).
  set (h0 := [EvReceive (fst rx) (u8 (snd rx));
              EvTransmit (Frame cmd_go_idle_state) st1; EvSelect] ++ hp).
  assert (H4 : history md = EvTick t0 :: h0 ++ history m)
    by (subst h0; rewrite <- app_assoc; reflexivity).
  assert (T4 : no_ticks h0)
    by (apply no_ticks_app; [reflexivity | exact Tp]).
  destruct a as [status'|at' code].
  - destruct He as (Hst & Hd & st & h' & Hh').
    assert (Hor : status' = or_statuses (EvTick t :: h ++ EvTick t0 :: h0)).
    { rewrite Hst. subst h0. or_norm. reflexivity. }
    unfold bind at 1 in H. cbn [DISELECT_SD] in H. unfold bind, ret in H.
    assert (Hend : exists l,
               m' = {| history := EvDeselect :: history m0;
                       sd_card_status := sd_card_status m0;
                       sd_card_is_spi_mode := l |}
               /\ l = (status' =? SD_OK) /\ at_ = AtEnd /\ r = status').
    { destruct (status' =? SD_OK) eqn:Q; cbn [set_spi_mode] in H;
        inversion H; subst at_ r m'; clear H; eexists;
        (split; [reflexivity|]); repeat split.
      cbn [log sd_card_is_spi_mode]. rewrite Hl. exact L. }
    clear H. destruct Hend as (l & -> & -> & -> & ->).
    cbn [history sd_card_status sd_card_is_spi_mode].
    split; [exact Hs|]. split; [reflexivity|]. split; [reflexivity|].
    exists (EvDeselect :: EvTick t :: h ++ EvTick t0 :: h0).
    split; [rewrite Hh, H4; cbn [app]; now rewrite <- app_assoc|].
    split; [cbn [or_statuses event_status]; unfold SD_OK;
            rewrite Z.lor_0_r; exact Hor|].
    exists t, st, (h' ++ EvTick t0 :: h0). now rewrite Hh'.
  - destruct He as (-> & -> & Hd). inversion H; subst at_ r m'; clear H.
    split; [exact Hs|]. split; [reflexivity|].
    split; [rewrite Hl; exact L|]. split; [reflexivity|].
    exists t, t0, h, h0.
    repeat split; [| exact T4 | exact Hd | exact Hw].
    rewrite Hh, H4. reflexivity.
Qed.

(** ** The negotiations *)

Lemma saw_ready_app (h2 h1 : list event) :
  saw_ready (h2 ++ h1) = saw_ready h2 || saw_ready h1.
Proof. apply existsb_app. Qed.

Lemma op_cond_round_run (status : sd_error) (m : machine) :
  exists s1 r1 s2 r2,
    op_cond_round status m
    = Some ((r2, Z.lor (Z.lor status s1) s2),
            {| history := [EvCmd acmd_send_op_cond s2 r2;
                           EvCmd cmd_app s1 r1] ++ history m;
               sd_card_status := sd_card_status m;
               sd_card_is_spi_mode := sd_card_is_spi_mode m |}).
Proof. repeat eexists. Qed.

Lemma v1_poll_unfold (fuel : nat) (tickstart : Z) (status : sd_error) :
  v1_poll (S fuel) tickstart status
  = (op <- op_cond_round status ;;
     if r1_of (fst op) =? R1_CLEAR_FLAGS then ret (PollDone (snd op))
     else if negb (Z.land (r1_of (fst op)) R1_ILLEGAL_COMMAND =? 0)
     then ret (PollReturn AtIllegal SD_UNUSABLE_CARD)
     else
       now <- HAL_GetTick ;;
       if 1000 <? u32 (now - tickstart)
       then ret (PollReturn AtDeadline SD_TIMEOUT)
       else v1_poll fuel tickstart (snd op)).
Proof. reflexivity. Qed.

Lemma v2_poll_unfold (fuel : nat) (tickstart : Z) (status : sd_error) :
  v2_poll (S fuel) tickstart status
  = (op <- op_cond_round status ;;
     if r1_of (fst op) =? R1_CLEAR_FLAGS then ret (PollDone (snd op))
     else
       now <- HAL_GetTick ;;
       if 1000 <? u32 (now - tickstart)
       then ret (PollReturn AtDeadline SD_TIMEOUT)
       else v2_poll fuel tickstart (snd op)).
Proof. reflexivity. Qed.

(** How the earlier-revision loop can be left. *)
Lemma v1_poll_inv (fuel : nat) (tickstart : Z) (status : sd_error)
    (m m' : machine) (e : poll_exit) :
  v1_poll fuel tickstart status m = Some (e, m') ->
  exists h,
    history m' = h ++ history m /\
    same_session m m' /\
    (exists e0 h', h = e0 :: h' /\ ticks_within 1000 tickstart h') /\
    match e with
    | PollDone status' =>
        status' = Z.lor status (or_statuses h) /\
        exists s resp h',
          h = EvCmd acmd_send_op_cond s resp :: h' /\
          r1_of resp = R1_CLEAR_FLAGS
    | PollReturn at_ code =>
        saw_ready h = false /\
        ((at_ = AtIllegal /\ code = SD_UNUSABLE_CARD /\
          exists s resp h',
            h = EvCmd acmd_send_op_cond s resp :: h' /\
            Z.land (r1_of resp) R1_ILLEGAL_COMMAND <> 0)
         \/
         (at_ = AtDeadline /\ code = SD_TIMEOUT /\
          exists t h', h = EvTick t :: h' /\ 1000 < u32 (t - tickstart)))
    end.
Proof.
  revert status m. induction fuel as [|fuel IH]; intros status m H.
  - discriminate.
  - rewrite v1_poll_unfold in H.
    destruct (op_cond_round_run status m) as (s1 & r1 & s2 & r2 & E).
    rewrite (bind_run _ _ _ _ _ E) in H. cbn [fst snd] in H.
    set (m1 := {| history := _ |}) in *.
    destruct (r1_of r2 =? R1_CLEAR_FLAGS) eqn:C.
    { apply Z.eqb_eq in C. inversion H; subst e m'; clear H.
      eexists. split; [reflexivity|]. split; [now split|].
      split; [eexists _, _; split; [reflexivity | repeat constructor]|].
      split; [or_norm; reflexivity|]. now exists s2, r2, [EvCmd cmd_app s1 r1]. }
    assert (R : saw_ready [EvCmd acmd_send_op_cond s2 r2; EvCmd cmd_app s1 r1]
                = false).
    { cbn. now rewrite C. }
    destruct (negb (Z.land (r1_of r2) R1_ILLEGAL_COMMAND =? 0)) eqn:I.
    { apply negb_true_iff, Z.eqb_neq in I. inversion H; subst e m'; clear H.
      eexists. split; [reflexivity|]. split; [now split|].
      split; [eexists _, _; split; [reflexivity | repeat constructor]|].
      split; [exact R|]. left. split; [reflexivity|]. split; [reflexivity|].
      now exists s2, r2, [EvCmd cmd_app s1 r1]. }
    unfold bind at 1 in H. cbn [HAL_GetTick] in H.
    set (t := u32 (hw_tick (history m1))) in *.
    destruct (1000 <? u32 (t - tickstart)) eqn:D.
    { apply Z.ltb_lt in D. inversion H; subst e m'; clear H.
      exists (EvTick t :: [EvCmd acmd_send_op_cond s2 r2; EvCmd cmd_app s1 r1]).
      split; [reflexivity|]. split; [now split|].
      split; [eexists _, _; split; [reflexivity | repeat constructor]|].
      split; [exact R|]. right. split; [reflexivity|]. split; [reflexivity|].
      eexists t, _. split; [reflexivity | exact D]. }
    apply Z.ltb_ge in D.
    apply IH in H. destruct H as (h & Hh & Hs & (e0 & hw & Hhw & Hw) & He).
    exists (h ++ EvTick t :: [EvCmd acmd_send_op_cond s2 r2; EvCmd cmd_app s1 r1]).
    split; [rewrite Hh; cbn [log history]; now rewrite <- app_assoc|].
    split; [exact Hs|].
    split.
    { exists e0, (hw ++ EvTick t :: [EvCmd acmd_send_op_cond s2 r2;
                                      EvCmd cmd_app s1 r1]).
      split; [now rewrite Hhw|].
      apply ticks_within_app; [exact Hw|].
      constructor; [exact D | repeat constructor]. }
    destruct e as [status'|at_ code].
    + destruct He as (Hst & s & resp & h' & Hh' & Hr).
      split; [rewrite Hst; or_norm; reflexivity|].
      exists s, resp, (h' ++ EvTick t :: [EvCmd acmd_send_op_cond s2 r2;
                                          EvCmd cmd_app s1 r1]).
      now rewrite Hh'.
    + destruct He as (Hr & He). split.
      * rewrite saw_ready_app, Hr. cbn [orb saw_ready existsb ready_event].
        exact R.
      * destruct He as [(-> & -> & s & resp & h' & -> & Hi)
                       |(-> & -> & t' & h' & -> & Hd)]; [left|right];
          (split; [reflexivity|]); (split; [reflexivity|]).
        -- eexists s, resp, _. split; [reflexivity | exact Hi].
        -- eexists t', _. split; [reflexivity | exact Hd].
Qed.

(** How the later-revision loop can be left: never by the illegal-command
    exit. *)
Lemma v2_poll_inv (fuel : nat) (tickstart : Z) (status : sd_error)
    (m m' : machine) (e : poll_exit) :
  v2_poll fuel tickstart status m = Some (e, m') ->
  exists h,
    history m' = h ++ history m /\
    same_session m m' /\
    (exists e0 h', h = e0 :: h' /\ ticks_within 1000 tickstart h') /\
    match e with
    | PollDone status' =>
        status' = Z.lor status (or_statuses h) /\
        exists s resp h',
          h = EvCmd acmd_send_op_cond s resp :: h' /\
          r1_of resp = R1_CLEAR_FLAGS
    | PollReturn at_ code =>
        saw_ready h = false /\
        at_ = AtDeadline /\ code = SD_TIMEOUT /\
        exists t h', h = EvTick t :: h' /\ 1000 < u32 (t - tickstart)
    end.
Proof.
  revert status m. induction fuel as [|fuel IH]; intros status m H.
  - discriminate.
  - rewrite v2_poll_unfold in H.
    destruct (op_cond_round_run status m) as (s1 & r1 & s2 & r2 & E).
    rewrite (bind_run _ _ _ _ _ E) in H. cbn [fst snd] in H.
    set (m1 := {| history := _ |}) in *.
    destruct (r1_of r2 =? R1_CLEAR_FLAGS) eqn:C.
    { apply Z.eqb_eq in C. inversion H; subst e m'; clear H.
      eexists. split; [reflexivity|]. split; [now split|].
      split; [eexists _, _; split; [reflexivity | repeat constructor]|].
      split; [or_norm; reflexivity|]. now exists s2, r2, [EvCmd cmd_app s1 r1]. }
    assert (R : saw_ready [EvCmd acmd_send_op_cond s2 r2; EvCmd cmd_app s1 r1]
                = false).
    { cbn. now rewrite C. }
    unfold bind at 1 in H. cbn [HAL_GetTick] in H.
    set (t := u32 (hw_tick (history m1))) in *.
    destruct (1000 <? u32 (t - tickstart)) eqn:D.
    { apply Z.ltb_lt in D. inversion H; subst e m'; clear H.
      exists (EvTick t :: [EvCmd acmd_send_op_cond s2 r2; EvCmd cmd_app s1 r1]).
      split; [reflexivity|]. split; [now split|].
      split; [eexists _, _; split; [reflexivity | repeat constructor]|].
      split; [exact R|]. split; [reflexivity|]. split; [reflexivity|].
      eexists t, _. split; [reflexivity | exact D]. }
    apply Z.ltb_ge in D.
    apply IH in H. destruct H as (h & Hh & Hs & (e0 & hw & Hhw & Hw) & He).
    exists (h ++ EvTick t :: [EvCmd acmd_send_op_cond s2 r2; EvCmd cmd_app s1 r1]).
    split; [rewrite Hh; cbn [log history]; now rewrite <- app_assoc|].
    split; [exact Hs|].
    split.
    { exists e0, (hw ++ EvTick t :: [EvCmd acmd_send_op_cond s2 r2;
                                      EvCmd cmd_app s1 r1]).
      split; [now rewrite Hhw|].
      apply ticks_within_app; [exact Hw|].
      constructor; [exact D | repeat constructor]. }
    destruct e as [status'|at_ code].
    + destruct He as (Hst & s & resp & h' & Hh' & Hr).
      split; [rewrite Hst; or_norm; reflexivity|].
      exists s, resp, (h' ++ EvTick t :: [EvCmd acmd_send_op_cond s2 r2;
                                          EvCmd cmd_app s1 r1]).
      now rewrite Hh'.
    + destruct He as (Hr & -> & -> & t' & h' & -> & Hd). split.
      * rewrite saw_ready_app, Hr. cbn [orb saw_ready existsb ready_event].
        exact R.
      * split; [reflexivity|]. split; [reflexivity|].
        eexists t', _. split; [reflexivity | exact Hd].
Qed.

(** Every way [sd_card_v1_init_process] can return.  The call starts with
    the OCR read; [h] is what followed it. *)
Lemma v1_init_process_at_inv (fuel : nat) (m m' : machine)
    (at_ : exit_point) (r : sd_error) :
  sd_card_v1_init_process_at fuel m = Some ((at_, r), m') ->
  sd_card_is_spi_mode m' = sd_card_is_spi_mode m /\
  exists s0 ocr h,
    history m' = h ++ EvCmd cmd_read_ocr s0 ocr :: history m /\
    match at_ with
    | AtVoltage =>
        r = SD_ERROR /\ h = [] /\ voltage_window_ok ocr = false /\
        sd_card_status m' = sd_card_status m
    | AtIllegal =>
        r = SD_UNUSABLE_CARD /\ voltage_window_ok ocr = true /\
        sd_card_status m' = sd_card_status m /\ saw_ready h = false /\
        exists s resp h',
          h = EvCmd acmd_send_op_cond s resp :: h' /\
          Z.land (r1_of resp) R1_ILLEGAL_COMMAND <> 0
    | AtDeadline =>
        r = SD_TIMEOUT /\ voltage_window_ok ocr = true /\
        sd_card_status m' = sd_card_status m /\ saw_ready h = false /\
        exists t t0 h1,
          h = EvTick t :: h1 ++ [EvTick t0] /\ 1000 < u32 (t - t0) /\
          ticks_within 1000 t0 h1
    | AtEnd =>
        r = or_statuses (h ++ [EvCmd cmd_read_ocr s0 ocr]) /\
        voltage_window_ok ocr = true /\
        sd_card_status m'
        = {| version := 1; capacity := STANDART;
             error_in_initialization :=
               error_in_initialization (sd_card_status m) |} /\
        exists s resp h',
          h = EvCmd acmd_send_op_cond s resp :: h' /\
          r1_of resp = R1_CLEAR_FLAGS
    | AtLatch | AtPowerOn => False
    end.
Proof.
  unfold sd_card_v1_init_process_at. intros H.
  unfold bind at 1 in H. cbn [SEND_CMD fst snd] in H.
  set (rr := hw_command (history m) cmd_read_ocr) in *.
  set (ma := log (EvCmd cmd_read_ocr (fst rr) (snd rr)) m) in *.
  destruct (voltage_window_ok (snd rr)) eqn:V; cbn [negb] in H.
  2:{ inversion H; subst at_ r m'; clear H. split; [reflexivity|].
      exists (fst rr), (snd rr), []. repeat split. exact V. }
  unfold bind at 1 in H. cbn [HAL_GetTick] in H.
  set (t0 := u32 (hw_tick (history ma))) in *.
  set (mb := log (EvTick t0) ma) in *.
  bind_inv H. apply v1_poll_inv in E.
  destruct E as (h & Hh & [Hs Hl] & (e0 & hw & Hhw & Hw) & He).
  destruct a as [status'|at' code].
  - destruct He as (Hst & s & resp & h' & Hh' & Hr).
    unfold bind, get_status, put_status, ret in H.
    inversion H; subst at_ r m'; clear H.
    cbn [history sd_card_status sd_card_is_spi_mode].
    split; [exact Hl|]. exists (fst rr), (snd rr), (h ++ [EvTick t0]).
    split; [rewrite Hh; cbn [mb ma log history]; now rewrite <- app_assoc|].
    split; [rewrite Hst; or_norm; reflexivity|].
    split; [exact V|]. split; [now rewrite Hs|].
    exists s, resp, (h' ++ [EvTick t0]). now rewrite Hh'.
  - inversion H; subst at_ r m'; clear H.
    split; [exact Hl|]. exists (fst rr), (snd rr), (h ++ [EvTick t0]).
    split; [rewrite Hh; cbn [mb ma log history]; now rewrite <- app_assoc|].
    destruct He as (Hr & [(-> & -> & s & resp & h' & -> & Hi)
                         |(-> & -> & t & h' & -> & Hd)]).
    + split; [reflexivity|]. split; [exact V|]. split; [exact Hs|].
      split; [rewrite saw_ready_app, Hr; reflexivity|].
      eexists s, resp, _. split; [reflexivity | exact Hi].
    + split; [reflexivity|]. split; [exact V|]. split; [exact Hs|].
      split; [rewrite saw_ready_app, Hr; reflexivity|].
      exists t, t0, h'. split; [reflexivity|]. split; [exact Hd|].
      inversion Hhw; subst. exact Hw.
Qed.

(** Every way [sd_card_v2_init_process] can return. *)
Lemma v2_init_process_at_inv (fuel : nat) (m m' : machine)
    (at_ : exit_point) (r : sd_error) :
  sd_card_v2_init_process_at fuel m = Some ((at_, r), m') ->
  sd_card_is_spi_mode m' = sd_card_is_spi_mode m /\
  exists s0 ocr h,
    history m' = h ++ EvCmd cmd_read_ocr s0 ocr :: history m /\
    match at_ with
    | AtVoltage =>
        r = SD_UNUSABLE_CARD /\ h = [] /\ voltage_window_ok ocr = false /\
        sd_card_status m' = sd_card_status m
    | AtDeadline =>
        r = SD_TIMEOUT /\ voltage_window_ok ocr = true /\
        sd_card_status m' = sd_card_status m /\ saw_ready h = false /\
        exists t t0 h1,
          h = EvTick t :: h1 ++ [EvTick t0] /\ 1000 < u32 (t - t0) /\
          ticks_within 1000 t0 h1
    | AtEnd =>
        r = or_statuses (h ++ [EvCmd cmd_read_ocr s0 ocr]) /\
        voltage_window_ok ocr = true /\
        sd_card_status m'
        = {| version := 2;
             capacity :=
               if negb (Z.land (ocr_register_content ocr 0) 0x2 =? 0)
               then HIGH_OR_EXTENDED else STANDART;
             error_in_initialization :=
               error_in_initialization (sd_card_status m) |} /\
        exists s resp h',
          h = EvCmd acmd_send_op_cond s resp :: h' /\
          r1_of resp = R1_CLEAR_FLAGS
    | AtLatch | AtPowerOn | AtIllegal => False
    end.
Proof.
  unfold sd_card_v2_init_process_at. intros H.
  unfold bind at 1 in H. cbn [SEND_CMD fst snd] in H.
  set (rr := hw_command (history m) cmd_read_ocr) in *.
  set (ma := log (EvCmd cmd_read_ocr (fst rr) (snd rr)) m) in *.
  destruct (voltage_window_ok (snd rr)) eqn:V; cbn [negb] in H.
  2:{ inversion H; subst at_ r m'; clear H. split; [reflexivity|].
      exists (fst rr), (snd rr), []. repeat split. exact V. }
  unfold bind at 1 in H. cbn [HAL_GetTick] in H.
  set (t0 := u32 (hw_tick (history ma))) in *.
  set (mb := log (EvTick t0) ma) in *.
  bind_inv H. apply v2_poll_inv in E.
  destruct E as (h & Hh & [Hs Hl] & (e0 & hw & Hhw & Hw) & He).
  destruct a as [status'|at' code].
  - destruct He as (Hst & s & resp & h' & Hh' & Hr).
    unfold bind, get_status, put_status, ret in H.
    inversion H; subst at_ r m'; clear H.
    cbn [history sd_card_status sd_card_is_spi_mode].
    split; [exact Hl|]. exists (fst rr), (snd rr), (h ++ [EvTick t0]).
    split; [rewrite Hh; cbn [mb ma log history]; now rewrite <- app_assoc|].
    split; [rewrite Hst; or_norm; reflexivity|].
    split; [exact V|]. split; [now rewrite Hs|].
    exists s, resp, (h' ++ [EvTick t0]). now rewrite Hh'.
  - inversion H; subst at_ r m'; clear H.
    split; [exact Hl|]. exists (fst rr), (snd rr), (h ++ [EvTick t0]).
    split; [rewrite Hh; cbn [mb ma log history]; now rewrite <- app_assoc|].
    destruct He as (Hr & -> & -> & t & h' & -> & Hd).
    split; [reflexivity|]. split; [exact V|]. split; [exact Hs|].
    split; [rewrite saw_ready_app, Hr; reflexivity|].
    exists t, t0, h'. split; [reflexivity|]. split; [exact Hd|].
    inversion Hhw; subst. exact Hw.
Qed.

(** ** The voltage-window check *)

Lemma voltage_window_ok_false (ocr : list Z) :
  voltage_window_ok ocr = false <->
  Z.land (ocr_register_content ocr 1) 0x1f = 0 \/
  Z.land (ocr_register_content ocr 2) 0x80 = 0.
Proof.
  unfold voltage_window_ok. rewrite andb_false_iff, !negb_false_iff, !Z.eqb_eq.
  reflexivity.
Qed.

(** C7.  In both negotiation variants, when the OCR just read fails the
    voltage-window check (no bit of byte 1 under mask 0x1f is set, or bit
    0x80 of byte 2 is clear), the function returns at once: the OCR read is
    the only command it issued, no CMD55 or ACMD41 follows, the session
    state is untouched, and no fuel for the polling loop is needed.  The
    earlier-revision variant returns the generic error, the later-revision
    variant returns unusable-card. *)
Theorem voltage_check_failure_returns_before_polling
    (fuel : nat) (m : machine) (st : sd_error) (ocr : list Z) :
  hw_command (history m) cmd_read_ocr = (st, ocr) ->
  Z.land (ocr_register_content ocr 1) 0x1f = 0 \/
  Z.land (ocr_register_content ocr 2) 0x80 = 0 ->
  sd_card_v1_init_process fuel m
  = Some (SD_ERROR, log (EvCmd cmd_read_ocr st ocr) m) /\
  sd_card_v2_init_process fuel m
  = Some (SD_UNUSABLE_CARD, log (EvCmd cmd_read_ocr st ocr) m) /\
  commands_issued (history (log (EvCmd cmd_read_ocr st ocr) m))
  = commands_issued (history m) ++ [cmd_read_ocr].
Proof.
  intros E V. apply voltage_window_ok_false in V.
  unfold sd_card_v1_init_process, sd_card_v2_init_process,
    sd_card_v1_init_process_at, sd_card_v2_init_process_at.
  unfold bind, SEND_CMD, ret. rewrite E. cbn [fst snd]. rewrite V.
  cbn [negb]. repeat split.
Qed.

(** ** Illegal command during polling *)



(** ** What the negotiations write *)

(** C10.  Whichever negotiation variant runs and however it returns: if it
    left through the voltage check, the illegal-command return or the
    deadline return, [sd_card_status] (version, capacity and error flag) is
    what it was before the call; it left through one of those or through
    its final return; and when it left through the final return, where
    version and capacity are written, the last thing that happened was an
    ACMD41 answered with all flags clear. *)
Theorem negotiation_writes_state_only_when_ready
    (rev : revision) (fuel : nat) (m m' : machine)
    (at_ : exit_point) (r : sd_error) :
  init_process_at rev fuel m = Some ((at_, r), m') ->
  (at_ = AtVoltage \/ at_ = AtIllegal \/ at_ = AtDeadline \/ at_ = AtEnd) /\
  (at_ <> AtEnd -> sd_card_status m' = sd_card_status m) /\
  (at_ = AtEnd ->
   version (sd_card_status m') = match rev with Earlier => 1 | Later => 2 end /\
   exists st resp h,
     history m' = EvCmd acmd_send_op_cond st resp :: h /\
     r1_of resp = R1_CLEAR_FLAGS) /\
  (sd_card_status m' <> sd_card_status m -> at_ = AtEnd).
Proof.
  intros H.
  assert (K : match at_ with
              | AtVoltage | AtIllegal | AtDeadline =>
                  sd_card_status m' = sd_card_status m
              | AtEnd =>
                  version (sd_card_status m')
                  = match rev with Earlier => 1 | Later => 2 end /\
                  exists st resp h,
                    history m' = EvCmd acmd_send_op_cond st resp :: h /\
                    r1_of resp = R1_CLEAR_FLAGS
              | AtLatch | AtPowerOn => False
              end).
  { destruct rev; cbn [init_process_at] in H.
    - apply v1_init_process_at_inv in H.
      destruct H as (_ & s0 & ocr & h & Hh & He).
      destruct at_; try exact He; try tauto.
      destruct He as (_ & _ & Hs & s & resp & h' & -> & Hr).
      split; [now rewrite Hs|]. rewrite Hh. cbn [app].
      eexists s, resp, _. split; [reflexivity | exact Hr].
    - apply v2_init_process_at_inv in H.
      destruct H as (_ & s0 & ocr & h & Hh & He).
      destruct at_; try exact He; try tauto.
      destruct He as (_ & _ & Hs & s & resp & h' & -> & Hr).
      split; [now rewrite Hs|]. rewrite Hh. cbn [app].
      eexists s, resp, _. split; [reflexivity | exact Hr]. }
  destruct at_; try contradiction; repeat split; auto; try tauto;
    try congruence; try (intros; discriminate); try (apply K).
Qed.

(** ** Mode entry *)

Lemma enter_spi_mode_exit (fuel : nat) (m m' : machine) (r : sd_error) :
  sd_card_enter_spi_mode fuel m = Some (r, m') ->
  exists at_, sd_card_enter_spi_mode_at fuel m = Some ((at_, r), m').
Proof.
  unfold sd_card_enter_spi_mode. intros H. bind_inv H.
  destruct a as [at_ r']. inversion H; subst. now exists at_.
Qed.

Lemma enter_spi_mode_latched (fuel : nat) (m : machine) :
  sd_card_is_spi_mode m = true ->
  sd_card_enter_spi_mode fuel m = Some (SD_OK, m).
Proof.
  intros L. unfold sd_card_enter_spi_mode, sd_card_enter_spi_mode_at, bind.
  cbn [get_spi_mode]. now rewrite L.
Qed.

(** ** The loops are bounded by the clock *)

Lemma count_log_tick (t : Z) (m : machine) :
  count is_tick (history (log (EvTick t) m)) = S (count is_tick (history m)).
Proof. reflexivity. Qed.

(** If the clock is past the budget from its [n]-th reading on, the mode
    entry loop returns within the rounds that remain until then. *)
Lemma spi_mode_poll_bounded (n fuel : nat) (tickstart : Z) (status : sd_error)
    (m : machine) :
  (forall h, (n <= count is_tick h)%nat ->
             500 < u32 (u32 (hw_tick h) - tickstart)) ->
  (count is_tick (history m) <= n)%nat ->
  (n < fuel + count is_tick (history m))%nat ->
  exists e m', spi_mode_poll fuel tickstart status m = Some (e, m').
Proof.
  intros Hclock. revert status m.
  induction fuel as [|fuel IH]; intros status m Hle Hlt.
  - cbn in Hlt. lia.
  - cbn [spi_mode_poll]. unfold bind at 1. cbn [sd_card_receive_byte fst snd].
    set (rx := hw_receive (history m)).
    set (m1 := log (EvReceive (fst rx) (u8 (snd rx))) m).
    unfold bind at 1. cbn [HAL_GetTick].
    set (t := u32 (hw_tick (history m1))).
    destruct (500 <? u32 (t - tickstart)) eqn:D; [do 2 eexists; reflexivity|].
    destruct (u8 (snd rx) =? R1_IN_IDLE_STATE); [do 2 eexists; reflexivity|].
    apply Z.ltb_ge in D.
    assert (Hc : (count is_tick (history m1) < n)%nat).
    { destruct (Nat.lt_ge_cases (count is_tick (history m1)) n) as [|G];
        [assumption|].
      specialize (Hclock _ G). fold t in Hclock. lia. }
    apply IH; rewrite count_log_tick; change (count is_tick (history m1))
      with (count is_tick (history m)) in *; lia.
Qed.

Lemma op_cond_round_ticks (status : sd_error) (m m1 : machine)
    (r : list Z * sd_error) :
  op_cond_round status m = Some (r, m1) ->
  count is_tick (history m1) = count is_tick (history m).
Proof.
  destruct (op_cond_round_run status m) as (s1 & r1 & s2 & r2 & E).
  rewrite E. intros H. inversion H. reflexivity.
Qed.

Lemma v1_poll_bounded (n fuel : nat) (tickstart : Z) (status : sd_error)
    (m : machine) :
  (forall h, (n <= count is_tick h)%nat ->
             1000 < u32 (u32 (hw_tick h) - tickstart)) ->
  (count is_tick (history m) <= n)%nat ->
  (n < fuel + count is_tick (history m))%nat ->
  exists e m', v1_poll fuel tickstart status m = Some (e, m').
Proof.
  intros Hclock. revert status m.
  induction fuel as [|fuel IH]; intros status m Hle Hlt.
  - cbn in Hlt. lia.
  - rewrite v1_poll_unfold.
    destruct (op_cond_round_run status m) as (s1 & r1 & s2 & r2 & E).
    pose proof (op_cond_round_ticks _ _ _ _ E) as Hc1.
    rewrite (bind_run _ _ _ _ _ E). cbn [fst snd].
    set (m1 := {| history := _ |}) in *.
    destruct (r1_of r2 =? R1_CLEAR_FLAGS); [do 2 eexists; reflexivity|].
    destruct (negb (Z.land (r1_of r2) R1_ILLEGAL_COMMAND =? 0)); [do 2 eexists; reflexivity|].
    unfold bind at 1. cbn [HAL_GetTick].
    set (t := u32 (hw_tick (history m1))).
    destruct (1000 <? u32 (t - tickstart)) eqn:D; [do 2 eexists; reflexivity|].
    apply Z.ltb_ge in D.
    assert (Hc : (count is_tick (history m1) < n)%nat).
    { destruct (Nat.lt_ge_cases (count is_tick (history m1)) n) as [|G];
        [assumption|].
      specialize (Hclock _ G). fold t in Hclock. lia. }
    apply IH; rewrite count_log_tick; lia.
Qed.

Lemma v2_poll_bounded (n fuel : nat) (tickstart : Z) (status : sd_error)
    (m : machine) :
  (forall h, (n <= count is_tick h)%nat ->
             1000 < u32 (u32 (hw_tick h) - tickstart)) ->
  (count is_tick (history m) <= n)%nat ->
  (n < fuel + count is_tick (history m))%nat ->
  exists e m', v2_poll fuel tickstart status m = Some (e, m').
Proof.
  intros Hclock. revert status m.
  induction fuel as [|fuel IH]; intros status m Hle Hlt.
  - cbn in Hlt. lia.
  - rewrite v2_poll_unfold.
    destruct (op_cond_round_run status m) as (s1 & r1 & s2 & r2 & E).
    pose proof (op_cond_round_ticks _ _ _ _ E) as Hc1.
    rewrite (bind_run _ _ _ _ _ E). cbn [fst snd].
    set (m1 := {| history := _ |}) in *.
    destruct (r1_of r2 =? R1_CLEAR_FLAGS); [do 2 eexists; reflexivity|].
    unfold bind at 1. cbn [HAL_GetTick].
    set (t := u32 (hw_tick (history m1))).
    destruct (1000 <? u32 (t - tickstart)) eqn:D; [do 2 eexists; reflexivity|].
    apply Z.ltb_ge in D.
    assert (Hc : (count is_tick (history m1) < n)%nat).
    { destruct (Nat.lt_ge_cases (count is_tick (history m1)) n) as [|G];
        [assumption|].
      specialize (Hclock _ G). fold t in Hclock. lia. }
    apply IH; rewrite count_log_tick; lia.
Qed.


(** ** Deadlines *)

(** C9 (amended).  A polling loop returns its timeout code only on a tick
    reading that lies more than its budget after the reading taken just
    before the loop (the first tick reading of the call), the difference
    taken modulo 2^32: more than 500 ms for mode entry, more than 1000 ms
    for either negotiation variant.  Every reading in between was within
    the budget, so the loop stops at the first reading past its deadline.
    For the negotiation variants no ACMD41 of the call had been answered
    all-flags-clear by then.  For mode entry nothing is promised about the
    status byte: the deadline is tested before the loop condition.  And
    the deadline does bound the loops: on a clock that is past the budget
    from its [n]-th reading on, each loop returns within the rounds that
    remain until that reading. *)
Theorem timeout_only_after_deadline
    (fuel : nat) (m m' : machine) (r : sd_error) :
  (sd_card_enter_spi_mode_at fuel m = Some ((AtDeadline, r), m') ->
   r = SD_TIMEOUT /\
   exists t t0 h1 h0,
     history m' = EvTick t :: h1 ++ EvTick t0 :: h0 ++ history m /\
     no_ticks h0 /\ 500 < u32 (t - t0) /\ ticks_within 500 t0 h1) /\
  (forall rev,
      init_process_at rev fuel m = Some ((AtDeadline, r), m') ->
      r = SD_TIMEOUT /\
      exists t t0 h1 h0,
        history m' = EvTick t :: h1 ++ EvTick t0 :: h0 ++ history m /\
        no_ticks h0 /\ 1000 < u32 (t - t0) /\ ticks_within 1000 t0 h1 /\
        saw_ready (EvTick t :: h1) = false) /\
  (forall n tickstart status,
      (count is_tick (history m) <= n)%nat ->
      (n < fuel + count is_tick (history m))%nat ->
      ((forall h, (n <= count is_tick h)%nat ->
                  500 < u32 (u32 (hw_tick h) - tickstart)) ->
       exists e m1, spi_mode_poll fuel tickstart status m = Some (e, m1)) /\
      ((forall h, (n <= count is_tick h)%nat ->
                  1000 < u32 (u32 (hw_tick h) - tickstart)) ->
       (exists e m1, v1_poll fuel tickstart status m = Some (e, m1)) /\
       (exists e m1, v2_poll fuel tickstart status m = Some (e, m1)))).
Proof.
  split; [|split].
  3:{ intros n tickstart status Hle Hlt. split.
      - intros Hc. now apply (spi_mode_poll_bounded n).
      - intros Hc. split;
          [now apply (v1_poll_bounded n) | now apply (v2_poll_bounded n)]. }
  - intros H. apply enter_spi_mode_at_inv in H.
    destruct H as (_ & _ & _ & -> & K). split; [reflexivity | exact K].
  - intros rev H.
    assert (K : exists s0 ocr h,
               history m' = h ++ EvCmd cmd_read_ocr s0 ocr :: history m /\
               r = SD_TIMEOUT /\ saw_ready h = false /\
               exists t t0 h1,
                 h = EvTick t :: h1 ++ [EvTick t0] /\ 1000 < u32 (t - t0) /\
                 ticks_within 1000 t0 h1).
    { destruct rev; cbn [init_process_at] in H;
        [apply v1_init_process_at_inv in H | apply v2_init_process_at_inv in H];
        destruct H as (_ & s0 & ocr & h & Hh & Hr & _ & _ & Hn & K);
        exists s0, ocr, h; auto. }
    destruct K as (s0 & ocr & h & Hh & -> & Hn & t & t0 & h1 & -> & Hd & Hw).
    split; [reflexivity|].
    exists t, t0, h1, [EvCmd cmd_read_ocr s0 ocr].
    split; [rewrite Hh; cbn [app]; rewrite <- app_assoc; reflexivity|].
    split; [reflexivity|]. split; [exact Hd|]. split; [exact Hw|].
    change (EvTick t :: h1 ++ [EvTick t0])
      with ((EvTick t :: h1) ++ [EvTick t0]) in Hn.
    rewrite saw_ready_app in Hn. now apply orb_false_iff in Hn.
Qed.

(** ** The status [sd_card_reset] returns *)

(** What a step reports: the OR of the statuses it observed, or one of its
    fixed codes. *)
Lemma crc_on_off_status (crc_enable : bool) (m m' : machine) (r : sd_error) :
  sd_card_crc_on_off crc_enable m = Some (r, m') ->
  exists st resp,
    m' = log (EvCmd (cmd_crc_on_off crc_enable) st resp) m /\
    (r = or_statuses [EvCmd (cmd_crc_on_off crc_enable) st resp]
     \/ r = SD_TRANSMISSION_ERROR).
Proof.
  unfold sd_card_crc_on_off, bind, SEND_CMD, ret. cbn [fst snd].
  set (rr := hw_command (history m) (cmd_crc_on_off crc_enable)).
  intros H. exists (fst rr), (snd rr).
  destruct (negb (r1_of (snd rr) =? R1_IN_IDLE_STATE));
    inversion H; subst; split; auto.
Qed.

Lemma init_process_exit (rev : revision) (fuel : nat) (m m' : machine)
    (r : sd_error) :
  match rev with
  | Earlier => sd_card_v1_init_process fuel m
  | Later => sd_card_v2_init_process fuel m
  end = Some (r, m') ->
  exists at_, init_process_at rev fuel m = Some ((at_, r), m').
Proof.
  intros H.
  destruct rev; unfold sd_card_v1_init_process, sd_card_v2_init_process in H;
    bind_inv H; destruct a as [at_ r']; inversion H; subst; now exists at_.
Qed.

Lemma init_process_keeps_latch (rev : revision) (fuel : nat) (m m' : machine)
    (r : sd_error) :
  match rev with
  | Earlier => sd_card_v1_init_process fuel m
  | Later => sd_card_v2_init_process fuel m
  end = Some (r, m') ->
  sd_card_is_spi_mode m' = sd_card_is_spi_mode m.
Proof.
  intros H. apply init_process_exit in H. destruct H as (at_ & K).
  destruct rev; cbn [init_process_at] in K;
    [apply v1_init_process_at_inv in K | apply v2_init_process_at_inv in K];
    now destruct K as (-> & _).
Qed.

Lemma init_process_status (rev : revision) (fuel : nat) (m m' : machine)
    (r : sd_error) :
  match rev with
  | Earlier => sd_card_v1_init_process fuel m
  | Later => sd_card_v2_init_process fuel m
  end = Some (r, m') ->
  exists h, history m' = h ++ history m /\
            (r = or_statuses h \/ r = SD_ERROR \/
             r = SD_UNUSABLE_CARD \/ r = SD_TIMEOUT).
Proof.
  intros H. apply init_process_exit in H. destruct H as (at_ & K).
  destruct rev; cbn [init_process_at] in K;
    [apply v1_init_process_at_inv in K | apply v2_init_process_at_inv in K];
    destruct K as (_ & s0 & ocr & h & Hh & He);
    exists (h ++ [EvCmd cmd_read_ocr s0 ocr]);
    (split; [rewrite Hh, <- app_assoc; reflexivity|]);
    destruct at_; try contradiction;
    destruct He as (-> & _); auto.
Qed.

(** ** The paths through [sd_card_reset] *)

Lemma end_of_initialization_run (status : sd_error) (m : machine) :
  end_of_initialization status m
  = Some (status, with_error_flag (failed status) m).
Proof. reflexivity. Qed.

(** Every completed reset took one of four paths to the end label: mode
    entry failed; the interface-condition transfer failed; the response
    was rejected; or a negotiation ran. *)
Lemma reset_cases (fuel : nat) (crc_enable : bool) (m m' : machine)
    (r : sd_error) :
  sd_card_reset fuel crc_enable m = Some (r, m') ->
  exists s1 m1,
    sd_card_enter_spi_mode fuel m = Some (s1, m1) /\
    ((s1 <> SD_OK /\ r = s1 /\ m' = with_error_flag (failed r) m1)
     \/
     (s1 = SD_OK /\
      exists st r7 m2,
        hw_command (history m1) cmd_send_if_cond = (st, r7) /\
        m2 = log (EvCmd cmd_send_if_cond st r7) m1 /\
        ((st <> SD_OK /\ r = st /\ m' = with_error_flag (failed r) m2)
         \/
         (st = SD_OK /\
          exists s_crc m3,
            sd_card_crc_on_off crc_enable m2 = Some (s_crc, m3) /\
            ((if_cond_illegal r7 = false /\ if_cond_accepted r7 = false /\
              r = Z.lor s_crc SD_UNUSABLE_CARD /\
              m' = with_error_flag (failed r) m3)
             \/
             (exists rev at_ s mz,
                 rev = (if if_cond_illegal r7 then Earlier else Later) /\
                 (if_cond_illegal r7 = true \/ if_cond_accepted r7 = true) /\
                 init_process_at rev fuel m3 = Some ((at_, s), mz) /\
                 r = Z.lor s_crc s /\
                 m' = with_error_flag (failed r) mz)))))).
Proof.
  intros H. unfold sd_card_reset in H. bind_inv H.
  rename a into r0, m0 into mz, E into Hsteps.
  rewrite end_of_initialization_run in H. inversion H; subst r m'; clear H.
  unfold reset_steps in Hsteps. bind_inv Hsteps.
  rename a into s1, m0 into m1. exists s1, m1. split; [exact E|].
  destruct (failed s1) eqn:F1.
  { left. inversion Hsteps; subst. split; [now apply failed_true|].
    split; reflexivity. }
  right. apply failed_false in F1. split; [exact F1|]. subst s1.
  unfold bind at 1 in Hsteps. cbn [SEND_CMD fst snd] in Hsteps.
  destruct (hw_command (history m1) cmd_send_if_cond) as [st r7] eqn:Hc.
  cbn [fst snd] in Hsteps. change (Z.lor SD_OK st) with st in Hsteps.
  exists st, r7, (log (EvCmd cmd_send_if_cond st r7) m1).
  split; [reflexivity|]. split; [reflexivity|].
  destruct (failed st) eqn:F2.
  { left. inversion Hsteps; subst. split; [now apply failed_true|].
    split; reflexivity. }
  right. apply failed_false in F2. split; [exact F2|]. subst st.
  unfold reset_negotiate in Hsteps. bind_inv Hsteps.
  rename a into s_crc, m0 into m3. exists s_crc, m3. split; [exact E0|].
  change (Z.lor SD_OK s_crc) with s_crc in Hsteps.
  destruct (if_cond_illegal r7) eqn:I.
  - right. bind_inv Hsteps. inversion Hsteps; subst r0 mz; clear Hsteps.
    destruct (init_process_exit Earlier _ _ _ _ E1) as (at_ & K).
    exists Earlier, at_, a, m0. repeat split; auto.
  - destruct (if_cond_accepted r7) eqn:A; cbn [negb] in Hsteps.
    + right. bind_inv Hsteps. inversion Hsteps; subst r0 mz; clear Hsteps.
      destruct (init_process_exit Later _ _ _ _ E1) as (at_ & K).
      exists Later, at_, a, m0. repeat split; auto.
    + left. inversion Hsteps; subst. repeat split.
Qed.

(** C2 (amended).  The status [sd_card_reset] returns is the OR of what its
    steps returned, each step being the call the source makes on the
    machine the step before left: mode entry; the interface-condition
    command; CRC on/off; and the negotiation of the card's revision, or
    the unusable-card code of the check-pattern test.  A reset stops
    after mode entry or after the interface-condition command when that
    step's status is not OK, and returns it.  The interface-condition
    step returns the transport status of its command.  Mode entry returns
    the OR of every status it observed, except when it leaves through its
    deadline return: then it returns the timeout code alone.  CRC on/off
    returns its transport status when the card answered in-idle-state and
    the transmission-error code alone otherwise.  A negotiation returns
    the OR of every status it observed when it runs to its final return,
    and alone the code of the early return it took otherwise.  The
    machine after the reset is the machine after the last step with the
    error flag set exactly when the status is not OK.  When none of the
    four error codes is zero, a reset that returns OK observed nothing
    but OK statuses. *)
Theorem reset_status_is_or_of_step_statuses
    (fuel : nat) (crc_enable : bool) (m m' : machine) (r : sd_error) :
  sd_card_reset fuel crc_enable m = Some (r, m') ->
  exists at_e s_enter m1 h_enter,
    sd_card_enter_spi_mode_at fuel m = Some ((at_e, s_enter), m1) /\
    history m1 = h_enter ++ history m /\
    s_enter = match at_e with
              | AtDeadline => SD_TIMEOUT
              | _ => or_statuses h_enter
              end /\
    error_in_initialization (sd_card_status m') = failed r /\
    (exists h,
        history m' = h ++ history m /\
        (SD_ERROR <> 0 -> SD_TIMEOUT <> 0 -> SD_TRANSMISSION_ERROR <> 0 ->
         SD_UNUSABLE_CARD <> 0 -> r = SD_OK -> or_statuses h = SD_OK)) /\
    ((s_enter <> SD_OK /\ r = s_enter /\
      m' = with_error_flag (failed r) m1)
     \/
     (s_enter = SD_OK /\
      exists s_if r7 m2,
        hw_command (history m1) cmd_send_if_cond = (s_if, r7) /\
        m2 = log (EvCmd cmd_send_if_cond s_if r7) m1 /\
        ((s_if <> SD_OK /\ r = Z.lor s_enter s_if /\
          m' = with_error_flag (failed r) m2)
         \/
         (s_if = SD_OK /\
          exists s_crc st resp m3 s_neg mz h_neg,
            sd_card_crc_on_off crc_enable m2 = Some (s_crc, m3) /\
            m3 = log (EvCmd (cmd_crc_on_off crc_enable) st resp) m2 /\
            s_crc = (if r1_of resp =? R1_IN_IDLE_STATE
                     then st else SD_TRANSMISSION_ERROR) /\
            history mz = h_neg ++ history m3 /\
            r = Z.lor (Z.lor (Z.lor s_enter s_if) s_crc) s_neg /\
            m' = with_error_flag (failed r) mz /\
            ((if_cond_illegal r7 = false /\ if_cond_accepted r7 = false /\
              s_neg = SD_UNUSABLE_CARD /\ mz = m3)
             \/
             (exists rev at_n,
                 rev = (if if_cond_illegal r7 then Earlier else Later) /\
                 (if_cond_illegal r7 = true \/ if_cond_accepted r7 = true) /\
                 init_process_at rev fuel m3 = Some ((at_n, s_neg), mz) /\
                 s_neg = match at_n with
                         | AtEnd => or_statuses h_neg
                         | AtVoltage =>
                             match rev with
                             | Earlier => SD_ERROR
                             | Later => SD_UNUSABLE_CARD
                             end
                         | AtIllegal => SD_UNUSABLE_CARD
                         | _ => SD_TIMEOUT
                         end)))))).
Proof.
  intros H.
  destruct (reset_cases _ _ _ _ _ H) as (s_enter & m1 & E & K).
  destruct (enter_spi_mode_exit _ _ _ _ E) as (at_e & Hat).
  assert (He : exists h_enter,
             history m1 = h_enter ++ history m /\
             s_enter = match at_e with
                       | AtDeadline => SD_TIMEOUT
                       | _ => or_statuses h_enter
                       end).
  { pose proof (enter_spi_mode_at_inv _ _ _ _ _ Hat) as (_ & I).
    destruct at_e; try contradiction.
    - destruct I as (_ & -> & ->). exists []. split; reflexivity.
    - destruct I as (_ & _ & _ & h & Hh & Hr & _). eauto.
    - destruct I as (_ & _ & -> & t & t0 & h1 & h0 & Hh & _).
      exists (EvTick t :: h1 ++ EvTick t0 :: h0). split; [|reflexivity].
      rewrite Hh. cbn [app]. now rewrite <- app_assoc.
    - destruct I as (_ & _ & h & Hh & Hr & _). eauto. }
  destruct He as (h_enter & Hh1 & Hs1).
  exists at_e, s_enter, m1, h_enter.
  split; [exact Hat|]. split; [exact Hh1|]. split; [exact Hs1|].
  assert (Hflag : forall mz, m' = with_error_flag (failed r) mz ->
                             error_in_initialization (sd_card_status m')
                             = failed r)
    by (now intros mz ->).
  assert (Henter_ok : SD_TIMEOUT <> 0 -> s_enter = SD_OK ->
                      or_statuses h_enter = SD_OK).
  { intros N Z0. rewrite Z0 in Hs1.
    destruct at_e; try (now symmetry); now contradiction N. }
  destruct K as [(N & Hr & Hm)|(Z1 & s_if & r7 & m2 & Hc & Hm2 & K)].
  { split; [now apply (Hflag m1)|]. split.
    - exists h_enter. split; [now rewrite Hm|].
      intros _ _ _ _ R0. congruence.
    - left. auto. }
  destruct K as [(N & Hr & Hm)|(Z2 & s_crc & m3 & Hcrc & K)].
  { split; [now apply (Hflag m2)|]. split.
    - exists (EvCmd cmd_send_if_cond s_if r7 :: h_enter).
      split; [rewrite Hm, Hm2; cbn [with_error_flag log history app];
              now rewrite Hh1|].
      intros _ _ _ _ R0. congruence.
    - right. split; [exact Z1|]. exists s_if, r7, m2.
      split; [exact Hc|]. split; [exact Hm2|]. left.
      split; [exact N|]. split; [|exact Hm]. rewrite Z1, Hr. reflexivity. }
  assert (Hc3 : exists st resp,
             m3 = log (EvCmd (cmd_crc_on_off crc_enable) st resp) m2 /\
             s_crc = (if r1_of resp =? R1_IN_IDLE_STATE
                      then st else SD_TRANSMISSION_ERROR)).
  { unfold sd_card_crc_on_off, bind, SEND_CMD, ret in Hcrc.
    cbn [fst snd] in Hcrc.
    set (rr := hw_command (history m2) (cmd_crc_on_off crc_enable)) in *.
    exists (fst rr), (snd rr).
    destruct (r1_of (snd rr) =? R1_IN_IDLE_STATE); cbn [negb] in Hcrc;
      inversion Hcrc; split; reflexivity. }
  destruct Hc3 as (st & resp & Hm3 & Hsc).
  assert (Hh3 : history m3
                = [EvCmd (cmd_crc_on_off crc_enable) st resp;
                   EvCmd cmd_send_if_cond s_if r7] ++ h_enter ++ history m).
  { rewrite Hm3, Hm2. cbn [log history app]. now rewrite Hh1. }
  assert (Hcrc_ok : SD_TRANSMISSION_ERROR <> 0 -> s_crc = SD_OK ->
                    st = SD_OK).
  { intros N Z0. rewrite Z0 in Hsc.
    destruct (r1_of resp =? R1_IN_IDLE_STATE);
      [now symmetry | now contradiction N]. }
  assert (Hor : forall s_neg, Z.lor s_crc s_neg
                = Z.lor (Z.lor (Z.lor s_enter s_if) s_crc) s_neg).
  { intros s_neg. rewrite Z1, Z2. reflexivity. }
  destruct K as [(I & A & Hr & Hm)
                |(rev & at_n & s_neg & mz & Hrev & Hia & Hi & Hr & Hm)].
  - split; [now apply (Hflag m3)|]. split.
    + exists ([EvCmd (cmd_crc_on_off crc_enable) st resp;
               EvCmd cmd_send_if_cond s_if r7] ++ h_enter).
      split; [rewrite Hm; cbn [with_error_flag history];
              rewrite Hh3, <- !app_assoc; reflexivity|].
      intros _ _ _ N4 R0. rewrite R0 in Hr. symmetry in Hr.
      apply lor_zero_both in Hr. destruct Hr as (_ & Hr).
      now contradiction N4.
    + right. split; [exact Z1|]. exists s_if, r7, m2.
      split; [exact Hc|]. split; [exact Hm2|]. right.
      split; [exact Z2|].
      exists s_crc, st, resp, m3, SD_UNUSABLE_CARD, m3, [].
      split; [exact Hcrc|]. split; [exact Hm3|]. split; [exact Hsc|].
      split; [reflexivity|]. split; [now rewrite <- Hor|].
      split; [exact Hm|]. left. auto.
  - assert (Hn : exists h_neg,
               history mz = h_neg ++ history m3 /\
               s_neg = match at_n with
                       | AtEnd => or_statuses h_neg
                       | AtVoltage =>
                           match rev with
                           | Earlier => SD_ERROR
                           | Later => SD_UNUSABLE_CARD
                           end
                       | AtIllegal => SD_UNUSABLE_CARD
                       | _ => SD_TIMEOUT
                       end /\
               (at_n = AtEnd \/ at_n = AtVoltage \/ at_n = AtIllegal \/
                at_n = AtDeadline)).
    { clear Hrev. destruct rev; cbn [init_process_at] in Hi;
        [apply v1_init_process_at_inv in Hi
        |apply v2_init_process_at_inv in Hi];
        destruct Hi as (_ & s0 & ocr & h & Hh & I);
        exists (h ++ [EvCmd cmd_read_ocr s0 ocr]);
        (split; [rewrite Hh, <- app_assoc; reflexivity|]);
        destruct at_n; try contradiction;
        destruct I as (-> & _); auto 6. }
    destruct Hn as (h_neg & Hhn & Hsn & Hatn).
    split; [now apply (Hflag mz)|]. split.
    + exists (h_neg ++ [EvCmd (cmd_crc_on_off crc_enable) st resp;
                        EvCmd cmd_send_if_cond s_if r7] ++ h_enter).
      split; [rewrite Hm; cbn [with_error_flag history];
              rewrite Hhn, Hh3, <- !app_assoc; reflexivity|].
      intros N1 N2 N3 N4 R0. rewrite R0 in Hr. symmetry in Hr.
      apply lor_zero_both in Hr. destruct Hr as (Zc & Zn).
      rewrite or_statuses_app. cbn [app or_statuses event_status].
      rewrite (Henter_ok N2 Z1), (Hcrc_ok N3 Zc), Z2.
      assert (Zh : or_statuses h_neg = SD_OK).
      { rewrite Zn in Hsn.
        destruct Hatn as [-> | [-> | [-> | ->]]]; try (now symmetry);
          try (now contradiction N2); try (now contradiction N4).
        destruct rev; [now contradiction N1 | now contradiction N4]. }
      rewrite Zh. reflexivity.
    + right. split; [exact Z1|]. exists s_if, r7, m2.
      split; [exact Hc|]. split; [exact Hm2|]. right.
      split; [exact Z2|].
      exists s_crc, st, resp, m3, s_neg, mz, h_neg.
      split; [exact Hcrc|]. split; [exact Hm3|]. split; [exact Hsc|].
      split; [exact Hhn|]. split; [now rewrite <- Hor|].
      split; [exact Hm|]. right. exists rev, at_n. auto.
Qed.

(** ** The latch *)

(** The latch is only ever touched by mode entry: a reset keeps a set
    latch set, and reading the geometry leaves it alone. *)
Lemma reset_keeps_latch (fuel : nat) (crc_enable : bool) (m m' : machine)
    (r : sd_error) :
  sd_card_reset fuel crc_enable m = Some (r, m') ->
  sd_card_is_spi_mode m = true -> sd_card_is_spi_mode m' = true.
Proof.
  intros H L. unfold sd_card_reset in H. bind_inv H.
  assert (Hend : sd_card_is_spi_mode m' = sd_card_is_spi_mode m0).
  { unfold end_of_initialization, bind, get_status, put_status, ret in H.
    now inversion H. }
  rewrite Hend. clear H Hend. unfold reset_steps in E.
  rewrite (bind_run _ _ _ _ _ (enter_spi_mode_latched fuel m L)) in E.
  change (failed SD_OK) with false in E. cbv iota in E.
  unfold bind at 1 in E. cbn [SEND_CMD fst snd] in E.
  set (rr := hw_command (history m) cmd_send_if_cond) in *.
  destruct (failed (Z.lor SD_OK (fst rr))).
  { inversion E; subst. exact L. }
  unfold reset_negotiate in E. bind_inv E.
  destruct (crc_on_off_status _ _ _ _ E0) as (st & resp & -> & _).
  destruct (if_cond_illegal (snd rr)).
  { bind_inv E. inversion E; subst.
    now rewrite (init_process_keeps_latch Earlier _ _ _ _ E1). }
  destruct (negb (if_cond_accepted (snd rr))).
  { inversion E; subst. exact L. }
  bind_inv E. inversion E; subst.
  now rewrite (init_process_keeps_latch Later _ _ _ _ E1).
Qed.

(** C6.  Provided the timeout code is not the OK code: a call of
    [sd_card_enter_spi_mode] that returns OK leaves the latch set; with the
    latch set, every call, with whatever fuel, returns OK and leaves the
    machine exactly as it was, so the history gains no event (no transport
    I/O).  The latch goes from clear to set only in a call that ran to its
    final return (past the poll that ended on an in-idle-state byte and the
    final deselect) with status OK, every status observed on the way being
    OK.  Nothing clears the latch: a reset keeps it set and reading the
    geometry leaves it alone. *)
Theorem enter_spi_mode_idempotent :
  SD_TIMEOUT <> SD_OK ->
  (forall fuel m r m',
      sd_card_enter_spi_mode fuel m = Some (r, m') -> r = SD_OK ->
      sd_card_is_spi_mode m' = true) /\
  (forall fuel m,
      sd_card_is_spi_mode m = true ->
      sd_card_enter_spi_mode fuel m = Some (SD_OK, m)) /\
  (forall fuel m r m',
      sd_card_enter_spi_mode fuel m = Some (r, m') ->
      sd_card_is_spi_mode m = false -> sd_card_is_spi_mode m' = true ->
      r = SD_OK /\
      sd_card_enter_spi_mode_at fuel m = Some ((AtEnd, SD_OK), m') /\
      exists t st h,
        history m'
        = EvDeselect :: EvTick t :: EvReceive st R1_IN_IDLE_STATE :: h
          ++ history m /\
        Forall (fun e => event_status e = SD_OK)
          (EvDeselect :: EvTick t :: EvReceive st R1_IN_IDLE_STATE :: h)) /\
  (forall fuel crc_enable m r m',
      sd_card_reset fuel crc_enable m = Some (r, m') ->
      sd_card_is_spi_mode m = true -> sd_card_is_spi_mode m' = true) /\
  (forall info m r m',
      sd_card_get_common_info info m = Some (r, m') ->
      sd_card_is_spi_mode m' = sd_card_is_spi_mode m).
Proof.
  intros T. split; [|split; [|split; [|split]]].
  - intros fuel m r m' H ->.
    destruct (enter_spi_mode_exit _ _ _ _ H) as (at_ & Hat).
    pose proof (enter_spi_mode_at_inv _ _ _ _ _ Hat) as (_ & K).
    destruct at_; try contradiction.
    + destruct K as (L & _ & ->). exact L.
    + destruct K as (_ & _ & N & _). now contradiction N.
    + destruct K as (_ & _ & N & _). now contradiction T.
    + destruct K as (_ & L & _). exact L.
  - intros fuel m L. now apply enter_spi_mode_latched.
  - intros fuel m r m' H L0 L1.
    destruct (enter_spi_mode_exit _ _ _ _ H) as (at_ & Hat).
    pose proof (enter_spi_mode_at_inv _ _ _ _ _ Hat) as (_ & K).
    destruct at_; try contradiction.
    + destruct K as (L & _). congruence.
    + destruct K as (_ & L & _). congruence.
    + destruct K as (_ & L & _). congruence.
    + destruct K as (_ & L & h & Hh & Hr & t & st & h' & ->).
      rewrite L1 in L. symmetry in L. apply Z.eqb_eq in L. subst r.
      split; [reflexivity|]. split; [exact Hat|].
      exists t, st, h'. split; [exact Hh|].
      apply or_statuses_ok. now symmetry.
  - intros fuel crc_enable m r m'. apply reset_keeps_latch.
  - intros info m r m' H.
    unfold sd_card_get_common_info, bind, sd_card_get_csd, get_status, ret
      in H.
    destruct (failed (fst (hw_csd (history m)))); now inversion H.
Qed.

(** ** The order of steps in [sd_card_reset] *)

Lemma commands_issued_app (h2 h1 : list event) :
  commands_issued (h2 ++ h1) = commands_issued h1 ++ commands_issued h2.
Proof.
  induction h2 as [|e h2 IH]; cbn [app commands_issued].
  - now rewrite app_nil_r.
  - destruct e; rewrite ?IH, ?app_assoc; reflexivity.
Qed.

(** Once mode entry and the interface-condition command have succeeded,
    the rest of the reset is: CRC on/off, then the branch. *)
Lemma reset_after_if_cond
    (fuel : nat) (crc_enable : bool) (m m1 : machine) (r7 : list Z) :
  sd_card_enter_spi_mode fuel m = Some (SD_OK, m1) ->
  hw_command (history m1) cmd_send_if_cond = (SD_OK, r7) ->
  exists s_crc st resp m3,
    sd_card_crc_on_off crc_enable (log (EvCmd cmd_send_if_cond SD_OK r7) m1)
    = Some (s_crc, m3) /\
    m3 = log (EvCmd (cmd_crc_on_off crc_enable) st resp)
             (log (EvCmd cmd_send_if_cond SD_OK r7) m1) /\
    sd_card_reset fuel crc_enable m
    = (if if_cond_illegal r7 then
         s <- sd_card_v1_init_process fuel ;;
         end_of_initialization (Z.lor s_crc s)
       else if if_cond_accepted r7 then
         s <- sd_card_v2_init_process fuel ;;
         end_of_initialization (Z.lor s_crc s)
       else end_of_initialization (Z.lor s_crc SD_UNUSABLE_CARD)) m3.
Proof.
  intros He Hc.
  set (m2 := log (EvCmd cmd_send_if_cond SD_OK r7) m1).
  set (rr := hw_command (history m2) (cmd_crc_on_off crc_enable)).
  set (m3 := log (EvCmd (cmd_crc_on_off crc_enable) (fst rr) (snd rr)) m2).
  set (s_crc := if negb (r1_of (snd rr) =? R1_IN_IDLE_STATE)
                then SD_TRANSMISSION_ERROR else fst rr).
  assert (Hcrc : sd_card_crc_on_off crc_enable m2 = Some (s_crc, m3)).
  { unfold sd_card_crc_on_off, bind, SEND_CMD, ret. cbn [fst snd].
    fold rr. subst s_crc.
    destruct (negb (r1_of (snd rr) =? R1_IN_IDLE_STATE)); reflexivity. }
  assert (Hreset : sd_card_reset fuel crc_enable m
    = (if if_cond_illegal r7 then
         s <- sd_card_v1_init_process fuel ;;
         end_of_initialization (Z.lor s_crc s)
       else if if_cond_accepted r7 then
         s <- sd_card_v2_init_process fuel ;;
         end_of_initialization (Z.lor s_crc s)
       else end_of_initialization (Z.lor s_crc SD_UNUSABLE_CARD)) m3).
  { unfold sd_card_reset, reset_steps.
    unfold bind at 1. unfold bind at 1. rewrite He.
    cbn [failed SD_OK Z.eqb negb]. unfold bind at 1.
    unfold SEND_CMD at 1. rewrite Hc. cbn [fst snd Z.lor failed Z.eqb negb].
    fold m2. change (failed (Z.lor SD_OK SD_OK)) with false.
    change (Z.lor SD_OK SD_OK) with 0. cbv iota.
    unfold reset_negotiate. unfold bind at 1. rewrite Hcrc.
    change (Z.lor 0 s_crc) with s_crc.
    destruct (if_cond_illegal r7).
    - unfold bind.
      destruct (sd_card_v1_init_process fuel m3) as [[s mm]|]; reflexivity.
    - destruct (if_cond_accepted r7); cbn [negb].
      + unfold bind.
        destruct (sd_card_v2_init_process fuel m3) as [[s mm]|]; reflexivity.
      + reflexivity. }
  exists s_crc, (fst rr), (snd rr), m3.
  split; [exact Hcrc|]. split; [reflexivity|]. exact Hreset.
Qed.

(** C4 (amended).  After mode entry and the interface-condition command
    both succeeded, the next thing [sd_card_reset] does is issue the CRC
    on/off command, on either branch and before the response is looked at.
    From there, with the illegal-command flag set, it runs the
    earlier-revision negotiation and goes to the end label: the check
    pattern and the voltage field are not consulted and the later-revision
    negotiation is not run.  With the flag clear it validates check pattern
    and voltage and then either reports unusable-card or runs the
    later-revision negotiation. *)
Theorem reset_sets_crc_before_branching
    (fuel : nat) (crc_enable : bool) (m m1 : machine) (r7 : list Z) :
  sd_card_enter_spi_mode fuel m = Some (SD_OK, m1) ->
  hw_command (history m1) cmd_send_if_cond = (SD_OK, r7) ->
  exists s_crc st resp m3,
    sd_card_crc_on_off crc_enable (log (EvCmd cmd_send_if_cond SD_OK r7) m1)
    = Some (s_crc, m3) /\
    m3 = log (EvCmd (cmd_crc_on_off crc_enable) st resp)
             (log (EvCmd cmd_send_if_cond SD_OK r7) m1) /\
    sd_card_reset fuel crc_enable m
    = (if if_cond_illegal r7 then
         s <- sd_card_v1_init_process fuel ;;
         end_of_initialization (Z.lor s_crc s)
       else if if_cond_accepted r7 then
         s <- sd_card_v2_init_process fuel ;;
         end_of_initialization (Z.lor s_crc s)
       else end_of_initialization (Z.lor s_crc SD_UNUSABLE_CARD)) m3 /\
    (forall r m',
        sd_card_reset fuel crc_enable m = Some (r, m') ->
        exists later,
          commands_issued (history m')
          = commands_issued (history m1)
            ++ [cmd_send_if_cond; cmd_crc_on_off crc_enable] ++ later).
Proof.
  intros He Hc.
  destruct (reset_after_if_cond fuel crc_enable m m1 r7 He Hc)
    as (s_crc & st & resp & m3 & Hcrc & Hm3 & Hreset).
  exists s_crc, st, resp, m3.
  split; [exact Hcrc|]. split; [exact Hm3|]. split; [exact Hreset|].
  intros r m' H. rewrite Hreset in H.
  assert (Hend : forall s ma, end_of_initialization s ma = Some (r, m') ->
                              history m' = history ma).
  { intros s ma K. unfold end_of_initialization, bind, get_status,
      put_status, ret in K. now inversion K. }
  assert (H3 : commands_issued (history m3)
               = commands_issued (history m1)
                 ++ [cmd_send_if_cond; cmd_crc_on_off crc_enable]).
  { rewrite Hm3. cbn [log history commands_issued]. now rewrite <- app_assoc. }
  assert (Hext : forall ma h, history ma = h ++ history m3 ->
            exists later, commands_issued (history ma)
              = commands_issued (history m1)
                ++ [cmd_send_if_cond; cmd_crc_on_off crc_enable] ++ later).
  { intros ma h ->. exists (commands_issued h).
    now rewrite commands_issued_app, H3, <- app_assoc. }
  destruct (if_cond_illegal r7); [|destruct (if_cond_accepted r7)].
  - bind_inv H. rewrite (Hend _ _ H).
    destruct (init_process_status Earlier _ _ _ _ E) as (h & Hh & _). eauto.
  - bind_inv H. rewrite (Hend _ _ H).
    destruct (init_process_status Later _ _ _ _ E) as (h & Hh & _). eauto.
  - rewrite (Hend _ _ H). apply (Hext m3 []). reflexivity.
Qed.

(** ** Decoding the CSD register *)

Lemma byte_at_range (bs : list Z) (i : nat) : 0 <= byte_at bs i < 256.
Proof. unfold byte_at, u8. apply Z.mod_pos_bound. reflexivity. Qed.

Lemma lor_lt_pow2 (a b n : Z) :
  0 <= a < 2 ^ n -> 0 <= b < 2 ^ n -> 0 <= Z.lor a b < 2 ^ n.
Proof.
  intros Ha Hb.
  assert (Hn : 0 <= Z.lor a b) by (apply Z.lor_nonneg; lia).
  split; [exact Hn|].
  destruct (Z.eq_dec (Z.lor a b) 0) as [->|Hz]; [lia|].
  destruct (Z_lt_le_dec n 1) as [Hn1|Hn1].
  { exfalso. apply Hz. apply Z.lor_eq_0_iff.
    assert (2 ^ n <= 1).
    { destruct (Z_lt_le_dec n 0); [rewrite Z.pow_neg_r; lia|].
      replace n with 0 by lia. reflexivity. }
    lia. }
  apply Z.log2_lt_pow2; [lia|]. rewrite Z.log2_lor by lia.
  apply Z.max_lub_lt.
  - destruct (Z.eq_dec a 0) as [->|]; [cbn; lia|].
    apply Z.log2_lt_pow2; lia.
  - destruct (Z.eq_dec b 0) as [->|]; [cbn; lia|].
    apply Z.log2_lt_pow2; lia.
Qed.

(** [c_size] is a 22-bit number. *)
Lemma c_size_range (csd : list Z) : 0 <= c_size csd < 2 ^ 22.
Proof.
  unfold c_size, csd_register.
  pose proof (byte_at_range csd 7) as B7.
  pose proof (byte_at_range csd 8) as B8.
  pose proof (byte_at_range csd 9) as B9.
  assert (H7 : 0 <= Z.shiftl (Z.land (byte_at csd 7) 63) 16 < 2 ^ 22).
  { change 63 with (Z.ones 6). rewrite Z.land_ones by lia.
    rewrite Z.shiftl_mul_pow2 by lia.
    pose proof (Z.mod_pos_bound (byte_at csd 7) (2 ^ 6) eq_refl). lia. }
  assert (H8 : 0 <= Z.shiftl (byte_at csd 8) 8 < 2 ^ 22).
  { rewrite Z.shiftl_mul_pow2 by lia. lia. }
  assert (H9 : 0 <= byte_at csd 9 < 2 ^ 22) by lia.
  pose proof (lor_lt_pow2 _ _ 22 H7 H8) as H78.
  pose proof (lor_lt_pow2 _ _ 22 H78 H9) as H.
  unfold u32. rewrite Z.mod_small; lia.
Qed.

(** With any version other than 1, the size is [(c_size + 1) * 512]; the
    product fits 32 bits. *)
Lemma decode_size_not_v1 (version : Z) (csd : list Z) :
  version <> 1 -> decode_size version csd = (c_size csd + 1) * 512.
Proof.
  intros V. unfold decode_size. apply Z.eqb_neq in V. rewrite V.
  pose proof (c_size_range csd). unfold u32. rewrite Z.mod_small; lia.
Qed.

(** With version 1, the size is the product the code spells out, reduced
    modulo 2^32. *)
Lemma decode_size_v1 (csd : list Z) :
  decode_size 1 csd
  = u32 ((device_size csd + 1) * 2 ^ (size_mult csd + 2)
         * decode_max_data_block_size csd).
Proof.
  unfold decode_size, blocknr, mult, u32. cbn [Z.eqb Pos.eqb].
  rewrite Z.mul_mod_idemp_l by lia.
  rewrite (Z.mul_comm (device_size csd + 1) ((2 ^ (size_mult csd + 2)) mod 2 ^ 32)).
  rewrite <- Z.mul_assoc, Z.mul_mod_idemp_l by lia.
  f_equal. ring.
Qed.

(** ** Geometry before any reset *)

(** C1 (amended).  With the version still unset (0),
    [sd_card_get_common_info] does not fail on that account.  It fails
    exactly when reading the CSD register fails, returning that status and
    leaving [*info] alone; otherwise it returns OK and decodes the
    register, taking the size by the later-revision layout:
    [(c_size + 1) * 512] with [c_size] the 22-bit field of bytes 7 to 9. *)
Theorem common_info_with_version_unset
    (info : sd_info) (m : machine) (st : sd_error) (csd : list Z) :
  version (sd_card_status m) = 0 ->
  hw_csd (history m) = (st, csd) ->
  sd_card_get_common_info info m
  = Some (if failed st then (st, info) else (SD_OK, decode_info 0 csd),
          log (EvCsd st csd) m) /\
  size (decode_info 0 csd) = (c_size csd + 1) * 512 /\
  0 <= c_size csd < 2 ^ 22.
Proof.
  intros V E. split; [|split].
  - unfold sd_card_get_common_info, bind, sd_card_get_csd, get_status, ret.
    rewrite E. cbn [fst snd]. destruct (failed st); [reflexivity|].
    cbn [log sd_card_status]. now rewrite V.
  - cbn [size decode_info]. now apply decode_size_not_v1.
  - apply c_size_range.
Qed.

(** ** The capacity bit *)

(** C3.  On the later-revision path, after the polling loop saw the ready
    response: an OCR byte 0 equal to 0x40 (the card-capacity-status bit of
    the register set) is recorded as standard capacity, because the code
    tests mask 0x2; so is an OCR byte 0 equal to 0x00.  The version
    recorded is 2. *)
Theorem v2_records_standard_for_ocr_0x40
    (fuel : nat) (m m' : machine) (r st : sd_error) (ocr : list Z) :
  hw_command (history m) cmd_read_ocr = (st, ocr) ->
  ocr_register_content ocr 0 = 0x40 \/ ocr_register_content ocr 0 = 0x00 ->
  sd_card_v2_init_process_at fuel m = Some ((AtEnd, r), m') ->
  capacity (sd_card_status m') = STANDART /\
  version (sd_card_status m') = 2.
Proof.
  intros E B H. unfold sd_card_v2_init_process_at in H.
  unfold bind at 1 in H. unfold SEND_CMD at 1 in H. rewrite E in H.
  cbn [fst snd] in H.
  destruct (negb (voltage_window_ok ocr)); [discriminate|].
  unfold bind at 1 in H. cbn [HAL_GetTick] in H. bind_inv H.
  destruct a as [status'|at_ code].
  2:{ apply v2_poll_inv in E0. destruct E0 as (h & _ & _ & _ & _ & -> & _).
      inversion H. }
  unfold bind, get_status, put_status, ret in H. inversion H; subst.
  cbn [sd_card_status capacity version]. split; [|reflexivity].
  destruct B as [-> | ->]; reflexivity.
Qed.

(** ** Further properties of the reset sequence *)

Lemma transmit_dummy_events (n : nat) (status : sd_error) (m m' : machine)
    (st : sd_error) :
  transmit_dummy n status m = Some (st, m') ->
  exists h,
    history m' = h ++ history m /\ same_session m m' /\
    length h = n /\
    Forall (fun e => exists s, e = EvTransmit (Bytes [0xff]) s) h /\
    st = Z.lor status (or_statuses h).
Proof.
  revert status m. induction n as [|n IH]; intros status m H.
  - inversion H; subst. exists []. repeat split; [constructor|].
    cbn. unfold SD_OK. now rewrite Z.lor_0_r.
  - cbn [transmit_dummy] in H. unfold bind at 1 in H.
    cbn [HAL_SPI_Transmit] in H. apply IH in H.
    destruct H as (h & Hh & Hs & Hl & Hf & Hst).
    set (e := EvTransmit (Bytes [255]) (hw_transmit (history m) (Bytes [255])))
      in *.
    exists (h ++ [e]). split; [rewrite Hh; cbn [log history];
                                now rewrite <- app_assoc|].
    split; [exact Hs|]. split; [rewrite length_app, Hl; cbn; lia|].
    split.
    + apply Forall_app. split; [exact Hf|]. constructor; [|constructor].
      now eexists.
    + rewrite Hst. subst e. or_norm. reflexivity.
Qed.

(** X1.  Power-on deselects the card, transmits exactly ten 0xFF bytes (eighty
    clock cycles), receives one byte, and reports the OR of the eleven
    statuses; it touches neither the session state nor the latch. *)
Theorem power_on_clocks_ten_idle_bytes (m m' : machine) (st : sd_error) :
  sd_card_power_on m = Some (st, m') ->
  exists rx b h,
    history m' = EvReceive rx b :: h ++ EvDeselect :: history m /\
    length h = 10%nat /\
    Forall (fun e => exists s, e = EvTransmit (Bytes [0xff]) s) h /\
    st = or_statuses (EvReceive rx b :: h) /\
    same_session m m'.
Proof.
  unfold sd_card_power_on. intros H. unfold bind at 1 in H.
  cbn [DISELECT_SD] in H. bind_inv H.
  apply transmit_dummy_events in E.
  destruct E as (h & Hh & Hs & Hl & Hf & ->).
  unfold bind, sd_card_receive_byte, ret in H. cbn [fst snd] in H.
  inversion H; subst st m'; clear H.
  exists (fst (hw_receive (history m0))), (u8 (snd (hw_receive (history m0)))), h.
  split; [cbn [log history]; now rewrite Hh|].
  split; [exact Hl|]. split; [exact Hf|].
  split; [or_norm; reflexivity|]. exact Hs.
Qed.

(** X2.  With the illegal-command flag clear, an interface-condition response
    whose check pattern is not 0x55 or whose voltage field is not 1 ends
    the reset right after the CRC on/off command: the status is what
    [sd_card_crc_on_off] returned for that command, OR-ed with
    unusable-card; the machine is the one that command left, with the
    error flag set from the status; no negotiation command is issued, and
    version and capacity stay as they were. *)
Theorem rejected_interface_condition_is_unusable
    (fuel : nat) (crc_enable : bool) (m m1 : machine) (r7 : list Z) :
  sd_card_enter_spi_mode fuel m = Some (SD_OK, m1) ->
  hw_command (history m1) cmd_send_if_cond = (SD_OK, r7) ->
  if_cond_illegal r7 = false ->
  echo_back_of_check_pattern r7 <> 0x55 \/ GET_VOLTAGE_FROM_R7 r7 <> 0x1 ->
  exists s_crc st resp m3 m',
    sd_card_crc_on_off crc_enable (log (EvCmd cmd_send_if_cond SD_OK r7) m1)
    = Some (s_crc, m3) /\
    m3 = log (EvCmd (cmd_crc_on_off crc_enable) st resp)
             (log (EvCmd cmd_send_if_cond SD_OK r7) m1) /\
    sd_card_reset fuel crc_enable m
    = Some (Z.lor s_crc SD_UNUSABLE_CARD, m') /\
    m' = with_error_flag (failed (Z.lor s_crc SD_UNUSABLE_CARD)) m3 /\
    commands_issued (history m')
    = commands_issued (history m1)
      ++ [cmd_send_if_cond; cmd_crc_on_off crc_enable] /\
    version (sd_card_status m') = version (sd_card_status m1) /\
    capacity (sd_card_status m') = capacity (sd_card_status m1) /\
    error_in_initialization (sd_card_status m')
    = failed (Z.lor s_crc SD_UNUSABLE_CARD).
Proof.
  intros He Hc Hi Hr.
  destruct (reset_after_if_cond fuel crc_enable m m1 r7 He Hc)
    as (s_crc & st & resp & m3 & Hcrc & Hm3 & Hreset).
  assert (Ha : if_cond_accepted r7 = false).
  { unfold if_cond_accepted. apply andb_false_iff.
    destruct Hr as [Hr|Hr]; [left|right]; now apply Z.eqb_neq. }
  rewrite Hi, Ha in Hreset. rewrite end_of_initialization_run in Hreset.
  exists s_crc, st, resp, m3. eexists.
  split; [exact Hcrc|]. split; [exact Hm3|]. split; [exact Hreset|].
  split; [reflexivity|].
  rewrite Hm3. cbn [with_error_flag log history sd_card_status
                    commands_issued version capacity error_in_initialization].
  rewrite <- app_assoc. repeat split.
Qed.

Lemma enter_ok_sets_latch (fuel : nat) (m m' : machine) :
  SD_TIMEOUT <> SD_OK ->
  sd_card_enter_spi_mode fuel m = Some (SD_OK, m') ->
  sd_card_is_spi_mode m' = true /\ sd_card_status m' = sd_card_status m.
Proof.
  intros T H.
  destruct (enter_spi_mode_exit _ _ _ _ H) as (at_ & Hat).
  pose proof (enter_spi_mode_at_inv _ _ _ _ _ Hat) as (Hs & K).
  split; [|exact Hs]. destruct at_; try contradiction.
  - destruct K as (L & _ & ->). exact L.
  - destruct K as (_ & _ & N & _). now contradiction N.
  - destruct K as (_ & _ & N & _). now contradiction T.
  - destruct K as (_ & L & _). exact L.
Qed.

(** A negotiation that returns OK, the error codes being non-zero, ran to
    its final return. *)
Lemma init_process_ok (rev : revision) (fuel : nat) (m m' : machine) :
  SD_ERROR <> 0 -> SD_TIMEOUT <> 0 -> SD_UNUSABLE_CARD <> 0 ->
  match rev with
  | Earlier => sd_card_v1_init_process fuel m
  | Later => sd_card_v2_init_process fuel m
  end = Some (SD_OK, m') ->
  init_process_at rev fuel m = Some ((AtEnd, SD_OK), m').
Proof.
  intros N1 N2 N3 H. apply init_process_exit in H. destruct H as (at_ & K).
  pose proof K as K'.
  destruct rev; cbn [init_process_at] in K';
    [apply v1_init_process_at_inv in K' | apply v2_init_process_at_inv in K'];
    destruct K' as (_ & s0 & ocr & h & _ & He);
    destruct at_; try contradiction; try exact K;
    destruct He as (Hr & _); unfold SD_OK in *; congruence.
Qed.

(** X3.  When none of the error codes is zero, a reset that returns OK leaves
    the error flag clear and the latch set, and has recorded either
    version 1 with standard capacity or version 2. *)
Theorem successful_reset_records_revision
    (fuel : nat) (crc_enable : bool) (m m' : machine) :
  SD_ERROR <> 0 -> SD_TIMEOUT <> 0 -> SD_TRANSMISSION_ERROR <> 0 ->
  SD_UNUSABLE_CARD <> 0 ->
  sd_card_reset fuel crc_enable m = Some (SD_OK, m') ->
  error_in_initialization (sd_card_status m') = false /\
  sd_card_is_spi_mode m' = true /\
  ((version (sd_card_status m') = 1 /\
    capacity (sd_card_status m') = STANDART) \/
   version (sd_card_status m') = 2).
Proof.
  intros N1 N2 N3 N4 H.
  assert (Hsteps : exists s1 m1, sd_card_enter_spi_mode fuel m = Some (s1, m1)).
  { unfold sd_card_reset, reset_steps in H. bind_inv H. bind_inv E. eauto. }
  destruct Hsteps as (s1 & m1 & He).
  assert (Hs1 : s1 = SD_OK).
  { unfold sd_card_reset, reset_steps in H.
    unfold bind at 1 in H. unfold bind at 1 in H. rewrite He in H.
    destruct (failed s1) eqn:F; [|now apply failed_false].
    apply failed_true in F. cbn [ret] in H.
    unfold end_of_initialization, bind, get_status, put_status, ret in H.
    inversion H. contradiction. }
  subst s1. destruct (enter_ok_sets_latch _ _ _ N2 He) as (L1 & _).
  destruct (hw_command (history m1) cmd_send_if_cond) as [s8 r7] eqn:Hc.
  assert (Hs8 : s8 = SD_OK).
  { unfold sd_card_reset, reset_steps in H.
    unfold bind at 1 in H. unfold bind at 1 in H. rewrite He in H.
    change (failed SD_OK) with false in H. cbv iota in H.
    unfold bind at 1 in H. unfold SEND_CMD at 1 in H. rewrite Hc in H.
    cbn [fst snd] in H. change (Z.lor SD_OK s8) with s8 in H.
    destruct (failed s8) eqn:F; [|now apply failed_false].
    apply failed_true in F. cbn [ret] in H.
    unfold end_of_initialization, bind, get_status, put_status, ret in H.
    inversion H. contradiction. }
  subst s8.
  destruct (reset_after_if_cond fuel crc_enable m m1 r7 He Hc)
    as (s_crc & st & resp & m3 & Hcrc & Hm3 & Hreset).
  rewrite Hreset in H. clear Hreset.
  assert (L3 : sd_card_is_spi_mode m3 = true) by (now rewrite Hm3).
  assert (Hend : forall s ma,
             end_of_initialization s ma = Some (SD_OK, m') ->
             s = SD_OK /\
             error_in_initialization (sd_card_status m') = false /\
             sd_card_is_spi_mode m' = sd_card_is_spi_mode ma /\
             version (sd_card_status m') = version (sd_card_status ma) /\
             capacity (sd_card_status m') = capacity (sd_card_status ma)).
  { intros s ma K. unfold end_of_initialization, bind, get_status,
      put_status, ret in K. inversion K; subst. repeat split. }
  assert (Hneg : forall rev s mm,
             match rev with
             | Earlier => sd_card_v1_init_process fuel m3
             | Later => sd_card_v2_init_process fuel m3
             end = Some (s, mm) ->
             end_of_initialization (Z.lor s_crc s) mm = Some (SD_OK, m') ->
             error_in_initialization (sd_card_status m') = false /\
             sd_card_is_spi_mode m' = true /\
             version (sd_card_status m')
             = match rev with Earlier => 1 | Later => 2 end /\
             (rev = Earlier -> capacity (sd_card_status m') = STANDART)).
  { intros rev s mm K1 K2.
    destruct (Hend _ _ K2) as (Hz & Hf & Hl & Hv & Hcap).
    unfold SD_OK in Hz. apply lor_zero_both in Hz. destruct Hz as (_ & ->).
    pose proof (init_process_keeps_latch rev _ _ _ _ K1) as Lm.
    apply init_process_ok in K1; try assumption.
    split; [exact Hf|]. split; [congruence|].
    destruct rev; cbn [init_process_at] in K1;
      [apply v1_init_process_at_inv in K1 | apply v2_init_process_at_inv in K1];
      destruct K1 as (_ & s0 & ocr & h & _ & _ & _ & Hst & _);
      rewrite Hv, Hcap, Hst; cbn [version capacity]; split; auto; discriminate. }
  destruct (if_cond_illegal r7); [|destruct (if_cond_accepted r7)].
  - bind_inv H. destruct (Hneg Earlier _ _ E H) as (A & B & C & D).
    split; [exact A|]. split; [exact B|]. left. split; [exact C | now apply D].
  - bind_inv H. destruct (Hneg Later _ _ E H) as (A & B & C & D).
    split; [exact A|]. split; [exact B|]. right. exact C.
  - destruct (Hend _ _ H) as (Hz & _). unfold SD_OK in Hz.
    apply lor_zero_both in Hz. destruct Hz as (_ & Hz). contradiction.
Qed.


(** ** The later-revision size field *)

Lemma lor_shiftl_add (a b n : Z) :
  0 <= n -> 0 <= b < 2 ^ n -> Z.lor (Z.shiftl a n) b = a * 2 ^ n + b.
Proof.
  intros Hn Hb.
  assert (Hland : Z.land (Z.shiftl a n) b = 0).
  { apply Z.bits_inj'. intros i Hi. rewrite Z.land_spec, Z.bits_0.
    destruct (Z_lt_le_dec i n) as [Hlt|Hge].
    - rewrite Z.shiftl_spec_low by assumption. reflexivity.
    - rewrite <- (Z.mod_small b (2 ^ n)) by assumption.
      rewrite Z.mod_pow2_bits_high by lia. apply andb_false_r. }
  rewrite <- Z.shiftl_mul_pow2 by assumption.
  rewrite <- Z.add_lor_land, Hland. lia.
Qed.

(** [c_size] is the 22-bit number whose top six bits are the low six bits
    of byte 7, followed by byte 8 and byte 9. *)
Lemma c_size_field (csd : list Z) :
  c_size csd
  = (csd_register csd 7 mod 2 ^ 6) * 2 ^ 16
    + csd_register csd 8 * 2 ^ 8 + csd_register csd 9.
Proof.
  pose proof (c_size_range csd) as R. unfold c_size in *. unfold csd_register in *.
  pose proof (byte_at_range csd 7) as B7.
  pose proof (byte_at_range csd 8) as B8.
  pose proof (byte_at_range csd 9) as B9.
  unfold u32 in *.
  assert (E : Z.lor (Z.lor (Z.shiftl (Z.land (byte_at csd 7) 63) 16)
                           (Z.shiftl (byte_at csd 8) 8)) (byte_at csd 9)
              = (byte_at csd 7 mod 2 ^ 6) * 2 ^ 16
                + byte_at csd 8 * 2 ^ 8 + byte_at csd 9).
  { change 63 with (Z.ones 6). rewrite Z.land_ones by lia.
    pose proof (Z.mod_pos_bound (byte_at csd 7) (2 ^ 6) eq_refl) as M.
    replace (Z.shiftl (byte_at csd 7 mod 2 ^ 6) 16)
      with (Z.shiftl (Z.shiftl (byte_at csd 7 mod 2 ^ 6) 8) 8)
      by (rewrite Z.shiftl_shiftl by lia; reflexivity).
    rewrite <- Z.shiftl_lor.
    rewrite (lor_shiftl_add _ (byte_at csd 9) 8) by lia.
    rewrite (lor_shiftl_add _ (byte_at csd 8) 8) by lia.
    change (2 ^ 16) with (2 ^ 8 * 2 ^ 8). ring. }
  rewrite E. apply Z.mod_small.
  pose proof (Z.mod_pos_bound (byte_at csd 7) (2 ^ 6) eq_refl) as M.
  change (2 ^ 6) with 64 in *. change (2 ^ 16) with 65536.
  change (2 ^ 8) with 256. change (2 ^ 32) with 4294967296. lia.
Qed.

(** X4.  With any session version other than 1 (2 after a later-revision
    negotiation, 0 before any), the decoded size is [(c_size + 1) * 512],
    where [c_size] is the 22-bit field made of the low six bits of CSD byte
    7, byte 8 and byte 9; the product fits 32 bits. *)
Theorem size_by_later_layout (version : Z) (csd : list Z) :
  version <> 1 ->
  size (decode_info version csd) = (c_size csd + 1) * 512 /\
  c_size csd
  = (csd_register csd 7 mod 2 ^ 6) * 2 ^ 16
    + csd_register csd 8 * 2 ^ 8 + csd_register csd 9 /\
  0 <= c_size csd < 2 ^ 22.
Proof.
  intros V. split; [|split].
  - cbn [size decode_info]. now apply decode_size_not_v1.
  - apply c_size_field.
  - apply c_size_range.
Qed.


(** ** The device-size field *)

(** What the code computes for the device size: the two bits of byte 6
    weigh 2^11 and 2^12. *)
Lemma device_size_value (csd : list Z) :
  device_size csd
  = Z.land (csd_register csd 6) 0x3 * 2 ^ 11
    + csd_register csd 7 * 2 ^ 2
    + Z.shiftr (csd_register csd 8) 6.
Proof.
  unfold device_size, csd_register.
  pose proof (byte_at_range csd 6) as B6.
  pose proof (byte_at_range csd 7) as B7.
  pose proof (byte_at_range csd 8) as B8.
  assert (H6 : 0 <= Z.land (byte_at csd 6) 3 < 4).
  { change 3 with (Z.ones 2). rewrite Z.land_ones by lia.
    apply Z.mod_pos_bound. reflexivity. }
  assert (H8 : Z.shiftr (Z.land (byte_at csd 8) 192) 6
               = Z.shiftr (byte_at csd 8) 6).
  { rewrite Z.shiftr_land. change (Z.shiftr 192 6) with (Z.ones 2).
    rewrite Z.land_ones by lia. apply Z.mod_small.
    rewrite Z.shiftr_div_pow2 by lia. change (2 ^ 6) with 64.
    change (2 ^ 2) with 4. split; [apply Z.div_pos; lia|].
    apply Z.div_lt_upper_bound; lia. }
  assert (R8 : 0 <= Z.shiftr (byte_at csd 8) 6 < 4).
  { rewrite Z.shiftr_div_pow2 by lia. change (2 ^ 6) with 64.
    split; [apply Z.div_pos; lia|]. apply Z.div_lt_upper_bound; lia. }
  rewrite H8.
  replace (Z.shiftl (Z.land (byte_at csd 6) 3) 11)
    with (Z.shiftl (Z.shiftl (Z.land (byte_at csd 6) 3) 9) 2)
    by (rewrite Z.shiftl_shiftl by lia; reflexivity).
  rewrite <- Z.shiftl_lor.
  rewrite (lor_shiftl_add _ (byte_at csd 7) 9)
    by (change (2 ^ 9) with 512; lia).
  rewrite (lor_shiftl_add _ (Z.shiftr (byte_at csd 8) 6) 2)
    by (change (2 ^ 2) with 4; lia).
  unfold u16. rewrite Z.mod_small.
  - change (2 ^ 11) with (2 ^ 9 * 2 ^ 2). ring.
  - change (2 ^ 9) with 512. change (2 ^ 2) with 4.
    change (2 ^ 16) with 65536. lia.
Qed.

(** C5.  The code's device size is the 12-bit device-size field plus
    1024 times the two low bits of byte 6: those bits are shifted by 11
    instead of 10, so they weigh twice what they should and bit 10 is never
    set.  For the CSD block whose field reads 1024 the code computes 2048;
    with version 1 the decoded size is (2048 + 1) * 2^(0+2) * 1 = 8196,
    where the field gives (1024 + 1) * 2^(0+2) * 1 = 4100. *)
Theorem device_size_shifts_byte_6_by_11 :
  (forall csd,
      device_size csd
      = device_size_field csd + Z.land (csd_register csd 6) 0x3 * 2 ^ 10) /\
  device_size_field csd_device_size_1024 = 1024 /\
  device_size csd_device_size_1024 = 2048 /\
  size (decode_info 1 csd_device_size_1024) = 8196 /\
  (device_size_field csd_device_size_1024 + 1)
  * 2 ^ (size_mult csd_device_size_1024 + 2)
  * max_data_block_size (decode_info 1 csd_device_size_1024) = 4100.
Proof.
  split; [|repeat split].
  intros csd. rewrite device_size_value. unfold device_size_field.
  change (2 ^ 11) with (2 * 2 ^ 10). ring.
Qed.

End Properties.

(** * Runs on simulated cards *)

(** Witness for C7: a card that reports an empty voltage window. *)
Lemma voltage_check_failure_on_simulated_card :
  @sd_card_v1_init_process flag_codes
    (simulated 1 (no_voltage_commands SD_OK 0x01)) 0 power_up
  = Some (1, log (EvCmd cmd_read_ocr SD_OK [0x01; 0x00; 0x00; 0x00; 0x00])
                 power_up) /\
  @sd_card_v2_init_process flag_codes
    (simulated 1 (no_voltage_commands SD_OK 0x01)) 0 power_up
  = Some (8, log (EvCmd cmd_read_ocr SD_OK [0x01; 0x00; 0x00; 0x00; 0x00])
                 power_up) /\
  commands_issued
    (history (log (EvCmd cmd_read_ocr SD_OK [0x01; 0x00; 0x00; 0x00; 0x00])
                  power_up))
  = commands_issued (history power_up) ++ [cmd_read_ocr].
Proof.
  apply (@voltage_check_failure_returns_before_polling flag_codes
           (simulated 1 (no_voltage_commands SD_OK 0x01)) 0%nat power_up
           SD_OK [0x01; 0x00; 0x00; 0x00; 0x00]).
  - reflexivity.
  - left. reflexivity.
Defined.


(** Witness for C10: the earlier-revision negotiation timing out on a busy
    card, and the later-revision negotiation completing on a healthy one. *)
Lemma negotiation_state_on_simulated_cards :
  sd_card_status busy_v1_timed_out = sd_card_status power_up /\
  version (sd_card_status
             (machine_after (@sd_card_v2_init_process_at flag_codes
                               healthy_v2 5 power_up))) = 2.
Proof.
  split.
  - apply (@negotiation_writes_state_only_when_ready flag_codes busy_v1
             Earlier 5%nat power_up busy_v1_timed_out AtDeadline 2).
    + reflexivity.
    + discriminate.
  - apply (@negotiation_writes_state_only_when_ready flag_codes healthy_v2
             Later 5%nat power_up _ AtEnd SD_OK).
    + reflexivity.
    + reflexivity.
Defined.

(** Witness for C6: mode entry on a healthy card, then again. *)
Lemma enter_spi_mode_twice_on_simulated_card :
  @sd_card_enter_spi_mode flag_codes healthy_v2 5 power_up
  = Some (SD_OK, healthy_v2_in_spi_mode) /\
  sd_card_is_spi_mode healthy_v2_in_spi_mode = true /\
  forall fuel,
    @sd_card_enter_spi_mode flag_codes healthy_v2 fuel healthy_v2_in_spi_mode
    = Some (SD_OK, healthy_v2_in_spi_mode).
Proof.
  assert (T : @SD_TIMEOUT flag_codes <> SD_OK) by discriminate.
  assert (H : @sd_card_enter_spi_mode flag_codes healthy_v2 5 power_up
              = Some (SD_OK, healthy_v2_in_spi_mode))
    by (vm_compute; reflexivity).
  destruct (@enter_spi_mode_idempotent flag_codes healthy_v2 T)
    as (A & B & _).
  pose proof (A _ _ _ _ H eq_refl) as L.
  split; [exact H|]. split; [exact L|].
  intros fuel. exact (B fuel _ L).
Defined.

(** Witness for C9 (amended): mode entry timing out on a silent card, the
    earlier-revision negotiation timing out on a busy one, and the loops
    returning on a clock that jumps past the deadline at its third
    reading. *)
Lemma timeouts_on_simulated_cards :
  (exists t t0 h1 h0,
      history faulty_silent_timed_out
      = EvTick t :: h1 ++ EvTick t0 :: h0 ++ history power_up /\
      no_ticks h0 /\ 500 < u32 (t - t0) /\ ticks_within 500 t0 h1) /\
  (exists t t0 h1 h0,
      history busy_v1_timed_out
      = EvTick t :: h1 ++ EvTick t0 :: h0 ++ history power_up /\
      no_ticks h0 /\ 1000 < u32 (t - t0) /\ ticks_within 1000 t0 h1 /\
      saw_ready (EvTick t :: h1) = false) /\
  (exists e m1,
      @spi_mode_poll flag_codes jumping_clock 3 0 SD_OK power_up
      = Some (e, m1)) /\
  (exists e m1,
      @v1_poll flag_codes jumping_clock 3 0 SD_OK power_up = Some (e, m1)).
Proof.
  assert (J : forall budget h,
             budget < 5000 -> (2 <= count is_tick h)%nat ->
             budget < u32 (u32 (@hw_tick jumping_clock h) - 0)).
  { intros budget h B G. cbn [hw_tick jumping_clock scripted on_tick].
    destruct (Nat.ltb_spec (count is_tick h) 2); [lia|]. exact B. }
  split; [|split; [|split]].
  - apply (proj1 (@timeout_only_after_deadline flag_codes faulty_silent
                    5%nat power_up faulty_silent_timed_out 2)).
    vm_compute. reflexivity.
  - apply (proj1 (proj2 (@timeout_only_after_deadline flag_codes busy_v1
                    5%nat power_up busy_v1_timed_out 2)) Earlier).
    vm_compute. reflexivity.
  - apply (proj2 (proj2 (@timeout_only_after_deadline flag_codes
                    jumping_clock 3%nat power_up power_up 0))
             2%nat 0 SD_OK); [cbn; lia | cbn; lia |].
    intros h G. apply J; [reflexivity | exact G].
  - apply (proj2 (proj2 (@timeout_only_after_deadline flag_codes
                    jumping_clock 3%nat power_up power_up 0))
             2%nat 0 SD_OK); [cbn; lia | cbn; lia |].
    intros h G. apply J; [reflexivity | exact G].
Defined.

(** Counterexample to C9: the card answers in-idle-state to the first poll,
    but the clock reads 501 ms by the time it is consulted; mode entry
    returns the timeout code although the status byte equals
    in-idle-state. *)
Lemma mode_entry_times_out_on_idle_byte :
  @sd_card_enter_spi_mode_at flag_codes slow_clock 5 power_up
  = Some ((AtDeadline, @SD_TIMEOUT flag_codes), slow_clock_timed_out) /\
  exists h,
    history slow_clock_timed_out
    = EvTick 501 :: EvReceive SD_OK R1_IN_IDLE_STATE :: EvTick 0 :: h /\
    or_statuses (history slow_clock_timed_out) = SD_OK.
Proof.
  split; [reflexivity|]. eexists. split; reflexivity.
Qed.

(** Witness for C2 (amended): a reset of an earlier-revision card whose
    CMD55 reports a transmission error (4) while the negotiation runs to
    its final return; the reset returns 4. *)
Lemma reset_status_on_simulated_card :
  exists at_e s_enter m1 h_enter,
    @sd_card_enter_spi_mode_at flag_codes flaky_v1 5 power_up
    = Some ((at_e, s_enter), m1) /\
    history m1 = h_enter ++ history power_up /\
    s_enter = match at_e with
              | AtDeadline => @SD_TIMEOUT flag_codes
              | _ => or_statuses h_enter
              end /\
    error_in_initialization (sd_card_status flaky_v1_after_reset)
    = failed 4 /\
    (exists h,
        history flaky_v1_after_reset = h ++ history power_up /\
        (@SD_ERROR flag_codes <> 0 -> @SD_TIMEOUT flag_codes <> 0 ->
         @SD_TRANSMISSION_ERROR flag_codes <> 0 ->
         @SD_UNUSABLE_CARD flag_codes <> 0 -> 4 = SD_OK ->
         or_statuses h = SD_OK)) /\
    ((s_enter <> SD_OK /\ 4 = s_enter /\
      flaky_v1_after_reset = with_error_flag (failed 4) m1)
     \/
     (s_enter = SD_OK /\
      exists s_if r7 m2,
        @hw_command flaky_v1 (history m1) cmd_send_if_cond = (s_if, r7) /\
        m2 = log (EvCmd cmd_send_if_cond s_if r7) m1 /\
        ((s_if <> SD_OK /\ 4 = Z.lor s_enter s_if /\
          flaky_v1_after_reset = with_error_flag (failed 4) m2)
         \/
         (s_if = SD_OK /\
          exists s_crc st resp m3 s_neg mz h_neg,
            @sd_card_crc_on_off flag_codes flaky_v1 true m2
            = Some (s_crc, m3) /\
            m3 = log (EvCmd (cmd_crc_on_off true) st resp) m2 /\
            s_crc = (if r1_of resp =? R1_IN_IDLE_STATE
                     then st else @SD_TRANSMISSION_ERROR flag_codes) /\
            history mz = h_neg ++ history m3 /\
            4 = Z.lor (Z.lor (Z.lor s_enter s_if) s_crc) s_neg /\
            flaky_v1_after_reset = with_error_flag (failed 4) mz /\
            ((if_cond_illegal r7 = false /\ if_cond_accepted r7 = false /\
              s_neg = @SD_UNUSABLE_CARD flag_codes /\ mz = m3)
             \/
             (exists rev at_n,
                 rev = (if if_cond_illegal r7 then Earlier else Later) /\
                 (if_cond_illegal r7 = true \/ if_cond_accepted r7 = true) /\
                 @init_process_at flag_codes flaky_v1 rev 5 m3
                 = Some ((at_n, s_neg), mz) /\
                 s_neg = match at_n with
                         | AtEnd => or_statuses h_neg
                         | AtVoltage =>
                             match rev with
                             | Earlier => @SD_ERROR flag_codes
                             | Later => @SD_UNUSABLE_CARD flag_codes
                             end
                         | AtIllegal => @SD_UNUSABLE_CARD flag_codes
                         | _ => @SD_TIMEOUT flag_codes
                         end)))))).
Proof.
  apply (@reset_status_is_or_of_step_statuses flag_codes flaky_v1
           5%nat true power_up flaky_v1_after_reset 4).
  vm_compute. reflexivity.
Defined.

(** Counterexample to C2: the go-idle transmit reports a transmission
    error (4), the card never becomes idle, and after 600 ms mode entry
    returns the timeout code (2) alone.  The reset returns 2: the bit
    observed on the way is not in the result. *)
Lemma reset_drops_status_observed_before_timeout :
  @sd_card_reset flag_codes faulty_silent 5 true power_up
  = Some (@SD_TIMEOUT flag_codes, faulty_silent_after_reset) /\
  In (EvTransmit (Frame cmd_go_idle_state) (@SD_TRANSMISSION_ERROR flag_codes))
     (history faulty_silent_after_reset) /\
  or_statuses (history faulty_silent_after_reset)
  = @SD_TRANSMISSION_ERROR flag_codes /\
  Z.land (@SD_TIMEOUT flag_codes) (@SD_TRANSMISSION_ERROR flag_codes) = 0 /\
  @SD_TIMEOUT flag_codes
  <> Z.lor (or_statuses (history faulty_silent_after_reset))
           (@SD_TIMEOUT flag_codes).
Proof.
  split; [reflexivity|]. split; [|split; [reflexivity|]].
  - vm_compute. tauto.
  - split; [reflexivity | discriminate].
Qed.

(** Witness for C4 (amended): an earlier-revision card, whose
    interface-condition response has the illegal-command flag set. *)
Lemma reset_order_on_simulated_card :
  exists s_crc st resp m3,
    @sd_card_crc_on_off flag_codes healthy_v1 true
      (log (EvCmd cmd_send_if_cond SD_OK [0x05; 0x00; 0x00; 0x00; 0x00])
           healthy_v1_in_spi_mode)
    = Some (s_crc, m3) /\
    m3 = log (EvCmd (cmd_crc_on_off true) st resp)
             (log (EvCmd cmd_send_if_cond SD_OK [0x05; 0x00; 0x00; 0x00; 0x00])
                  healthy_v1_in_spi_mode) /\
    @sd_card_reset flag_codes healthy_v1 5 true power_up
    = (s <- @sd_card_v1_init_process flag_codes healthy_v1 5 ;;
       end_of_initialization (Z.lor s_crc s))%driver m3.
Proof.
  destruct (@reset_sets_crc_before_branching flag_codes healthy_v1 5%nat true
              power_up healthy_v1_in_spi_mode
              [0x05; 0x00; 0x00; 0x00; 0x00] eq_refl eq_refl)
    as (s_crc & st & resp & m3 & H1 & H2 & H3 & _).
  exists s_crc, st, resp, m3. split; [exact H1|]. split; [exact H2|].
  exact H3.
Defined.

(** Counterexample to C4: on a card whose interface-condition response has
    the illegal-command flag set, the reset still issues the CRC on/off
    command (CMD59), right after the interface-condition command and
    before the earlier-revision negotiation. *)
Lemma reset_issues_crc_command_on_illegal_branch :
  @sd_card_reset flag_codes healthy_v1 5 true power_up
  = Some (SD_OK, healthy_v1_after_reset) /\
  @hw_command healthy_v1 (history healthy_v1_in_spi_mode) cmd_send_if_cond
  = (SD_OK, [0x05; 0x00; 0x00; 0x00; 0x00]) /\
  if_cond_illegal [0x05; 0x00; 0x00; 0x00; 0x00] = true /\
  commands_issued (history healthy_v1_after_reset)
  = [cmd_send_if_cond; cmd_crc_on_off true; cmd_read_ocr;
     cmd_app; acmd_send_op_cond; cmd_app; acmd_send_op_cond] /\
  version (sd_card_status healthy_v1_after_reset) = 1.
Proof. repeat split. Qed.

(** Witness for C1 (amended): geometry read at power-up. *)
Lemma common_info_at_power_up :
  @sd_card_get_common_info healthy_v2 blank_info power_up
  = Some ((SD_OK, decode_info 0 sample_csd),
          log (EvCsd SD_OK sample_csd) power_up) /\
  size (decode_info 0 sample_csd) = (c_size sample_csd + 1) * 512 /\
  0 <= c_size sample_csd < 2 ^ 22.
Proof.
  apply (@common_info_with_version_unset healthy_v2 blank_info power_up
           SD_OK sample_csd); reflexivity.
Defined.

(** Counterexample to C1: called at power-up, with the version still 0,
    [sd_card_get_common_info] returns OK and a decoded geometry. *)
Lemma common_info_before_reset_returns_ok :
  version (sd_card_status power_up) = 0 /\
  exists info m',
    @sd_card_get_common_info healthy_v2 blank_info power_up
    = Some ((SD_OK, info), m') /\
    failed SD_OK = false /\
    size info = 2139144192 /\
    max_data_block_size info = 512.
Proof.
  split; [reflexivity|]. eexists _, _. repeat split.
Qed.

(** Witness for C3: a later-revision card whose OCR byte 0 is 0x40. *)
Lemma ocr_0x40_on_simulated_card :
  capacity (sd_card_status
              (machine_after (@sd_card_v2_init_process_at flag_codes
                                healthy_v2 5 power_up))) = STANDART /\
  version (sd_card_status
             (machine_after (@sd_card_v2_init_process_at flag_codes
                               healthy_v2 5 power_up))) = 2.
Proof.
  apply (@v2_records_standard_for_ocr_0x40 flag_codes healthy_v2 5%nat
           power_up _ SD_OK SD_OK [0x01; 0x40; 0xff; 0x80; 0x00]).
  - reflexivity.
  - left. reflexivity.
  - reflexivity.
Defined.

(** Witness for X1: power-on against a healthy card. *)
Lemma power_on_on_simulated_card :
  exists rx b h,
    history (machine_after (@sd_card_power_on healthy_v2 power_up))
    = EvReceive rx b :: h ++ EvDeselect :: history power_up /\
    length h = 10%nat /\
    Forall (fun e => exists s, e = EvTransmit (Bytes [0xff]) s) h /\
    SD_OK = or_statuses (EvReceive rx b :: h) /\
    same_session power_up
      (machine_after (@sd_card_power_on healthy_v2 power_up)).
Proof.
  apply (@power_on_clocks_ten_idle_bytes healthy_v2 power_up _ SD_OK).
  vm_compute. reflexivity.
Defined.

(** Witness for X2: a reset against a card that echoes 0xaa instead of
    0x55. *)
Lemma rejected_interface_condition_on_simulated_card :
  exists s_crc st resp m3 m',
    @sd_card_crc_on_off flag_codes bad_echo true
      (log (EvCmd cmd_send_if_cond SD_OK [0x01; 0x00; 0x00; 0x01; 0xaa])
           bad_echo_in_spi_mode)
    = Some (s_crc, m3) /\
    m3 = log (EvCmd (cmd_crc_on_off true) st resp)
             (log (EvCmd cmd_send_if_cond SD_OK [0x01; 0x00; 0x00; 0x01; 0xaa])
                  bad_echo_in_spi_mode) /\
    @sd_card_reset flag_codes bad_echo 5 true power_up
    = Some (Z.lor s_crc 8, m') /\
    m' = with_error_flag (failed (Z.lor s_crc 8)) m3 /\
    commands_issued (history m')
    = commands_issued (history bad_echo_in_spi_mode)
      ++ [cmd_send_if_cond; cmd_crc_on_off true] /\
    version (sd_card_status m') = version (sd_card_status bad_echo_in_spi_mode) /\
    capacity (sd_card_status m')
    = capacity (sd_card_status bad_echo_in_spi_mode) /\
    error_in_initialization (sd_card_status m') = failed (Z.lor s_crc 8).
Proof.
  apply (@rejected_interface_condition_is_unusable flag_codes bad_echo
           5%nat true power_up bad_echo_in_spi_mode
           [0x01; 0x00; 0x00; 0x01; 0xaa]).
  - vm_compute. reflexivity.
  - vm_compute. reflexivity.
  - reflexivity.
  - left. vm_compute. discriminate.
Defined.

(** Witness for X3: a whole reset of a healthy later-revision card. *)
Lemma successful_reset_on_simulated_card :
  error_in_initialization (sd_card_status healthy_v2_after_reset) = false /\
  sd_card_is_spi_mode healthy_v2_after_reset = true /\
  ((version (sd_card_status healthy_v2_after_reset) = 1 /\
    capacity (sd_card_status healthy_v2_after_reset) = STANDART) \/
   version (sd_card_status healthy_v2_after_reset) = 2).
Proof.
  apply (@successful_reset_records_revision flag_codes healthy_v2 5%nat true
           power_up healthy_v2_after_reset);
    try discriminate.
  vm_compute. reflexivity.
Defined.

(** Witness for X4: the sample register read with the version still
    unset. *)
Lemma size_of_sample_csd_by_later_layout :
  size (decode_info 0 sample_csd) = (c_size sample_csd + 1) * 512 /\
  c_size sample_csd
  = (csd_register sample_csd 7 mod 2 ^ 6) * 2 ^ 16
    + csd_register sample_csd 8 * 2 ^ 8 + csd_register sample_csd 9 /\
  0 <= c_size sample_csd < 2 ^ 22.
Proof.
  apply (size_by_later_layout 0 sample_csd). discriminate.
Defined.

(** * Properties of whole calls *)

Section WholeCalls.

Context {codes : sd_error_codes} {card : Transport}.

(** Flatten an OR of statuses over appended histories. *)
Ltac or_flat :=
  repeat (progress (cbn [or_statuses event_status app];
                    rewrite ?or_statuses_app));
  unfold SD_OK;
  rewrite ?Z.lor_0_r, ?Z.lor_0_l, ?Z.lor_assoc.

(** ** The commands a negotiation issues *)

Lemma commands_issued_round (m : machine) (s1 s2 : sd_error) (r1 r2 : list Z) :
  commands_issued ([EvCmd acmd_send_op_cond s2 r2; EvCmd cmd_app s1 r1]
                   ++ history m)
  = commands_issued (history m) ++ poll_commands 1.
Proof. cbn [app commands_issued poll_commands]. now rewrite <- app_assoc. Qed.

Lemma poll_commands_app (j k : nat) :
  poll_commands j ++ poll_commands k = poll_commands (j + k).
Proof.
  induction j as [|j IH]; [reflexivity|].
  cbn [poll_commands Nat.add app]. now rewrite IH.
Qed.

Lemma v1_poll_commands (fuel : nat) (tickstart : Z) (status : sd_error)
    (m m' : machine) (e : poll_exit) :
  v1_poll fuel tickstart status m = Some (e, m') ->
  exists k, (1 <= k)%nat /\
    commands_issued (history m')
    = commands_issued (history m) ++ poll_commands k.
Proof.
  revert status m. induction fuel as [|fuel IH]; intros status m H.
  - discriminate.
  - rewrite v1_poll_unfold in H.
    destruct (op_cond_round_run status m) as (s1 & r1 & s2 & r2 & E).
    rewrite (bind_run _ _ _ _ _ E) in H. cbn [fst snd] in H.
    set (m1 := {| history := _ |}) in *.
    assert (C1 : commands_issued (history m1)
                 = commands_issued (history m) ++ poll_commands 1)
      by apply commands_issued_round.
    destruct (r1_of r2 =? R1_CLEAR_FLAGS).
    { inversion H; subst. exists 1%nat. split; [lia | exact C1]. }
    destruct (negb (Z.land (r1_of r2) R1_ILLEGAL_COMMAND =? 0)).
    { inversion H; subst. exists 1%nat. split; [lia | exact C1]. }
    unfold bind at 1 in H. cbn [HAL_GetTick] in H.
    destruct (1000 <? _).
    { inversion H; subst. exists 1%nat. split; [lia | exact C1]. }
    apply IH in H. destruct H as (k & Hk & Hc).
    exists (1 + k)%nat. split; [lia|]. rewrite Hc.
    cbn [log history commands_issued]. rewrite C1, <- app_assoc.
    now rewrite poll_commands_app.
Qed.

Lemma v2_poll_commands (fuel : nat) (tickstart : Z) (status : sd_error)
    (m m' : machine) (e : poll_exit) :
  v2_poll fuel tickstart status m = Some (e, m') ->
  exists k, (1 <= k)%nat /\
    commands_issued (history m')
    = commands_issued (history m) ++ poll_commands k.
Proof.
  revert status m. induction fuel as [|fuel IH]; intros status m H.
  - discriminate.
  - rewrite v2_poll_unfold in H.
    destruct (op_cond_round_run status m) as (s1 & r1 & s2 & r2 & E).
    rewrite (bind_run _ _ _ _ _ E) in H. cbn [fst snd] in H.
    set (m1 := {| history := _ |}) in *.
    assert (C1 : commands_issued (history m1)
                 = commands_issued (history m) ++ poll_commands 1)
      by apply commands_issued_round.
    destruct (r1_of r2 =? R1_CLEAR_FLAGS).
    { inversion H; subst. exists 1%nat. split; [lia | exact C1]. }
    unfold bind at 1 in H. cbn [HAL_GetTick] in H.
    destruct (1000 <? _).
    { inversion H; subst. exists 1%nat. split; [lia | exact C1]. }
    apply IH in H. destruct H as (k & Hk & Hc).
    exists (1 + k)%nat. split; [lia|]. rewrite Hc.
    cbn [log history commands_issued]. rewrite C1, <- app_assoc.
    now rewrite poll_commands_app.
Qed.

(** X5.  Either negotiation issues the OCR read (CMD58) exactly once, as
    its first command, and after it only rounds of CMD55 followed by
    ACMD41: none when it left through the voltage check, at least one
    otherwise.  The OCR is never read again after the card reports
    ready. *)
Theorem negotiation_command_sequence
    (rev : revision) (fuel : nat) (m m' : machine)
    (at_ : exit_point) (r : sd_error) :
  init_process_at rev fuel m = Some ((at_, r), m') ->
  exists k,
    commands_issued (history m')
    = commands_issued (history m) ++ cmd_read_ocr :: poll_commands k /\
    (k = 0%nat <-> at_ = AtVoltage).
Proof.
  intros H.
  assert (K : (at_ = AtVoltage /\
               commands_issued (history m')
               = commands_issued (history m) ++ [cmd_read_ocr])
              \/ (at_ <> AtVoltage /\
                  exists k, (1 <= k)%nat /\
                    commands_issued (history m')
                    = (commands_issued (history m) ++ [cmd_read_ocr])
                      ++ poll_commands k)).
  { destruct rev; cbn [init_process_at] in H.
    - unfold sd_card_v1_init_process_at in H.
      unfold bind at 1 in H. cbn [SEND_CMD fst snd] in H.
      destruct (negb (voltage_window_ok _)).
      { inversion H; subst. left. split; reflexivity. }
      unfold bind at 1 in H. cbn [HAL_GetTick] in H. bind_inv H.
      pose proof (v1_poll_commands _ _ _ _ _ _ E) as (k & Hk & Hc).
      apply v1_poll_inv in E. destruct E as (h & _ & _ & _ & He).
      right. destruct a as [status'|at' code].
      + unfold bind, get_status, put_status, ret in H.
        inversion H; subst. split; [discriminate|].
        exists k. split; [exact Hk | exact Hc].
      + inversion H; subst. split; [|exists k; split; [exact Hk | exact Hc]].
        destruct He as (_ & [(-> & _)|(-> & _)]); discriminate.
    - unfold sd_card_v2_init_process_at in H.
      unfold bind at 1 in H. cbn [SEND_CMD fst snd] in H.
      destruct (negb (voltage_window_ok _)).
      { inversion H; subst. left. split; reflexivity. }
      unfold bind at 1 in H. cbn [HAL_GetTick] in H. bind_inv H.
      pose proof (v2_poll_commands _ _ _ _ _ _ E) as (k & Hk & Hc).
      apply v2_poll_inv in E. destruct E as (h & _ & _ & _ & He).
      right. destruct a as [status'|at' code].
      + unfold bind, get_status, put_status, ret in H.
        inversion H; subst. split; [discriminate|].
        exists k. split; [exact Hk | exact Hc].
      + inversion H; subst. split; [|exists k; split; [exact Hk | exact Hc]].
        destruct He as (_ & -> & _). discriminate. }
  destruct K as [(-> & Hc)|(Hn & k & Hk & Hc)].
  - exists 0%nat. split; [exact Hc | tauto].
  - exists k. split; [now rewrite Hc, <- app_assoc|].
    split; [lia | contradiction].
Qed.

(** ** A negotiation that saw errors and still completed *)

Lemma or_statuses_all_ok (h : list event) :
  Forall (fun e => event_status e = SD_OK) h -> or_statuses h = SD_OK.
Proof.
  induction 1 as [|e h He _ IH]; [reflexivity|].
  cbn [or_statuses]. now rewrite IH, He.
Qed.

(** X6.  When a negotiation leaves through its final return, the status it
    returns is the OR of the statuses of every command it issued, so it is
    OK exactly when all of them were; and the version (1 or 2, with
    standard capacity for the earlier revision) has been recorded whatever
    that status is, the error flag being left as it was.  A negotiation can
    therefore report an error and have recorded a revision all the same. *)
Theorem completed_negotiation_reports_all_statuses
    (rev : revision) (fuel : nat) (m m' : machine) (r : sd_error) :
  init_process_at rev fuel m = Some ((AtEnd, r), m') ->
  exists h,
    history m' = h ++ history m /\
    r = or_statuses h /\
    (r = SD_OK <-> Forall (fun e => event_status e = SD_OK) h) /\
    version (sd_card_status m')
    = match rev with Earlier => 1 | Later => 2 end /\
    (rev = Earlier -> capacity (sd_card_status m') = STANDART) /\
    error_in_initialization (sd_card_status m')
    = error_in_initialization (sd_card_status m).
Proof.
  intros H.
  assert (K : exists s0 ocr h,
             history m' = h ++ EvCmd cmd_read_ocr s0 ocr :: history m /\
             r = or_statuses (h ++ [EvCmd cmd_read_ocr s0 ocr]) /\
             version (sd_card_status m')
             = match rev with Earlier => 1 | Later => 2 end /\
             (rev = Earlier -> capacity (sd_card_status m') = STANDART) /\
             error_in_initialization (sd_card_status m')
             = error_in_initialization (sd_card_status m)).
  { destruct rev; cbn [init_process_at] in H;
      [apply v1_init_process_at_inv in H | apply v2_init_process_at_inv in H];
      destruct H as (_ & s0 & ocr & h & Hh & Hr & _ & Hs & _);
      exists s0, ocr, h; rewrite Hs; repeat split; auto; discriminate. }
  destruct K as (s0 & ocr & h & Hh & Hr & Hv & Hc & Hf).
  exists (h ++ [EvCmd cmd_read_ocr s0 ocr]).
  split; [now rewrite Hh, <- app_assoc|]. split; [exact Hr|].
  split; [|auto]. rewrite Hr. split.
  - apply or_statuses_ok.
  - apply or_statuses_all_ok.
Qed.

(** ** Masks as arithmetic *)

Lemma land_pow2 (x n : Z) :
  0 <= n -> Z.land x (2 ^ n) = 2 ^ n * ((x / 2 ^ n) mod 2).
Proof.
  intros Hn. rewrite <- Z.testbit_spec' by assumption.
  apply Z.bits_inj'. intros i Hi.
  rewrite Z.land_spec, Z.pow2_bits_eqb by assumption.
  destruct (Z.testbit x n) eqn:B; cbn [Z.b2z].
  - rewrite Z.mul_1_r, Z.pow2_bits_eqb by assumption.
    destruct (Z.eqb_spec n i) as [<-|]; [now rewrite B | apply andb_false_r].
  - rewrite Z.mul_0_r, Z.bits_0.
    destruct (Z.eqb_spec n i) as [<-|]; [now rewrite B | apply andb_false_r].
Qed.

(** Bit 7 of a byte is set exactly when the byte is at least 128. *)
Lemma byte_mask_0x80 (x : Z) :
  0 <= x < 256 -> (negb (Z.land x 0x80 =? 0) = (128 <=? x)).
Proof.
  intros Hx. change 128 with (2 ^ 7) at 1. rewrite land_pow2 by lia.
  change (2 ^ 7) with 128.
  destruct (Z.leb_spec 128 x) as [Hge|Hlt].
  - replace (x / 128) with 1
      by (apply Z.div_unique with (r := x - 128); lia).
    reflexivity.
  - rewrite Z.div_small by lia. reflexivity.
Qed.

Lemma shiftr_mask (x mask n k : Z) :
  0 <= n -> 0 <= k -> 0 <= x < 2 ^ (n + k) -> Z.shiftr mask n = Z.ones k ->
  Z.shiftr (Z.land x mask) n = x / 2 ^ n.
Proof.
  intros Hn Hk Hx Hm. rewrite Z.shiftr_land, Hm, Z.land_ones by assumption.
  rewrite Z.shiftr_div_pow2 by assumption. apply Z.mod_small.
  split; [apply Z.div_pos; [lia | apply Z.pow_pos_nonneg; lia]|].
  apply Z.div_lt_upper_bound; [apply Z.pow_pos_nonneg; lia|].
  rewrite <- Z.pow_add_r by assumption. lia.
Qed.

(** ** The voltage-window check, read as arithmetic *)

(** X7.  The voltage-window check of both negotiations passes exactly when
    at least one of the five low bits of OCR byte 1 is set and OCR byte 2
    is at least 0x80; a single bit of the five is enough, and byte 0, byte
    3, the three high bits of byte 1 and the seven low bits of byte 2 play
    no part. *)
Theorem voltage_window_accepts_any_low_bit (ocr : list Z) :
  voltage_window_ok ocr = true <->
  ocr_register_content ocr 1 mod 32 <> 0 /\
  128 <= ocr_register_content ocr 2.
Proof.
  unfold voltage_window_ok.
  assert (B2 : 0 <= ocr_register_content ocr 2 < 256)
    by apply byte_at_range.
  rewrite andb_true_iff, (byte_mask_0x80 _ B2), Z.leb_le.
  change 31 with (Z.ones 5). rewrite Z.land_ones by lia.
  change (2 ^ 5) with 32. rewrite negb_true_iff, Z.eqb_neq. reflexivity.
Qed.

(** ** Fields of the CSD register *)

Lemma size_mult_value (csd : list Z) :
  size_mult csd = csd_register csd 9 / 32 /\ 0 <= size_mult csd <= 7.
Proof.
  unfold size_mult, csd_register. pose proof (byte_at_range csd 9) as B9.
  rewrite (shiftr_mask _ 224 5 3) by (cbn; lia || reflexivity).
  change (2 ^ 5) with 32.
  assert (0 <= byte_at csd 9 / 32 <= 7).
  { split; [apply Z.div_pos; lia|].
    apply Z.lt_succ_r. apply Z.div_lt_upper_bound; lia. }
  unfold u8. rewrite Z.mod_small; [split; lia|].
  change (2 ^ 8) with 256. lia.
Qed.

Lemma device_size_range (csd : list Z) : 0 <= device_size csd <= 7167.
Proof.
  rewrite device_size_value. unfold csd_register.
  pose proof (byte_at_range csd 7) as B7.
  pose proof (byte_at_range csd 8) as B8.
  assert (H6 : 0 <= Z.land (byte_at csd 6) 3 <= 3).
  { change 3 with (Z.ones 2) at 1 2. rewrite Z.land_ones by lia.
    pose proof (Z.mod_pos_bound (byte_at csd 6) (2 ^ 2) eq_refl).
    change (2 ^ 2) with 4 in *. lia. }
  assert (H8 : 0 <= Z.shiftr (byte_at csd 8) 6 <= 3).
  { rewrite Z.shiftr_div_pow2 by lia. change (2 ^ 6) with 64.
    split; [apply Z.div_pos; lia|].
    apply Z.lt_succ_r. apply Z.div_lt_upper_bound; lia. }
  change (2 ^ 11) with 2048. change (2 ^ 2) with 4. lia.
Qed.

Lemma pow2_range (e hi : Z) : 0 <= e <= hi -> 1 <= 2 ^ e <= 2 ^ hi.
Proof.
  intros He. split.
  - change 1 with (2 ^ 0). apply Z.pow_le_mono_r; lia.
  - apply Z.pow_le_mono_r; lia.
Qed.

Lemma blocknr_value (csd : list Z) :
  blocknr csd = (device_size csd + 1) * 2 ^ (size_mult csd + 2) /\
  0 <= blocknr csd <= 7168 * 512.
Proof.
  unfold blocknr, mult.
  pose proof (device_size_range csd) as D.
  pose proof (size_mult_value csd) as (_ & S).
  pose proof (pow2_range (size_mult csd + 2) 9 ltac:(lia)) as P.
  change (2 ^ 9) with 512 in P.
  unfold u32. change (2 ^ 32) with 4294967296.
  rewrite (Z.mod_small (2 ^ (size_mult csd + 2))) by lia.
  rewrite Z.mod_small by nia. split; [reflexivity | nia].
Qed.

(** X8.  With session version 1 and a block-length exponent of at most 10
    (blocks of up to 1024 bytes), the decoded size is exactly
    [(device_size + 1) * 2^(size_mult + 2) * max_data_block_size], where
    [size_mult] is the top three bits of CSD byte 9, the block count
    [(device_size + 1) * 2^(size_mult + 2)] never exceeds 7168 * 512, and
    no 32-bit product on the way wraps around. *)
Theorem size_by_earlier_layout (csd : list Z) :
  Z.land (csd_register csd 5) 0xf <= 10 ->
  size (decode_info 1 csd)
  = (device_size csd + 1) * 2 ^ (size_mult csd + 2)
    * max_data_block_size (decode_info 1 csd) /\
  size_mult csd = csd_register csd 9 / 32 /\
  blocknr csd = (device_size csd + 1) * 2 ^ (size_mult csd + 2) /\
  blocknr csd <= 7168 * 512 /\
  size (decode_info 1 csd) < 2 ^ 32.
Proof.
  intros E. pose proof (blocknr_value csd) as (Hb & Rb).
  pose proof (size_mult_value csd) as (Hs & _).
  assert (E0 : 0 <= Z.land (csd_register csd 5) 15).
  { apply Z.land_nonneg. right. lia. }
  pose proof (pow2_range _ 10 (conj E0 E)) as P.
  change (2 ^ 10) with 1024 in P.
  cbn [size max_data_block_size decode_info].
  unfold decode_size, decode_max_data_block_size. cbn [Z.eqb Pos.eqb].
  unfold u32. change (2 ^ 32) with 4294967296.
  rewrite Z.mod_small by nia. rewrite <- Hb.
  repeat split; try assumption; try lia; nia.
Qed.

(** X9.  Whatever the session version, the decoded command-class bitmap is
    the 12-bit number [csd[4] * 16 + csd[5] / 16], the maximum block size
    is [2 ^ (csd[5] mod 16)] and so between 1 and 32768, partial blocks are
    allowed exactly when CSD byte 6 is at least 0x80, and the size is below
    2^32. *)
Theorem decoded_fields (version : Z) (csd : list Z) :
  command_classes (decode_info version csd)
  = csd_register csd 4 * 16 + csd_register csd 5 / 16 /\
  0 <= command_classes (decode_info version csd) < 4096 /\
  max_data_block_size (decode_info version csd)
  = 2 ^ (csd_register csd 5 mod 16) /\
  1 <= max_data_block_size (decode_info version csd) <= 32768 /\
  partial_blocks_allowed (decode_info version csd)
  = (128 <=? csd_register csd 6) /\
  0 <= size (decode_info version csd) < 2 ^ 32.
Proof.
  cbn [command_classes max_data_block_size partial_blocks_allowed size
       decode_info].
  unfold csd_register.
  pose proof (byte_at_range csd 4) as B4.
  pose proof (byte_at_range csd 5) as B5.
  pose proof (byte_at_range csd 6) as B6.
  assert (H5 : 0 <= byte_at csd 5 / 16 < 16).
  { split; [apply Z.div_pos; lia|]. apply Z.div_lt_upper_bound; lia. }
  assert (Hcc : decode_command_classes csd
                = byte_at csd 4 * 16 + byte_at csd 5 / 16).
  { unfold decode_command_classes, csd_register.
    rewrite (shiftr_mask _ 240 4 4) by (cbn; lia || reflexivity).
    change (2 ^ 4) with 16. rewrite lor_shiftl_add by (cbn; lia).
    reflexivity. }
  assert (Hbs : decode_max_data_block_size csd = 2 ^ (byte_at csd 5 mod 16)).
  { unfold decode_max_data_block_size, csd_register.
    change 15 with (Z.ones 4). now rewrite Z.land_ones by lia. }
  pose proof (Z.mod_pos_bound (byte_at csd 5) 16 eq_refl) as M.
  pose proof (pow2_range (byte_at csd 5 mod 16) 15 ltac:(lia)) as P.
  change (2 ^ 15) with 32768 in P.
  rewrite Hcc, Hbs. split; [reflexivity|]. split; [lia|].
  split; [reflexivity|]. split; [exact P|].
  split; [now apply byte_mask_0x80|].
  unfold decode_size. destruct (version =? 1); apply Z.mod_pos_bound;
    reflexivity.
Qed.

(** X10.  The decoder reads CSD bytes 3 to 9 and nothing else, as long as
    its table look-up stays in bounds.  Two registers that agree on those
    seven bytes decode to the same command classes, block size,
    partial-blocks flag and size, whatever bytes 0 to 2 (among them the
    CSD structure version) and bytes 10 to 15 (among them the checksum)
    hold; and when the low three bits of byte 3 are below 4, so that
    [transfer_rate_unit] is read inside its four entries, the speed is
    defined and the same too, and with it the whole geometry.  Nothing is
    said about the speed for the values 4 to 7, where the code reads past
    the table. *)
Theorem decoder_reads_bytes_3_to_9 (version : Z) (csd csd' : list Z) :
  same_bytes_3_to_9 csd csd' ->
  command_classes (decode_info version csd)
  = command_classes (decode_info version csd') /\
  max_data_block_size (decode_info version csd)
  = max_data_block_size (decode_info version csd') /\
  partial_blocks_allowed (decode_info version csd)
  = partial_blocks_allowed (decode_info version csd') /\
  size (decode_info version csd) = size (decode_info version csd') /\
  (csd_register csd 3 mod 8 < 4 ->
   max_transfer_speed (decode_info version csd) <> None /\
   decode_info version csd = decode_info version csd').
Proof.
  intros H.
  assert (H3 := H 3%nat ltac:(lia)). assert (H4 := H 4%nat ltac:(lia)).
  assert (H5 := H 5%nat ltac:(lia)). assert (H6 := H 6%nat ltac:(lia)).
  assert (H7 := H 7%nat ltac:(lia)). assert (H8 := H 8%nat ltac:(lia)).
  assert (H9 := H 9%nat ltac:(lia)).
  assert (E : decode_info version csd = decode_info version csd').
  { unfold decode_info, decode_size, blocknr, mult, size_mult, device_size,
      c_size, decode_max_transfer_speed, decode_command_classes,
      decode_max_data_block_size.
    now rewrite H3, H4, H5, H6, H7, H8, H9. }
  rewrite <- E. repeat (split; [reflexivity|]).
  intros B. split; [|reflexivity].
  cbn [max_transfer_speed decode_info]. unfold decode_max_transfer_speed.
  pose proof (byte_at_range csd 3) as R. unfold csd_register in *.
  replace (Z.land (byte_at csd 3) 7) with (byte_at csd 3 mod 8)
    by (change 7 with (Z.ones 3); now rewrite Z.land_ones by lia).
  pose proof (Z.mod_pos_bound (byte_at csd 3) 8 eq_refl) as M.
  destruct (nth_error transfer_rate_unit (Z.to_nat (byte_at csd 3 mod 8)))
    eqn:N; [discriminate|].
  apply nth_error_None in N.
  change (length transfer_rate_unit) with 4%nat in N. lia.
Qed.

(** ** The I/O of a mode entry, in order *)

Lemma spi_mode_poll_events (fuel : nat) (tickstart : Z) (status : sd_error)
    (m m' : machine) (e : poll_exit) :
  spi_mode_poll fuel tickstart status m = Some (e, m') ->
  exists h, history m' = h ++ history m /\
            forallb is_receive_or_tick h = true.
Proof.
  revert status m. induction fuel as [|fuel IH]; intros status m H.
  - discriminate.
  - cbn [spi_mode_poll] in H. unfold bind at 1 in H.
    cbn [sd_card_receive_byte fst snd] in H.
    unfold bind at 1 in H. cbn [HAL_GetTick] in H.
    destruct (500 <? _).
    { inversion H; subst. eexists [_; _]. split; reflexivity. }
    destruct (_ =? R1_IN_IDLE_STATE).
    { inversion H; subst. eexists [_; _]. split; reflexivity. }
    apply IH in H. destruct H as (h & Hh & Hf).
    eexists (h ++ [_; _]). split.
    + rewrite Hh. cbn [log history]. now rewrite <- app_assoc.
    + rewrite forallb_app, Hf. reflexivity.
Qed.

Lemma chip_select_skip (h rest : list event) :
  Forall (fun e => chip_select [e] = None) h ->
  chip_select (h ++ rest) = chip_select rest.
Proof.
  induction 1 as [|e h He _ IH]; [reflexivity|].
  destruct e; cbn in He; try discriminate; exact IH.
Qed.

Lemma receives_and_ticks_skip (h : list event) :
  forallb is_receive_or_tick h = true ->
  Forall (fun e => chip_select [e] = None) h.
Proof.
  rewrite forallb_forall. intros H. apply Forall_forall. intros e He.
  specialize (H e He). destruct e; try discriminate; reflexivity.
Qed.

Lemma transmits_skip (h : list event) :
  Forall (fun e => exists s, e = EvTransmit (Bytes [0xff]) s) h ->
  Forall (fun e => chip_select [e] = None) h.
Proof.
  intros H. eapply Forall_impl; [|exact H].
  intros e (s & ->). reflexivity.
Qed.

(** The power-on sequence as events. *)
Lemma power_on_shape (m m' : machine) (st : sd_error) :
  sd_card_power_on m = Some (st, m') ->
  exists rx b h,
    history m' = EvReceive rx b :: h ++ EvDeselect :: history m /\
    length h = 10%nat /\
    Forall (fun e => exists s, e = EvTransmit (Bytes [0xff]) s) h /\
    st = or_statuses (EvReceive rx b :: h) /\
    same_session m m'.
Proof.
  unfold sd_card_power_on. intros H. unfold bind at 1 in H.
  cbn [DISELECT_SD] in H. bind_inv H.
  apply transmit_dummy_events in E.
  destruct E as (h & Hh & Hs & Hl & Hf & ->).
  unfold bind, sd_card_receive_byte, ret in H. cbn [fst snd] in H.
  inversion H; subst st m'; clear H.
  exists (fst (hw_receive (history m0))), (u8 (snd (hw_receive (history m0)))), h.
  split; [cbn [log history]; now rewrite Hh|].
  split; [exact Hl|]. split; [exact Hf|].
  split; [or_flat; reflexivity|]. exact Hs.
Qed.

(** The events of a call that finds the latch clear. *)
Lemma mode_entry_trace
    (fuel : nat) (m m' : machine) (at_ : exit_point) (r : sd_error) :
  sd_card_is_spi_mode m = false ->
  sd_card_enter_spi_mode_at fuel m = Some ((at_, r), m') ->
  exists rx b clocks,
    length clocks = 10%nat /\
    Forall (fun e => exists s, e = EvTransmit (Bytes [0xff]) s) clocks /\
    match at_ with
    | AtPowerOn =>
        history m' = EvReceive rx b :: clocks ++ EvDeselect :: history m /\
        r = or_statuses (EvReceive rx b :: clocks) /\ r <> SD_OK
    | AtDeadline | AtEnd =>
        exists polls t0 rx1 b1 s1,
          history m'
          = (if exit_point_is_end at_ then [EvDeselect] else [])
            ++ polls
            ++ EvTick t0 :: EvReceive rx1 b1
               :: EvTransmit (Frame cmd_go_idle_state) s1 :: EvSelect
               :: EvReceive rx b :: clocks ++ EvDeselect :: history m /\
          forallb is_receive_or_tick polls = true
    | AtLatch | AtVoltage | AtIllegal => False
    end.
Proof.
  intros L H.
  unfold sd_card_enter_spi_mode_at in H.
  unfold bind at 1 in H. cbn [get_spi_mode] in H. rewrite L in H.
  bind_inv H. rename a into status, m0 into mp.
  apply power_on_shape in E.
  destruct E as (rx & b & clocks & Hp & Hl & Hf & Hst & _).
  exists rx, b, clocks. split; [exact Hl|]. split; [exact Hf|].
  destruct (failed status) eqn:F.
  { inversion H; subst at_ r m'; clear H.
    split; [exact Hp|]. split; [exact Hst|]. now apply failed_true. }
  unfold bind at 1 in H. cbn [SELECT_SD] in H.
  unfold bind at 1 in H. cbn [HAL_SPI_Transmit] in H.
  unfold bind at 1 in H. cbn [sd_card_receive_byte fst snd] in H.
  unfold bind at 1 in H. cbn [HAL_GetTick] in H.
  bind_inv H. rename a into e, m0 into ml.
  pose proof (spi_mode_poll_events _ _ _ _ _ _ E) as (polls & Hpolls & Hrt).
  cbn [log history] in Hpolls. rewrite Hp in Hpolls.
  apply spi_mode_poll_inv in E. destruct E as (tl & hl & _ & _ & _ & He).
  destruct e as [status'|at' code].
  - unfold bind at 1 in H. cbn [DISELECT_SD] in H.
    assert (Hend : at_ = AtEnd /\ history m' = EvDeselect :: history ml).
    { unfold bind, ret in H.
      destruct (status' =? SD_OK); cbn [set_spi_mode] in H;
        inversion H; subst; split; reflexivity. }
    destruct Hend as (-> & Hh'). cbn [exit_point_is_end app].
    eexists polls, _, _, _, _. split; [rewrite Hh', Hpolls; reflexivity|].
    exact Hrt.
  - destruct He as (-> & -> & _). inversion H; subst at_ r m'; clear H.
    cbn [exit_point_is_end app].
    eexists polls, _, _, _, _. split; [exact Hpolls | exact Hrt].
Qed.

(** X11.  A call of [sd_card_enter_spi_mode] that finds the latch clear
    performs its I/O in this order: deselect, ten 0xFF bytes, one receive;
    and, unless power-on reported an error, select, the CMD0 frame, one
    receive, a clock reading, then only receives and clock readings.  When
    power-on reported an error the call stops there, with that status, the
    card deselected and CMD0 never sent.  When the poll timed out the card
    is left selected.  Only a call that ran to its final return ends with
    a deselect. *)
Theorem mode_entry_io_order
    (fuel : nat) (m m' : machine) (at_ : exit_point) (r : sd_error) :
  sd_card_is_spi_mode m = false ->
  sd_card_enter_spi_mode_at fuel m = Some ((at_, r), m') ->
  exists rx b clocks,
    length clocks = 10%nat /\
    Forall (fun e => exists s, e = EvTransmit (Bytes [0xff]) s) clocks /\
    match at_ with
    | AtPowerOn =>
        history m' = EvReceive rx b :: clocks ++ EvDeselect :: history m /\
        r = or_statuses (EvReceive rx b :: clocks) /\ r <> SD_OK /\
        chip_select (history m') = Some false
    | AtDeadline | AtEnd =>
        exists polls t0 rx1 b1 s1,
          history m'
          = (if exit_point_is_end at_ then [EvDeselect] else [])
            ++ polls
            ++ EvTick t0 :: EvReceive rx1 b1
               :: EvTransmit (Frame cmd_go_idle_state) s1 :: EvSelect
               :: EvReceive rx b :: clocks ++ EvDeselect :: history m /\
          forallb is_receive_or_tick polls = true /\
          chip_select (history m')
          = Some (negb (exit_point_is_end at_))
    | AtLatch | AtVoltage | AtIllegal => False
    end.
Proof.
  intros L H.
  destruct (mode_entry_trace fuel m m' at_ r L H)
    as (rx & b & clocks & Hl & Hf & K).
  exists rx, b, clocks. split; [exact Hl|]. split; [exact Hf|].
  pose proof (transmits_skip _ Hf) as Sk.
  destruct at_; try exact K.
  - destruct K as (Hh & Hr & Hn). repeat split; try assumption.
    rewrite Hh. cbn [chip_select]. now rewrite (chip_select_skip _ _ Sk).
  - destruct K as (polls & t0 & rx1 & b1 & s1 & Hh & Hrt).
    exists polls, t0, rx1, b1, s1. split; [exact Hh|]. split; [exact Hrt|].
    rewrite Hh. cbn [exit_point_is_end negb app].
    now rewrite (chip_select_skip _ _ (receives_and_ticks_skip _ Hrt)).
  - destruct K as (polls & t0 & rx1 & b1 & s1 & Hh & Hrt).
    exists polls, t0, rx1, b1, s1. split; [exact Hh|]. split; [exact Hrt|].
    rewrite Hh. reflexivity.
Qed.

(** X12.  A call of [sd_card_enter_spi_mode] that does not return OK
    leaves the latch clear and the session state as it was, so the next
    call does not short-circuit: whatever it returns, it starts over with
    the whole power-on sequence (deselect, ten 0xFF bytes, one receive). *)
Theorem failed_mode_entry_starts_over
    (fuel : nat) (m m' : machine) (r : sd_error) :
  sd_card_enter_spi_mode fuel m = Some (r, m') ->
  r <> SD_OK ->
  sd_card_is_spi_mode m' = false /\
  sd_card_status m' = sd_card_status m /\
  (forall fuel' r' m'',
      sd_card_enter_spi_mode fuel' m' = Some (r', m'') ->
      exists later rx b clocks,
        history m''
        = later ++ EvReceive rx b :: clocks ++ EvDeselect :: history m' /\
        length clocks = 10%nat /\
        Forall (fun e => exists s, e = EvTransmit (Bytes [0xff]) s) clocks).
Proof.
  intros H N. destruct (enter_spi_mode_exit _ _ _ _ H) as (at_ & Hat).
  pose proof (enter_spi_mode_at_inv _ _ _ _ _ Hat) as (Hs & K).
  assert (L : sd_card_is_spi_mode m' = false).
  { destruct at_; try contradiction.
    - destruct K as (_ & -> & _). contradiction.
    - now destruct K as (_ & L & _).
    - now destruct K as (_ & L & _).
    - destruct K as (_ & L & _). rewrite L. now apply Z.eqb_neq. }
  split; [exact L|]. split; [exact Hs|].
  intros fuel' r' m'' H2.
  destruct (enter_spi_mode_exit _ _ _ _ H2) as (at2 & Hat2).
  destruct (mode_entry_trace fuel' m' m'' at2 r' L Hat2)
    as (rx & b & clocks & Hl & Hf & K2).
  destruct at2; try contradiction.
  - destruct K2 as (Hh & _). exists [], rx, b, clocks. auto.
  - destruct K2 as (polls & t0 & rx1 & b1 & s1 & Hh & _).
    exists (polls ++ [EvTick t0; EvReceive rx1 b1;
                      EvTransmit (Frame cmd_go_idle_state) s1; EvSelect]),
      rx, b, clocks.
    split; [|auto]. rewrite Hh. cbn [exit_point_is_end app].
    rewrite <- app_assoc. reflexivity.
  - destruct K2 as (polls & t0 & rx1 & b1 & s1 & Hh & _).
    exists (EvDeselect :: polls ++ [EvTick t0; EvReceive rx1 b1;
                      EvTransmit (Frame cmd_go_idle_state) s1; EvSelect]),
      rx, b, clocks.
    split; [|auto]. rewrite Hh. cbn [exit_point_is_end app].
    rewrite <- app_assoc. reflexivity.
Qed.

(** ** A cooperative card is reset successfully *)

Lemma count_log (p : event -> bool) (e : event) (m : machine) :
  count p (history (log e m))
  = ((if p e then 1 else 0) + count p (history m))%nat.
Proof.
  unfold count. cbn [log history filter]. now destruct (p e).
Qed.

Lemma transmit_dummy_ok (n : nat) (m : machine) :
  (forall h p, hw_transmit h p = SD_OK) ->
  exists m',
    transmit_dummy n SD_OK m = Some (SD_OK, m') /\
    sd_card_status m' = sd_card_status m /\
    sd_card_is_spi_mode m' = sd_card_is_spi_mode m.
Proof.
  intros T. revert m. induction n as [|n IH]; intros m.
  - exists m. repeat split.
  - cbn [transmit_dummy]. unfold bind at 1. cbn [HAL_SPI_Transmit].
    rewrite T. change (Z.lor SD_OK SD_OK) with SD_OK.
    destruct (IH (log (EvTransmit (Bytes [255]) SD_OK) m))
      as (m' & E & Hs & Hl).
    exists m'. split; [exact E|]. split; assumption.
Qed.

Lemma enter_spi_mode_ok (rev : revision) (crc_enable : bool) (n fuel : nat)
    (m : machine) :
  cooperative rev crc_enable n ->
  exists m1,
    sd_card_enter_spi_mode (S fuel) m = Some (SD_OK, m1) /\
    sd_card_status m1 = sd_card_status m /\
    sd_card_is_spi_mode m1 = true.
Proof.
  intros C. unfold sd_card_enter_spi_mode, sd_card_enter_spi_mode_at.
  unfold bind at 1. unfold bind at 1. cbn [get_spi_mode].
  destruct (sd_card_is_spi_mode m) eqn:L.
  { exists m. cbn [ret snd]. repeat split. exact L. }
  unfold sd_card_power_on.
  unfold bind at 1. unfold bind at 1. cbn [DISELECT_SD].
  destruct (transmit_dummy_ok 10 (log EvDeselect m) (coop_transmit _ _ _ C))
    as (ma & E & Hs & _).
  unfold bind at 1. rewrite E.
  unfold bind at 1. cbn [sd_card_receive_byte fst snd].
  destruct (coop_receive _ _ _ C (history ma)) as (R1 & R2).
  rewrite R1, R2. cbn [ret]. change (Z.lor SD_OK SD_OK) with SD_OK.
  change (failed SD_OK) with false. cbv iota.
  unfold bind at 1. cbn [SELECT_SD].
  unfold bind at 1. cbn [HAL_SPI_Transmit]. rewrite (coop_transmit _ _ _ C).
  unfold bind at 1. cbn [sd_card_receive_byte fst snd].
  match goal with |- context [hw_receive ?h] =>
    destruct (coop_receive _ _ _ C h) as (R3 & R4); rewrite R3, R4 end.
  unfold bind at 1. cbn [HAL_GetTick].
  cbn [spi_mode_poll].
  unfold bind at 1. unfold bind at 1. cbn [sd_card_receive_byte fst snd].
  match goal with |- context [hw_receive ?h] =>
    destruct (coop_receive _ _ _ C h) as (R5 & R6); rewrite R5, R6 end.
  unfold bind at 1. cbn [HAL_GetTick].
  match goal with |- context [500 <? u32 (u32 (hw_tick ?h') - u32 (hw_tick ?h))] =>
    pose proof (coop_clock_entry _ _ _ C h h' eq_refl) as K;
    destruct (500 <? u32 (u32 (hw_tick h') - u32 (hw_tick h))) eqn:D;
      [apply Z.ltb_lt in D; rewrite u32_sub in D; lia|] end.
  change (R1_IN_IDLE_STATE =? R1_IN_IDLE_STATE) with true. cbv iota.
  change (Z.lor (Z.lor (Z.lor SD_OK SD_OK) SD_OK) SD_OK) with SD_OK.
  cbn [ret]. unfold bind at 1. cbn [DISELECT_SD].
  change (SD_OK =? SD_OK) with true. cbv iota.
  unfold bind at 1. cbn [set_spi_mode ret snd].
  eexists. split; [reflexivity|].
  cbn [log sd_card_status sd_card_is_spi_mode]. split; [exact Hs | reflexivity].
Qed.

Lemma v1_poll_ok (rev : revision) (crc_enable : bool) (n d : nat) :
  cooperative rev crc_enable n ->
  forall (fuel j : nat) (h0 : list event) (m : machine),
    count is_tick (history m) = (count is_tick h0 + j)%nat ->
    (j + d <= S n)%nat ->
    (n <= count (is_command 41) (history m) + d)%nat ->
    (d < fuel)%nat ->
    exists m',
      v1_poll fuel (u32 (hw_tick h0)) SD_OK m = Some (PollDone SD_OK, m') /\
      sd_card_status m' = sd_card_status m /\
      sd_card_is_spi_mode m' = sd_card_is_spi_mode m /\
      (count (is_command 41) (history m')
       <= count (is_command 41) (history m) + S d)%nat.
Proof.
  intros C. induction d as [|d IH]; intros fuel j h0 m Ht Hj Hn Hf;
    (destruct fuel as [|fuel]; [lia|]);
    cbn [v1_poll];
    unfold bind at 1; cbn [SEND_CMD fst snd];
    rewrite (coop_app _ _ _ C);
    unfold bind at 1; cbn [SEND_CMD fst snd];
    set (ma := log (EvCmd cmd_app SD_OK (snd (hw_command (history m) cmd_app))) m);
    destruct (coop_op_cond _ _ _ C (history ma)) as (O1 & O2);
    rewrite O1; change (Z.lor (Z.lor SD_OK SD_OK) SD_OK) with SD_OK;
    set (mb := log (EvCmd acmd_send_op_cond SD_OK
                      (snd (hw_command (history ma) acmd_send_op_cond))) ma);
    assert (Ca : count (is_command 41) (history ma)
                 = count (is_command 41) (history m))
      by (subst ma; rewrite count_log; reflexivity);
    assert (Cb : count (is_command 41) (history mb)
                 = S (count (is_command 41) (history m)))
      by (subst mb; rewrite count_log, Ca; reflexivity).
  - rewrite (coop_ready _ _ _ C (history ma)) by lia.
    change (R1_CLEAR_FLAGS =? R1_CLEAR_FLAGS) with true. cbv iota.
    exists mb. repeat split. lia.
  - destruct (r1_of (snd (hw_command (history ma) acmd_send_op_cond))
              =? R1_CLEAR_FLAGS).
    { exists mb. repeat split. lia. }
    rewrite O2. change (negb (0 =? 0)) with false. cbv iota.
    unfold bind at 1. cbn [HAL_GetTick].
    assert (Tb : count is_tick (history mb) = (count is_tick h0 + j)%nat)
      by (subst mb ma; rewrite !count_log; exact Ht).
    pose proof (coop_clock_poll _ _ _ C h0 (history mb)) as K.
    rewrite Tb in K. specialize (K ltac:(lia) ltac:(lia)).
    destruct (1000 <? u32 (u32 (hw_tick (history mb)) - u32 (hw_tick h0))) eqn:D;
      [apply Z.ltb_lt in D; rewrite u32_sub in D; lia|].
    destruct (IH fuel (S j) h0 (log (EvTick (u32 (hw_tick (history mb)))) mb))
      as (m' & E & Hs & Hl & Hc).
    + rewrite count_log_tick, Tb. lia.
    + lia.
    + rewrite count_log. cbn [is_tick is_command]. lia.
    + lia.
    + exists m'. split; [exact E|]. split; [exact Hs|]. split; [exact Hl|].
      rewrite count_log in Hc. cbn [is_command] in Hc. lia.
Qed.

Lemma v2_poll_ok (rev : revision) (crc_enable : bool) (n d : nat) :
  cooperative rev crc_enable n ->
  forall (fuel j : nat) (h0 : list event) (m : machine),
    count is_tick (history m) = (count is_tick h0 + j)%nat ->
    (j + d <= S n)%nat ->
    (n <= count (is_command 41) (history m) + d)%nat ->
    (d < fuel)%nat ->
    exists m',
      v2_poll fuel (u32 (hw_tick h0)) SD_OK m = Some (PollDone SD_OK, m') /\
      sd_card_status m' = sd_card_status m /\
      sd_card_is_spi_mode m' = sd_card_is_spi_mode m /\
      (count (is_command 41) (history m')
       <= count (is_command 41) (history m) + S d)%nat.
Proof.
  intros C. induction d as [|d IH]; intros fuel j h0 m Ht Hj Hn Hf;
    (destruct fuel as [|fuel]; [lia|]);
    cbn [v2_poll];
    unfold bind at 1; cbn [SEND_CMD fst snd];
    rewrite (coop_app _ _ _ C);
    unfold bind at 1; cbn [SEND_CMD fst snd];
    set (ma := log (EvCmd cmd_app SD_OK (snd (hw_command (history m) cmd_app))) m);
    destruct (coop_op_cond _ _ _ C (history ma)) as (O1 & O2);
    rewrite O1; change (Z.lor (Z.lor SD_OK SD_OK) SD_OK) with SD_OK;
    set (mb := log (EvCmd acmd_send_op_cond SD_OK
                      (snd (hw_command (history ma) acmd_send_op_cond))) ma);
    assert (Ca : count (is_command 41) (history ma)
                 = count (is_command 41) (history m))
      by (subst ma; rewrite count_log; reflexivity);
    assert (Cb : count (is_command 41) (history mb)
                 = S (count (is_command 41) (history m)))
      by (subst mb; rewrite count_log, Ca; reflexivity).
  - rewrite (coop_ready _ _ _ C (history ma)) by lia.
    change (R1_CLEAR_FLAGS =? R1_CLEAR_FLAGS) with true. cbv iota.
    exists mb. repeat split. lia.
  - destruct (r1_of (snd (hw_command (history ma) acmd_send_op_cond))
              =? R1_CLEAR_FLAGS).
    { exists mb. repeat split. lia. }
    unfold bind at 1. cbn [HAL_GetTick].
    assert (Tb : count is_tick (history mb) = (count is_tick h0 + j)%nat)
      by (subst mb ma; rewrite !count_log; exact Ht).
    pose proof (coop_clock_poll _ _ _ C h0 (history mb)) as K.
    rewrite Tb in K. specialize (K ltac:(lia) ltac:(lia)).
    destruct (1000 <? u32 (u32 (hw_tick (history mb)) - u32 (hw_tick h0))) eqn:D;
      [apply Z.ltb_lt in D; rewrite u32_sub in D; lia|].
    destruct (IH fuel (S j) h0 (log (EvTick (u32 (hw_tick (history mb)))) mb))
      as (m' & E & Hs & Hl & Hc).
    + rewrite count_log_tick, Tb. lia.
    + lia.
    + rewrite count_log. cbn [is_tick is_command]. lia.
    + lia.
    + exists m'. split; [exact E|]. split; [exact Hs|]. split; [exact Hl|].
      rewrite count_log in Hc. cbn [is_command] in Hc. lia.
Qed.

Lemma count_app (p : event -> bool) (h rest : list event) :
  count p (h ++ rest) = (count p h + count p rest)%nat.
Proof.
  unfold count. now rewrite filter_app, length_app.
Qed.

Lemma count_none (p : event -> bool) (h : list event) :
  Forall (fun e => p e = false) h -> count p h = 0%nat.
Proof.
  unfold count. induction 1 as [|e h He _ IH]; cbn [filter].
  - reflexivity.
  - now rewrite He.
Qed.

(** Mode entry issues no command through [SEND_CMD]. *)
Lemma mode_entry_issues_no_command
    (index : Z) (fuel : nat) (m m' : machine) (r : sd_error) :
  sd_card_enter_spi_mode fuel m = Some (r, m') ->
  count (is_command index) (history m') = count (is_command index) (history m).
Proof.
  intros E. destruct (enter_spi_mode_exit _ _ _ _ E) as (at_ & Hat).
  destruct (sd_card_is_spi_mode m) eqn:L.
  { pose proof (enter_spi_mode_latched fuel m L) as E'.
    rewrite E in E'. now inversion E'. }
  destruct (mode_entry_trace _ _ _ _ _ L Hat)
    as (rx & b & clocks & _ & Hfa & K).
  assert (Hcl : count (is_command index) clocks = 0%nat).
  { apply count_none. eapply Forall_impl; [|exact Hfa].
    now intros e (s & ->). }
  assert (Hp : forall polls, forallb is_receive_or_tick polls = true ->
                             count (is_command index) polls = 0%nat).
  { intros polls Hrt. apply count_none. apply Forall_forall. intros e He.
    rewrite forallb_forall in Hrt. specialize (Hrt e He).
    now destruct e. }
  destruct at_; try contradiction.
  - destruct K as (Hh & _). rewrite Hh.
    change (EvReceive rx b :: clocks ++ EvDeselect :: history m)
      with ([EvReceive rx b] ++ clocks ++ [EvDeselect] ++ history m).
    rewrite !count_app, Hcl. reflexivity.
  - destruct K as (polls & t0 & rx1 & b1 & s1 & Hh & Hrt). rewrite Hh.
    cbn [exit_point_is_end app].
    change (polls ++ EvTick t0 :: EvReceive rx1 b1
              :: EvTransmit (Frame cmd_go_idle_state) s1 :: EvSelect
              :: EvReceive rx b :: clocks ++ EvDeselect :: history m)
      with (polls ++ [EvTick t0; EvReceive rx1 b1;
                      EvTransmit (Frame cmd_go_idle_state) s1; EvSelect;
                      EvReceive rx b] ++ clocks ++ [EvDeselect] ++ history m).
    rewrite !count_app, Hcl, (Hp _ Hrt). reflexivity.
  - destruct K as (polls & t0 & rx1 & b1 & s1 & Hh & Hrt). rewrite Hh.
    cbn [exit_point_is_end app].
    change (EvDeselect :: polls ++ EvTick t0 :: EvReceive rx1 b1
              :: EvTransmit (Frame cmd_go_idle_state) s1 :: EvSelect
              :: EvReceive rx b :: clocks ++ EvDeselect :: history m)
      with ([EvDeselect] ++ polls ++ [EvTick t0; EvReceive rx1 b1;
                      EvTransmit (Frame cmd_go_idle_state) s1; EvSelect;
                      EvReceive rx b] ++ clocks ++ [EvDeselect] ++ history m).
    rewrite !count_app, Hcl, (Hp _ Hrt). reflexivity.
Qed.

(** X13.  A cooperative card is reset successfully.  When every transfer
    succeeds, every received byte is in-idle-state, the clock advances by
    at most 500 ms from one reading to the next and by at most 1000 ms
    over any [n] further readings, the card answers the interface
    condition as its revision does, accepts CRC on/off, reports the
    voltage window, never flags ACMD41 as illegal and answers it
    all-flags-clear from its [n]-th issue on, then [sd_card_reset] with
    more than [n] rounds of fuel returns OK from any state: the deadline
    checks are passed, the version is 1 (with standard capacity) for the
    earlier revision and 2 for the later one, the error flag is clear, the
    latch is set, and ACMD41 was issued at most once more than needed. *)
Theorem cooperative_card_is_reset
    (rev : revision) (crc_enable : bool) (n fuel : nat) (m : machine) :
  cooperative rev crc_enable n ->
  (n < fuel)%nat ->
  exists m',
    sd_card_reset fuel crc_enable m = Some (SD_OK, m') /\
    version (sd_card_status m')
    = match rev with Earlier => 1 | Later => 2 end /\
    (rev = Earlier -> capacity (sd_card_status m') = STANDART) /\
    error_in_initialization (sd_card_status m') = false /\
    sd_card_is_spi_mode m' = true /\
    (count (is_command 41) (history m')
     <= S (Nat.max n (count (is_command 41) (history m))))%nat.
Proof.
  intros C Hf. destruct fuel as [|fuel]; [lia|].
  destruct (enter_spi_mode_ok rev crc_enable n fuel m C) as (m1 & E & Hs1 & L1).
  pose proof (mode_entry_issues_no_command 41 _ _ _ _ E) as C1.
  unfold sd_card_reset, reset_steps.
  unfold bind at 1. unfold bind at 1. rewrite E.
  change (failed SD_OK) with false. cbv iota.
  unfold bind at 1. cbn [SEND_CMD fst snd].
  destruct (coop_if_cond _ _ _ C (history m1)) as (I1 & I2).
  rewrite I1. change (Z.lor SD_OK SD_OK) with SD_OK.
  change (failed SD_OK) with false. cbv iota.
  set (r7 := snd (hw_command (history m1) cmd_send_if_cond)) in *.
  set (m2 := log (EvCmd cmd_send_if_cond SD_OK r7) m1).
  unfold reset_negotiate, sd_card_crc_on_off.
  unfold bind at 1. unfold bind at 1. cbn [SEND_CMD fst snd].
  destruct (coop_crc _ _ _ C (history m2)) as (K1 & K2).
  rewrite K1, K2.
  change (negb (R1_IN_IDLE_STATE =? R1_IN_IDLE_STATE)) with false. cbv iota.
  cbn [ret]. change (Z.lor SD_OK (Z.lor SD_OK SD_OK)) with SD_OK.
  set (m3 := log (EvCmd (cmd_crc_on_off crc_enable) SD_OK
                    (snd (hw_command (history m2) (cmd_crc_on_off crc_enable))))
                 m2).
  destruct (coop_ocr _ _ _ C (history m3)) as (V1 & V2).
  set (ocr := snd (hw_command (history m3) cmd_read_ocr)) in *.
  set (m4 := log (EvCmd cmd_read_ocr SD_OK ocr) m3).
  set (m5 := log (EvTick (u32 (hw_tick (history m4)))) m4).
  assert (C5 : count (is_command 41) (history m5)
               = count (is_command 41) (history m)).
  { subst m5 m4 m3 m2. rewrite !count_log. cbn [is_command cmd_index
      cmd_read_ocr cmd_crc_on_off cmd_send_if_cond sd_card_get_cmd].
    rewrite C1. reflexivity. }
  assert (S5 : sd_card_status m5 = sd_card_status m) by exact Hs1.
  assert (L5 : sd_card_is_spi_mode m5 = true) by exact L1.
  set (d := (n - count (is_command 41) (history m))%nat).
  destruct rev.
  - rewrite I2.
    destruct (v1_poll_ok Earlier crc_enable n d C (S fuel) 1 (history m4) m5)
      as (m6 & P & S6 & L6 & C6);
      [subst m5; rewrite count_log_tick; lia | lia | lia | lia |].
    unfold sd_card_v1_init_process, sd_card_v1_init_process_at.
    unfold bind at 1. unfold bind at 1. unfold bind at 1.
    cbn [SEND_CMD fst snd]. rewrite V1. fold ocr. rewrite V2.
    cbn [negb]. unfold bind at 1. cbn [HAL_GetTick].
    fold m4. fold m5. change (Z.lor SD_OK SD_OK) with SD_OK.
    unfold bind at 1. rewrite P.
    unfold bind, get_status, put_status, ret, end_of_initialization.
    cbn [snd]. change (Z.lor SD_OK SD_OK) with SD_OK.
    eexists. split; [reflexivity|].
    cbn [sd_card_status version capacity error_in_initialization
         sd_card_is_spi_mode history].
    repeat split; try assumption; try congruence. lia.
  - destruct I2 as (I2 & I3). rewrite I2, I3. cbn [negb].
    destruct (v2_poll_ok Later crc_enable n d C (S fuel) 1 (history m4) m5)
      as (m6 & P & S6 & L6 & C6);
      [subst m5; rewrite count_log_tick; lia | lia | lia | lia |].
    unfold sd_card_v2_init_process, sd_card_v2_init_process_at.
    unfold bind at 1. unfold bind at 1. unfold bind at 1.
    cbn [SEND_CMD fst snd]. rewrite V1. fold ocr. rewrite V2.
    cbn [negb]. unfold bind at 1. cbn [HAL_GetTick].
    fold m4. fold m5. change (Z.lor SD_OK SD_OK) with SD_OK.
    unfold bind at 1. rewrite P.
    unfold bind, get_status, put_status, ret, end_of_initialization.
    cbn [snd]. change (Z.lor SD_OK SD_OK) with SD_OK.
    eexists. split; [reflexivity|].
    cbn [sd_card_status version capacity error_in_initialization
         sd_card_is_spi_mode history].
    repeat split; try assumption; try congruence; try discriminate. lia.
Qed.

(** ** Where a reset stops *)

(** X14.  [sd_card_reset] stops at the first of its two opening steps that
    fails.  When mode entry does not return OK, or it does and the
    transport status of the interface-condition command is not OK, the
    reset returns that status as it is, sets the error flag, and does
    nothing further: no CRC on/off command and no negotiation follow, and
    version and capacity stay what they were before the call. *)
Theorem reset_stops_at_first_failure
    (fuel : nat) (crc_enable : bool) (m m1 : machine)
    (s1 st : sd_error) (r7 : list Z) :
  sd_card_enter_spi_mode fuel m = Some (s1, m1) ->
  hw_command (history m1) cmd_send_if_cond = (st, r7) ->
  s1 <> SD_OK \/ st <> SD_OK ->
  sd_card_reset fuel crc_enable m
  = (if failed s1
     then Some (s1, with_error_flag true m1)
     else Some (st, with_error_flag true
                      (log (EvCmd cmd_send_if_cond st r7) m1))) /\
  version (sd_card_status m1) = version (sd_card_status m) /\
  capacity (sd_card_status m1) = capacity (sd_card_status m).
Proof.
  intros E Hc N.
  assert (Hs : sd_card_status m1 = sd_card_status m).
  { destruct (enter_spi_mode_exit _ _ _ _ E) as (at_ & Hat).
    now apply enter_spi_mode_at_inv in Hat. }
  rewrite Hs. split; [|split; reflexivity].
  unfold sd_card_reset, reset_steps.
  unfold bind at 1. unfold bind at 1. rewrite E.
  destruct (failed s1) eqn:F1.
  { cbn [ret]. rewrite end_of_initialization_run, F1. reflexivity. }
  apply failed_false in F1. subst s1.
  destruct N as [N|N]; [contradiction|].
  unfold bind at 1. cbn [SEND_CMD fst snd]. rewrite Hc. cbn [fst snd].
  change (Z.lor SD_OK st) with st.
  assert (F2 : failed st = true).
  { unfold failed. apply negb_true_iff. now apply Z.eqb_neq. }
  rewrite F2. cbn [ret]. rewrite end_of_initialization_run, F2. reflexivity.
Qed.

(** X15.  [sd_card_reset] changes the recorded version or capacity only
    in a call whose last transfer was an ACMD41 answered with all flags
    clear: the version is then 1 or 2.  This holds whatever status the
    reset returns, so a reset that reports an error may still have
    recorded a revision; in every other call version and capacity are
    what they were. *)
Theorem reset_records_revision_only_when_ready
    (fuel : nat) (crc_enable : bool) (m m' : machine) (r : sd_error) :
  sd_card_reset fuel crc_enable m = Some (r, m') ->
  version (sd_card_status m') <> version (sd_card_status m) \/
  capacity (sd_card_status m') <> capacity (sd_card_status m) ->
  (version (sd_card_status m') = 1 \/ version (sd_card_status m') = 2) /\
  exists st resp h,
    history m' = EvCmd acmd_send_op_cond st resp :: h /\
    r1_of resp = R1_CLEAR_FLAGS.
Proof.
  intros H N.
  destruct (reset_cases _ _ _ _ _ H) as (s1 & m1 & E & K).
  assert (Hs1 : sd_card_status m1 = sd_card_status m).
  { destruct (enter_spi_mode_exit _ _ _ _ E) as (at_ & Hat).
    now apply enter_spi_mode_at_inv in Hat. }
  destruct K as [(_ & _ & ->)|(_ & st & r7 & m2 & _ & -> & K)].
  { exfalso. cbn [with_error_flag sd_card_status version capacity] in N.
    rewrite Hs1 in N. tauto. }
  destruct K as [(_ & _ & ->)|(_ & s_crc & m3 & Hcrc & K)].
  { exfalso. cbn [with_error_flag sd_card_status version capacity log] in N.
    rewrite Hs1 in N. tauto. }
  destruct (crc_on_off_status _ _ _ _ Hcrc) as (sc & rc & -> & _).
  destruct K as [(_ & _ & _ & ->)|(rev & at_ & s & mz & _ & _ & Hi & _ & ->)].
  { exfalso. cbn [with_error_flag sd_card_status version capacity log] in N.
    rewrite Hs1 in N. tauto. }
  cbn [with_error_flag sd_card_status version capacity history] in *.
  assert (K : match at_ with
              | AtVoltage | AtIllegal | AtDeadline =>
                  sd_card_status mz = sd_card_status m
              | AtEnd =>
                  (version (sd_card_status mz) = 1 \/
                   version (sd_card_status mz) = 2) /\
                  exists st resp h,
                    history mz = EvCmd acmd_send_op_cond st resp :: h /\
                    r1_of resp = R1_CLEAR_FLAGS
              | AtLatch | AtPowerOn => False
              end).
  { destruct rev; cbn [init_process_at] in Hi;
      [apply v1_init_process_at_inv in Hi | apply v2_init_process_at_inv in Hi];
      destruct Hi as (_ & s0 & ocr & h & Hh & He);
      destruct at_; try contradiction;
      try (destruct He as (_ & _ & Hs & _); rewrite Hs; exact Hs1);
      try (destruct He as (_ & _ & _ & Hs & _); rewrite Hs; exact Hs1);
      try (destruct He as (_ & _ & _ & Hs); rewrite Hs; exact Hs1);
      destruct He as (_ & _ & Hs & s' & resp & h' & -> & Hr);
      (split; [rewrite Hs; cbn [version]; auto|]);
      rewrite Hh; cbn [app]; eexists s', resp, _;
      (split; [reflexivity | exact Hr]). }
  destruct at_; try contradiction; try exact K;
    exfalso; rewrite K in N; tauto.
Qed.

(** ** A reset with the latch set *)

Lemma v1_poll_events (fuel : nat) (tickstart : Z) (status : sd_error)
    (m m' : machine) (e : poll_exit) :
  v1_poll fuel tickstart status m = Some (e, m') ->
  exists h, history m' = h ++ history m /\
            forallb is_command_or_tick h = true.
Proof.
  revert status m. induction fuel as [|fuel IH]; intros status m H.
  - discriminate.
  - rewrite v1_poll_unfold in H.
    destruct (op_cond_round_run status m) as (s1 & r1 & s2 & r2 & E).
    rewrite (bind_run _ _ _ _ _ E) in H. cbn [fst snd] in H.
    set (m1 := {| history := _ |}) in *.
    assert (C1 : exists h, history m1 = h ++ history m /\
                           forallb is_command_or_tick h = true).
    { eexists [_; _]. split; reflexivity. }
    destruct (r1_of r2 =? R1_CLEAR_FLAGS).
    { inversion H; subst. exact C1. }
    destruct (negb (Z.land (r1_of r2) R1_ILLEGAL_COMMAND =? 0)).
    { inversion H; subst. exact C1. }
    unfold bind at 1 in H. cbn [HAL_GetTick] in H.
    destruct (1000 <? _).
    { inversion H; subst. eexists [_; _; _]. split; reflexivity. }
    apply IH in H. destruct H as (h & Hh & Hf).
    exists (h ++ [EvTick (u32 (hw_tick (history m1)));
                  EvCmd acmd_send_op_cond s2 r2; EvCmd cmd_app s1 r1]).
    split; [rewrite Hh, <- app_assoc; reflexivity|].
    rewrite forallb_app, Hf. reflexivity.
Qed.

Lemma v2_poll_events (fuel : nat) (tickstart : Z) (status : sd_error)
    (m m' : machine) (e : poll_exit) :
  v2_poll fuel tickstart status m = Some (e, m') ->
  exists h, history m' = h ++ history m /\
            forallb is_command_or_tick h = true.
Proof.
  revert status m. induction fuel as [|fuel IH]; intros status m H.
  - discriminate.
  - rewrite v2_poll_unfold in H.
    destruct (op_cond_round_run status m) as (s1 & r1 & s2 & r2 & E).
    rewrite (bind_run _ _ _ _ _ E) in H. cbn [fst snd] in H.
    set (m1 := {| history := _ |}) in *.
    assert (C1 : exists h, history m1 = h ++ history m /\
                           forallb is_command_or_tick h = true).
    { eexists [_; _]. split; reflexivity. }
    destruct (r1_of r2 =? R1_CLEAR_FLAGS).
    { inversion H; subst. exact C1. }
    unfold bind at 1 in H. cbn [HAL_GetTick] in H.
    destruct (1000 <? _).
    { inversion H; subst. eexists [_; _; _]. split; reflexivity. }
    apply IH in H. destruct H as (h & Hh & Hf).
    exists (h ++ [EvTick (u32 (hw_tick (history m1)));
                  EvCmd acmd_send_op_cond s2 r2; EvCmd cmd_app s1 r1]).
    split; [rewrite Hh, <- app_assoc; reflexivity|].
    rewrite forallb_app, Hf. reflexivity.
Qed.

(** A negotiation calls nothing but [SEND_CMD] and [HAL_GetTick]. *)
Lemma init_process_events (rev : revision) (fuel : nat) (m m' : machine)
    (at_ : exit_point) (r : sd_error) :
  init_process_at rev fuel m = Some ((at_, r), m') ->
  exists h, history m' = h ++ history m /\
            forallb is_command_or_tick h = true.
Proof.
  intros H. destruct rev; cbn [init_process_at] in H.
  - unfold sd_card_v1_init_process_at in H.
    unfold bind at 1 in H. cbn [SEND_CMD fst snd] in H.
    destruct (negb (voltage_window_ok _)).
    { inversion H; subst. eexists [_]. split; reflexivity. }
    unfold bind at 1 in H. cbn [HAL_GetTick] in H. bind_inv H.
    apply v1_poll_events in E. destruct E as (h & Hh & Hf).
    assert (Hm : history m' = history m0).
    { destruct a; unfold bind, get_status, put_status, ret in H;
        now inversion H. }
    eexists (h ++ [_; _]). rewrite Hm, Hh, <- app_assoc.
    split; [reflexivity|]. rewrite forallb_app, Hf. reflexivity.
  - unfold sd_card_v2_init_process_at in H.
    unfold bind at 1 in H. cbn [SEND_CMD fst snd] in H.
    destruct (negb (voltage_window_ok _)).
    { inversion H; subst. eexists [_]. split; reflexivity. }
    unfold bind at 1 in H. cbn [HAL_GetTick] in H. bind_inv H.
    apply v2_poll_events in E. destruct E as (h & Hh & Hf).
    assert (Hm : history m' = history m0).
    { destruct a; unfold bind, get_status, put_status, ret in H;
        now inversion H. }
    eexists (h ++ [_; _]). rewrite Hm, Hh, <- app_assoc.
    split; [reflexivity|]. rewrite forallb_app, Hf. reflexivity.
Qed.

(** X16.  With the latch set, [sd_card_reset] does not put the card back
    into the idle state: it starts directly with the interface-condition
    command (CMD8) and from there calls nothing but [SEND_CMD] and
    [HAL_GetTick], so the history gains no deselect or select, no 0xFF
    clocks, no CMD0 frame and no raw receive.  The latch stays set. *)
Theorem reset_with_latch_set_skips_go_idle
    (fuel : nat) (crc_enable : bool) (m m' : machine) (r : sd_error) :
  sd_card_is_spi_mode m = true ->
  sd_card_reset fuel crc_enable m = Some (r, m') ->
  exists st r7 later,
    history m' = later ++ EvCmd cmd_send_if_cond st r7 :: history m /\
    forallb is_command_or_tick later = true /\
    sd_card_is_spi_mode m' = true.
Proof.
  intros L H.
  pose proof (reset_keeps_latch _ _ _ _ _ H L) as L'.
  destruct (reset_cases _ _ _ _ _ H) as (s1 & m1 & E & K).
  rewrite (enter_spi_mode_latched fuel m L) in E.
  inversion E; subst s1 m1; clear E.
  destruct K as [(N & _)|(_ & st & r7 & m2 & _ & -> & K)];
    [now contradiction N|].
  exists st, r7.
  destruct K as [(_ & _ & ->)|(_ & s_crc & m3 & Hcrc & K)].
  { exists []. repeat split. exact L'. }
  destruct (crc_on_off_status _ _ _ _ Hcrc) as (sc & rc & -> & _).
  destruct K as [(_ & _ & _ & ->)|(rev & at_ & s & mz & _ & _ & Hi & _ & ->)].
  { eexists [_]. repeat split. exact L'. }
  apply init_process_events in Hi. destruct Hi as (h & Hh & Hf).
  eexists (h ++ [_]).
  cbn [with_error_flag history]. rewrite Hh. cbn [log history].
  rewrite <- app_assoc. split; [reflexivity|].
  rewrite forallb_app, Hf. split; [reflexivity | exact L'].
Qed.

(** ** A refused CRC setting *)

Lemma land_lor_absorb (a b : Z) : Z.land (Z.lor a b) a = a.
Proof.
  apply Z.bits_inj'. intros i _. rewrite Z.land_spec, Z.lor_spec.
  now destruct (Z.testbit a i), (Z.testbit b i).
Qed.

(** X17.  A CRC on/off command answered with anything but in-idle-state
    makes the reset fail without stopping it.  After mode entry and the
    interface-condition command both succeeded, such an answer puts the
    bits of the transmission-error code into the status the reset
    returns, whatever the transport reported for that command and
    whatever follows; the error flag is set accordingly; and unless the
    interface-condition response is rejected the negotiation still runs,
    its OCR read being the next command. *)
Theorem refused_crc_setting_fails_the_reset
    (fuel : nat) (crc_enable : bool) (m m1 m' : machine) (r7 : list Z)
    (r : sd_error) :
  sd_card_enter_spi_mode fuel m = Some (SD_OK, m1) ->
  hw_command (history m1) cmd_send_if_cond = (SD_OK, r7) ->
  r1_of (snd (hw_command (EvCmd cmd_send_if_cond SD_OK r7 :: history m1)
                (cmd_crc_on_off crc_enable)))
  <> R1_IN_IDLE_STATE ->
  sd_card_reset fuel crc_enable m = Some (r, m') ->
  Z.land r SD_TRANSMISSION_ERROR = SD_TRANSMISSION_ERROR /\
  (SD_TRANSMISSION_ERROR <> SD_OK -> r <> SD_OK) /\
  error_in_initialization (sd_card_status m') = failed r /\
  (if_cond_illegal r7 = true \/ if_cond_accepted r7 = true ->
   exists later,
     commands_issued (history m')
     = commands_issued (history m1)
       ++ [cmd_send_if_cond; cmd_crc_on_off crc_enable; cmd_read_ocr]
       ++ later).
Proof.
  intros E Hc Hn H.
  destruct (reset_cases _ _ _ _ _ H) as (s1 & m1' & E' & K).
  rewrite E in E'. inversion E'; subst s1 m1'; clear E'.
  destruct K as [(N & _)|(_ & st & r7' & m2 & Hc' & -> & K)];
    [now contradiction N|].
  rewrite Hc in Hc'. inversion Hc'; subst st r7'; clear Hc'.
  destruct K as [(N & _)|(_ & s_crc & m3 & Hcrc & K)];
    [now contradiction N|].
  assert (Hs : s_crc = SD_TRANSMISSION_ERROR /\
               exists sc rc,
                 m3 = log (EvCmd (cmd_crc_on_off crc_enable) sc rc)
                          (log (EvCmd cmd_send_if_cond SD_OK r7) m1)).
  { unfold sd_card_crc_on_off, bind, SEND_CMD, ret in Hcrc.
    cbn [fst snd log history] in Hcrc.
    apply Z.eqb_neq in Hn. rewrite Hn in Hcrc. cbn [negb] in Hcrc.
    inversion Hcrc; subst. split; [reflexivity|]. eauto. }
  destruct Hs as (-> & sc & rc & ->).
  assert (Hbits : forall s, Z.land (Z.lor SD_TRANSMISSION_ERROR s)
                              SD_TRANSMISSION_ERROR = SD_TRANSMISSION_ERROR)
    by (intros s; apply land_lor_absorb).
  assert (Hnz : forall s, SD_TRANSMISSION_ERROR <> SD_OK ->
                          Z.lor SD_TRANSMISSION_ERROR s <> SD_OK).
  { intros s N Z0. apply lor_zero_both in Z0. now destruct Z0. }
  destruct K as [(I & A & -> & ->)|(rev & at_ & s & mz & _ & _ & Hi & -> & ->)].
  - split; [apply Hbits|]. split; [apply Hnz|]. split; [reflexivity|].
    intros [X|X]; congruence.
  - split; [apply Hbits|]. split; [apply Hnz|]. split; [reflexivity|].
    intros _. cbn [with_error_flag history].
    assert (Hh : exists s0 ocr h,
               history mz
               = h ++ [EvCmd cmd_read_ocr s0 ocr;
                       EvCmd (cmd_crc_on_off crc_enable) sc rc;
                       EvCmd cmd_send_if_cond SD_OK r7] ++ history m1).
    { destruct rev; cbn [init_process_at] in Hi;
        [apply v1_init_process_at_inv in Hi
        |apply v2_init_process_at_inv in Hi];
        destruct Hi as (_ & s0 & ocr & h & Hh & _); exists s0, ocr, h;
        exact Hh. }
    destruct Hh as (s0 & ocr & h & ->).
    exists (commands_issued h).
    rewrite !commands_issued_app. cbn [commands_issued app].
    rewrite <- !app_assoc. reflexivity.
Qed.

(** ** The transfer-speed tables *)


(** ** Geometry after a reset *)

(** X19.  The two public calls composed.  When none of the error codes is
    zero and [sd_card_reset] returned OK, a following
    [sd_card_get_common_info] whose CSD read succeeds returns OK and
    takes the size by the layout of the revision the reset recorded: for
    version 1 the 32-bit product of the block count and the block size,
    for version 2 [(c_size + 1) * 512].  The call leaves version,
    capacity, error flag and latch as the reset left them. *)
Theorem geometry_follows_recorded_revision
    (fuel : nat) (crc_enable : bool) (m m' : machine) (info : sd_info)
    (csd : list Z) :
  SD_ERROR <> 0 -> SD_TIMEOUT <> 0 -> SD_TRANSMISSION_ERROR <> 0 ->
  SD_UNUSABLE_CARD <> 0 ->
  sd_card_reset fuel crc_enable m = Some (SD_OK, m') ->
  hw_csd (history m') = (SD_OK, csd) ->
  exists info',
    sd_card_get_common_info info m'
    = Some ((SD_OK, info'), log (EvCsd SD_OK csd) m') /\
    max_data_block_size info' = 2 ^ (csd_register csd 5 mod 16) /\
    ((version (sd_card_status m') = 1 /\
      size info' = u32 (blocknr csd * max_data_block_size info'))
     \/
     (version (sd_card_status m') = 2 /\
      size info' = (c_size csd + 1) * 512)).
Proof.
  intros N1 N2 N3 N4 H Hcsd.
  assert (V : version (sd_card_status m') = 1 \/
              version (sd_card_status m') = 2).
  { destruct (reset_cases _ _ _ _ _ H) as (s1 & m1 & E & K).
    destruct K as [(N & <- & _)|(_ & st & r7 & m2 & _ & -> & K)];
      [now contradiction N|].
    destruct K as [(N & <- & _)|(_ & s_crc & m3 & Hcrc & K)];
      [now contradiction N|].
    destruct K as [(_ & _ & Hr & _)|(rev & at_ & s & mz & _ & _ & Hi & Hr & ->)].
    { symmetry in Hr. apply lor_zero_both in Hr. now destruct Hr. }
    symmetry in Hr. apply lor_zero_both in Hr. destruct Hr as (_ & ->).
    cbn [with_error_flag sd_card_status version].
    assert (Hend : at_ = AtEnd).
    { destruct rev; cbn [init_process_at] in Hi;
        [apply v1_init_process_at_inv in Hi
        |apply v2_init_process_at_inv in Hi];
        destruct Hi as (_ & s0 & ocr & h & _ & He);
        destruct at_; try contradiction; try reflexivity;
        destruct He as (Hr & _); congruence. }
    subst at_.
    destruct rev; cbn [init_process_at] in Hi;
      [apply v1_init_process_at_inv in Hi
      |apply v2_init_process_at_inv in Hi];
      destruct Hi as (_ & s0 & ocr & h & _ & _ & _ & Hs & _);
      rewrite Hs; cbn [version]; auto. }
  exists (decode_info (version (sd_card_status m')) csd).
  split.
  { unfold sd_card_get_common_info, bind, sd_card_get_csd, get_status, ret.
    rewrite Hcsd. reflexivity. }
  split.
  { cbn [max_data_block_size decode_info].
    unfold decode_max_data_block_size.
    change 15 with (Z.ones 4). now rewrite Z.land_ones by lia. }
  destruct V as [V|V]; rewrite V; [left | right]; (split; [reflexivity|]).
  - reflexivity.
  - cbn [size decode_info]. now apply decode_size_not_v1.
Qed.

(** ** Termination *)

Lemma spi_mode_poll_returns (h0 : list event) :
  advancing 501 ->
  forall (fuel j : nat) (status : sd_error) (m : machine),
    count is_tick (history m) = (count is_tick h0 + j)%nat ->
    (j <= 501)%nat -> (501 < fuel + j)%nat ->
    exists e m',
      spi_mode_poll fuel (u32 (hw_tick h0)) status m = Some (e, m').
Proof.
  intros A. induction fuel as [|fuel IH]; intros j status m Hc Hj Hf.
  - lia.
  - cbn [spi_mode_poll]. unfold bind at 1. cbn [sd_card_receive_byte fst snd].
    set (rx := hw_receive (history m)).
    set (m1 := log (EvReceive (fst rx) (u8 (snd rx))) m).
    unfold bind at 1. cbn [HAL_GetTick].
    destruct (500 <? _) eqn:D; [do 2 eexists; reflexivity|].
    destruct (u8 (snd rx) =? R1_IN_IDLE_STATE); [do 2 eexists; reflexivity|].
    apply Z.ltb_ge in D. rewrite u32_sub in D.
    assert (C1 : count is_tick (history m1) = (count is_tick h0 + j)%nat)
      by exact Hc.
    pose proof (A h0 (history m1)) as K. rewrite C1 in K.
    replace (count is_tick h0 + j - count is_tick h0)%nat with j in K by lia.
    specialize (K ltac:(lia) ltac:(lia)).
    apply (IH (S j)); [rewrite count_log_tick, C1|..]; lia.
Qed.

Lemma v1_poll_returns (h0 : list event) :
  advancing 1001 ->
  forall (fuel j : nat) (status : sd_error) (m : machine),
    count is_tick (history m) = (count is_tick h0 + j)%nat ->
    (j <= 1001)%nat -> (1001 < fuel + j)%nat ->
    exists e m', v1_poll fuel (u32 (hw_tick h0)) status m = Some (e, m').
Proof.
  intros A. induction fuel as [|fuel IH]; intros j status m Hc Hj Hf.
  - lia.
  - rewrite v1_poll_unfold.
    destruct (op_cond_round_run status m) as (s1 & r1 & s2 & r2 & E).
    pose proof (op_cond_round_ticks _ _ _ _ E) as C1.
    rewrite (bind_run _ _ _ _ _ E). cbn [fst snd].
    set (m1 := {| history := _ |}) in *.
    destruct (r1_of r2 =? R1_CLEAR_FLAGS); [do 2 eexists; reflexivity|].
    destruct (negb (Z.land (r1_of r2) R1_ILLEGAL_COMMAND =? 0));
      [do 2 eexists; reflexivity|].
    unfold bind at 1. cbn [HAL_GetTick].
    destruct (1000 <? _) eqn:D; [do 2 eexists; reflexivity|].
    apply Z.ltb_ge in D. rewrite u32_sub in D.
    pose proof (A h0 (history m1)) as K. rewrite C1, Hc in K.
    replace (count is_tick h0 + j - count is_tick h0)%nat with j in K by lia.
    specialize (K ltac:(lia) ltac:(lia)).
    apply (IH (S j)); [rewrite count_log_tick, C1, Hc|..]; lia.
Qed.

Lemma v2_poll_returns (h0 : list event) :
  advancing 1001 ->
  forall (fuel j : nat) (status : sd_error) (m : machine),
    count is_tick (history m) = (count is_tick h0 + j)%nat ->
    (j <= 1001)%nat -> (1001 < fuel + j)%nat ->
    exists e m', v2_poll fuel (u32 (hw_tick h0)) status m = Some (e, m').
Proof.
  intros A. induction fuel as [|fuel IH]; intros j status m Hc Hj Hf.
  - lia.
  - rewrite v2_poll_unfold.
    destruct (op_cond_round_run status m) as (s1 & r1 & s2 & r2 & E).
    pose proof (op_cond_round_ticks _ _ _ _ E) as C1.
    rewrite (bind_run _ _ _ _ _ E). cbn [fst snd].
    set (m1 := {| history := _ |}) in *.
    destruct (r1_of r2 =? R1_CLEAR_FLAGS); [do 2 eexists; reflexivity|].
    unfold bind at 1. cbn [HAL_GetTick].
    destruct (1000 <? _) eqn:D; [do 2 eexists; reflexivity|].
    apply Z.ltb_ge in D. rewrite u32_sub in D.
    pose proof (A h0 (history m1)) as K. rewrite C1, Hc in K.
    replace (count is_tick h0 + j - count is_tick h0)%nat with j in K by lia.
    specialize (K ltac:(lia) ltac:(lia)).
    apply (IH (S j)); [rewrite count_log_tick, C1, Hc|..]; lia.
Qed.

Lemma advancing_le (a b : nat) : (a <= b)%nat -> advancing b -> advancing a.
Proof. intros Hab A h h' H1 H2. apply A; lia. Qed.

Lemma enter_spi_mode_returns (fuel : nat) (m : machine) :
  advancing 501 -> (501 <= fuel)%nat ->
  exists r m', sd_card_enter_spi_mode fuel m = Some (r, m').
Proof.
  intros A Hf. unfold sd_card_enter_spi_mode, sd_card_enter_spi_mode_at.
  unfold bind at 1. unfold bind at 1. cbn [get_spi_mode].
  destruct (sd_card_is_spi_mode m); [do 2 eexists; reflexivity|].
  destruct (power_on_run m) as (h & E & _).
  rewrite (bind_run _ _ _ _ _ E).
  destruct (failed (or_statuses h)); [do 2 eexists; reflexivity|].
  unfold bind at 1. cbn [SELECT_SD].
  unfold bind at 1. cbn [HAL_SPI_Transmit].
  unfold bind at 1. cbn [sd_card_receive_byte fst snd].
  unfold bind at 1. cbn [HAL_GetTick]. unfold bind at 1.
  match goal with |- context [spi_mode_poll fuel (u32 (hw_tick ?h0)) ?s ?mm] =>
    destruct (spi_mode_poll_returns h0 A fuel 1 s mm) as (e & m' & P);
      [cbn [log history]; unfold count; cbn [filter is_tick length]; lia
      | lia | lia |]
  end.
  rewrite P.
  destruct e as [status'|at_ code]; [|do 2 eexists; reflexivity].
  unfold bind at 1. cbn [DISELECT_SD].
  destruct (status' =? SD_OK); do 2 eexists; reflexivity.
Qed.

Lemma init_process_returns (rev : revision) (fuel : nat) (m : machine) :
  advancing 1001 -> (1001 <= fuel)%nat ->
  exists r m',
    match rev with
    | Earlier => sd_card_v1_init_process fuel m
    | Later => sd_card_v2_init_process fuel m
    end = Some (r, m').
Proof.
  intros A Hf. destruct rev.
  - unfold sd_card_v1_init_process, sd_card_v1_init_process_at.
    unfold bind at 1. unfold bind at 1. cbn [SEND_CMD fst snd].
    destruct (negb (voltage_window_ok _)); [do 2 eexists; reflexivity|].
    unfold bind at 1. cbn [HAL_GetTick]. unfold bind at 1.
    match goal with |- context [v1_poll fuel (u32 (hw_tick ?h0)) ?s ?mm] =>
      destruct (v1_poll_returns h0 A fuel 1 s mm) as (e & m' & P);
        [cbn [log history]; unfold count; cbn [filter is_tick length]; lia
        | lia | lia |]
    end.
    rewrite P.
    destruct e; do 2 eexists; reflexivity.
  - unfold sd_card_v2_init_process, sd_card_v2_init_process_at.
    unfold bind at 1. unfold bind at 1. cbn [SEND_CMD fst snd].
    destruct (negb (voltage_window_ok _)); [do 2 eexists; reflexivity|].
    unfold bind at 1. cbn [HAL_GetTick]. unfold bind at 1.
    match goal with |- context [v2_poll fuel (u32 (hw_tick ?h0)) ?s ?mm] =>
      destruct (v2_poll_returns h0 A fuel 1 s mm) as (e & m' & P);
        [cbn [log history]; unfold count; cbn [filter is_tick length]; lia
        | lia | lia |]
    end.
    rewrite P.
    destruct e; do 2 eexists; reflexivity.
Qed.

(** X20.  [sd_card_reset] returns.  On a clock that advances by at least a
    millisecond per reading, whatever the transport reports and whatever
    the card answers, from any state: mode entry polls at most 501 times
    and a negotiation at most 1001 times before its deadline check
    fires, so a reset given 1001 rounds of fuel returns a status and
    leaves the error flag telling whether that status is OK. *)
Theorem reset_returns_on_advancing_clock
    (fuel : nat) (crc_enable : bool) (m : machine) :
  advancing 1001 ->
  (1001 <= fuel)%nat ->
  exists r m',
    sd_card_reset fuel crc_enable m = Some (r, m') /\
    error_in_initialization (sd_card_status m') = failed r.
Proof.
  intros A Hf.
  assert (K : exists r mz, reset_steps fuel crc_enable m = Some (r, mz)).
  { unfold reset_steps.
    destruct (enter_spi_mode_returns fuel m (advancing_le 501 1001 ltac:(lia) A)
                ltac:(lia)) as (s1 & m1 & E).
    rewrite (bind_run _ _ _ _ _ E).
    destruct (failed s1); [do 2 eexists; reflexivity|].
    unfold bind at 1. cbn [SEND_CMD fst snd].
    destruct (failed _); [do 2 eexists; reflexivity|].
    unfold reset_negotiate, sd_card_crc_on_off.
    unfold bind at 1. unfold bind at 1. cbn [SEND_CMD fst snd].
    assert (Hn : forall s_crc m3,
               exists r mz,
                 (if if_cond_illegal (snd (hw_command (history m1) cmd_send_if_cond))
                  then st <- sd_card_v1_init_process fuel ;;
                       ret (Z.lor s_crc st)
                  else if negb (if_cond_accepted
                                  (snd (hw_command (history m1) cmd_send_if_cond)))
                  then ret (Z.lor s_crc SD_UNUSABLE_CARD)
                  else st <- sd_card_v2_init_process fuel ;;
                       ret (Z.lor s_crc st)) m3 = Some (r, mz)).
    { intros s_crc m3. destruct (if_cond_illegal _).
      - destruct (init_process_returns Earlier fuel m3 A Hf) as (r & mz & P).
        rewrite (bind_run _ _ _ _ _ P). do 2 eexists; reflexivity.
      - destruct (negb (if_cond_accepted _)); [do 2 eexists; reflexivity|].
        destruct (init_process_returns Later fuel m3 A Hf) as (r & mz & P).
        rewrite (bind_run _ _ _ _ _ P). do 2 eexists; reflexivity. }
    destruct (negb (r1_of _ =? R1_IN_IDLE_STATE)); cbn [ret]; apply Hn. }
  destruct K as (r & mz & E). unfold sd_card_reset.
  rewrite (bind_run _ _ _ _ _ E), end_of_initialization_run.
  do 2 eexists. split; reflexivity.
Qed.

(** X21.  Without an advancing clock the deadline is no bound.  On a
    transport that works, with a card that never sends the in-idle-state
    byte and a clock whose readings never differ by more than 500 ms (a
    tick counter that is not running, say), a mode entry that finds the
    latch clear never returns: no number of polling rounds is enough, and
    so neither does a reset. *)
Theorem mode_entry_hangs_on_stopped_clock
    (fuel : nat) (crc_enable : bool) (m : machine) :
  stopped_clock_and_mute_card ->
  sd_card_is_spi_mode m = false ->
  sd_card_enter_spi_mode fuel m = None /\
  sd_card_reset fuel crc_enable m = None.
Proof.
  intros C L.
  assert (P : forall fuel h0 status mm,
             spi_mode_poll fuel (u32 (hw_tick h0)) status mm = None).
  { clear fuel. induction fuel as [|fuel IH]; intros h0 status mm.
    - reflexivity.
    - cbn [spi_mode_poll]. unfold bind at 1.
      cbn [sd_card_receive_byte fst snd].
      unfold bind at 1. cbn [HAL_GetTick].
      match goal with |- context [500 <? ?d] =>
        destruct (500 <? d) eqn:D end.
      { apply Z.ltb_lt in D.
        pose proof (mute_clock C h0
          (history (log (EvReceive (fst (hw_receive (history mm)))
                           (u8 (snd (hw_receive (history mm))))) mm))) as K.
        lia. }
      destruct (mute_receive C (history mm)) as (_ & R).
      apply Z.eqb_neq in R. rewrite R. apply IH. }
  assert (E : sd_card_enter_spi_mode fuel m = None).
  { unfold sd_card_enter_spi_mode, sd_card_enter_spi_mode_at.
    unfold bind at 1. unfold bind at 1. cbn [get_spi_mode]. rewrite L.
    unfold sd_card_power_on.
    unfold bind at 1. unfold bind at 1. cbn [DISELECT_SD].
    destruct (transmit_dummy_ok 10 (log EvDeselect m) (mute_transmit C))
      as (ma & E & _).
    unfold bind at 1. rewrite E.
    unfold bind at 1. cbn [sd_card_receive_byte fst snd].
    destruct (mute_receive C (history ma)) as (R1 & _).
    rewrite R1. cbn [ret]. change (Z.lor SD_OK SD_OK) with SD_OK.
    change (failed SD_OK) with false. cbv iota.
    unfold bind at 1. cbn [SELECT_SD].
    unfold bind at 1. cbn [HAL_SPI_Transmit].
    unfold bind at 1. cbn [sd_card_receive_byte fst snd].
    unfold bind at 1. cbn [HAL_GetTick].
    unfold bind at 1. rewrite P. reflexivity. }
  split; [exact E|].
  unfold sd_card_reset, reset_steps. unfold bind at 1. unfold bind at 1.
  now rewrite E.
Qed.

End WholeCalls.

(** * Further runs on simulated cards *)

(** Witness for X5: the earlier-revision negotiation of a healthy card. *)
Lemma negotiation_commands_on_simulated_card :
  exists k,
    commands_issued
      (history (machine_after
                  (@init_process_at flag_codes healthy_v1 Earlier 5 power_up)))
    = commands_issued (history power_up) ++ cmd_read_ocr :: poll_commands k /\
    (k = 0%nat <-> AtEnd = AtVoltage).
Proof.
  apply (@negotiation_command_sequence flag_codes healthy_v1 Earlier 5%nat
           power_up _ AtEnd SD_OK).
  vm_compute. reflexivity.
Defined.

(** Witness for X6: a negotiation whose CMD55 reported a transmission
    error and which completed all the same. *)
Lemma flaky_negotiation_on_simulated_card :
  exists h,
    history flaky_v1_negotiated = h ++ history power_up /\
    4 = or_statuses h /\
    (4 = SD_OK <-> Forall (fun e => event_status e = SD_OK) h) /\
    version (sd_card_status flaky_v1_negotiated) = 1 /\
    (Earlier = Earlier ->
     capacity (sd_card_status flaky_v1_negotiated) = STANDART) /\
    error_in_initialization (sd_card_status flaky_v1_negotiated)
    = error_in_initialization (sd_card_status power_up).
Proof.
  apply (@completed_negotiation_reports_all_statuses flag_codes flaky_v1
           Earlier 5%nat power_up flaky_v1_negotiated 4).
  vm_compute. reflexivity.
Defined.

(** Witness for X8: the sample register read by the earlier layout. *)
Lemma size_of_sample_csd_by_earlier_layout :
  size (decode_info 1 sample_csd)
  = (device_size sample_csd + 1) * 2 ^ (size_mult sample_csd + 2)
    * max_data_block_size (decode_info 1 sample_csd) /\
  size_mult sample_csd = csd_register sample_csd 9 / 32 /\
  blocknr sample_csd
  = (device_size sample_csd + 1) * 2 ^ (size_mult sample_csd + 2) /\
  blocknr sample_csd <= 7168 * 512 /\
  size (decode_info 1 sample_csd) < 2 ^ 32.
Proof.
  apply (size_by_earlier_layout sample_csd). vm_compute. discriminate.
Defined.

(** Witness for X10: the sample register under two framings. *)
Lemma sample_csd_decodes_the_same_reframed :
  command_classes (decode_info 2 sample_csd)
  = command_classes (decode_info 2 sample_csd_reframed) /\
  max_data_block_size (decode_info 2 sample_csd)
  = max_data_block_size (decode_info 2 sample_csd_reframed) /\
  partial_blocks_allowed (decode_info 2 sample_csd)
  = partial_blocks_allowed (decode_info 2 sample_csd_reframed) /\
  size (decode_info 2 sample_csd) = size (decode_info 2 sample_csd_reframed) /\
  (csd_register sample_csd 3 mod 8 < 4 ->
   max_transfer_speed (decode_info 2 sample_csd) <> None /\
   decode_info 2 sample_csd = decode_info 2 sample_csd_reframed).
Proof.
  apply (decoder_reads_bytes_3_to_9 2 sample_csd sample_csd_reframed).
  intros i Hi.
  do 10 (destruct i as [|i]; [try lia; reflexivity|]). lia.
Defined.

(** Witness for X11: a mode entry that times out on a card that never
    answers. *)
Lemma mode_entry_io_on_simulated_card :
  exists rx b clocks,
    length clocks = 10%nat /\
    Forall (fun e => exists s, e = EvTransmit (Bytes [0xff]) s) clocks /\
    exists polls t0 rx1 b1 s1,
      history faulty_silent_timed_out
      = [] ++ polls
        ++ EvTick t0 :: EvReceive rx1 b1
           :: EvTransmit (Frame cmd_go_idle_state) s1 :: EvSelect
           :: EvReceive rx b :: clocks ++ EvDeselect :: history power_up /\
      forallb is_receive_or_tick polls = true /\
      chip_select (history faulty_silent_timed_out) = Some true.
Proof.
  apply (@mode_entry_io_order flag_codes faulty_silent 5%nat power_up
           faulty_silent_timed_out AtDeadline 2).
  - reflexivity.
  - vm_compute. reflexivity.
Defined.

(** Witness for X12: the same timed-out mode entry, and what a further
    call does. *)
Lemma failed_mode_entry_on_simulated_card :
  sd_card_is_spi_mode faulty_silent_timed_out = false /\
  sd_card_status faulty_silent_timed_out = sd_card_status power_up /\
  (forall fuel' r' m'',
      @sd_card_enter_spi_mode flag_codes faulty_silent fuel'
        faulty_silent_timed_out = Some (r', m'') ->
      exists later rx b clocks,
        history m''
        = later ++ EvReceive rx b :: clocks
          ++ EvDeselect :: history faulty_silent_timed_out /\
        length clocks = 10%nat /\
        Forall (fun e => exists s, e = EvTransmit (Bytes [0xff]) s) clocks).
Proof.
  apply (@failed_mode_entry_starts_over flag_codes faulty_silent 5%nat
           power_up faulty_silent_timed_out 2).
  - vm_compute. reflexivity.
  - discriminate.
Defined.

(** Witness for X13: a healthy later-revision card, ready at the third
    ACMD41, on a clock that advances a millisecond per reading. *)
Lemma healthy_card_is_reset :
  exists m',
    @sd_card_reset flag_codes healthy_v2 5 true power_up = Some (SD_OK, m') /\
    version (sd_card_status m') = 2 /\
    (Later = Earlier -> capacity (sd_card_status m') = STANDART) /\
    error_in_initialization (sd_card_status m') = false /\
    sd_card_is_spi_mode m' = true /\
    (count (is_command 41) (history m')
     <= S (Nat.max 2 (count (is_command 41) (history power_up))))%nat.
Proof.
  apply (@cooperative_card_is_reset flag_codes healthy_v2 Later true 2%nat
           5%nat power_up).
  - constructor.
    + reflexivity.
    + intros h. split; reflexivity.
    + intros h h' Hc.
      cbn [hw_tick healthy_v2 simulated scripted on_tick].
      rewrite Hc. unfold u32. rewrite Z.mod_small; lia.
    + intros h h' H1 H2.
      cbn [hw_tick healthy_v2 simulated scripted on_tick].
      unfold u32. rewrite Z.mod_small; lia.
    + intros h. split; [reflexivity|]. split; reflexivity.
    + intros h. split; reflexivity.
    + intros h. split; reflexivity.
    + reflexivity.
    + intros h. split; [reflexivity|].
      cbn [hw_command healthy_v2 simulated scripted
        on_command acmd_send_op_cond sd_card_get_cmd cmd_index].
      unfold v2_commands. cbn [Z.eqb Pos.eqb snd].
      destruct (2 <=? _)%nat; reflexivity.
    + intros h Hn. cbn [hw_command healthy_v2 simulated scripted
        on_command acmd_send_op_cond sd_card_get_cmd cmd_index].
      unfold v2_commands. cbn [Z.eqb Pos.eqb snd].
      apply Nat.leb_le in Hn. rewrite Hn. reflexivity.
  - lia.
Defined.

(** Witness for X14: a reset against a card whose interface-condition
    command fails on the transport. *)
Lemma reset_on_failing_interface_condition :
  @sd_card_reset flag_codes if_cond_failing 5 true power_up
  = (if failed SD_OK
     then Some (SD_OK, with_error_flag true healthy_v2_in_spi_mode)
     else Some (4, with_error_flag true
                     (log (EvCmd cmd_send_if_cond 4
                             [0xff; 0xff; 0xff; 0xff; 0xff])
                          healthy_v2_in_spi_mode))) /\
  version (sd_card_status healthy_v2_in_spi_mode)
  = version (sd_card_status power_up) /\
  capacity (sd_card_status healthy_v2_in_spi_mode)
  = capacity (sd_card_status power_up).
Proof.
  apply (@reset_stops_at_first_failure flag_codes if_cond_failing 5%nat true
           power_up healthy_v2_in_spi_mode SD_OK 4
           [0xff; 0xff; 0xff; 0xff; 0xff]).
  - vm_compute. reflexivity.
  - vm_compute. reflexivity.
  - right. discriminate.
Defined.

(** Witness for X15: a reset that reports the transmission error of a
    CMD55 and has recorded version 1. *)
Lemma flaky_reset_records_revision :
  (version (sd_card_status flaky_v1_after_reset) = 1 \/
   version (sd_card_status flaky_v1_after_reset) = 2) /\
  exists st resp h,
    history flaky_v1_after_reset = EvCmd acmd_send_op_cond st resp :: h /\
    r1_of resp = R1_CLEAR_FLAGS.
Proof.
  apply (@reset_records_revision_only_when_ready flag_codes flaky_v1 5%nat
           true power_up flaky_v1_after_reset 4).
  - vm_compute. reflexivity.
  - left. vm_compute. discriminate.
Defined.

(** Witness for X16: a healthy card reset a second time. *)
Lemma second_reset_on_simulated_card :
  exists st r7 later,
    history healthy_v2_reset_again
    = later ++ EvCmd cmd_send_if_cond st r7 :: history healthy_v2_after_reset /\
    forallb is_command_or_tick later = true /\
    sd_card_is_spi_mode healthy_v2_reset_again = true.
Proof.
  apply (@reset_with_latch_set_skips_go_idle flag_codes healthy_v2 5%nat true
           healthy_v2_after_reset healthy_v2_reset_again SD_OK).
  - reflexivity.
  - vm_compute. reflexivity.
Defined.

(** Witness for X17: a later-revision card that answers CMD59 with all
    flags clear. *)
Lemma refused_crc_on_simulated_card :
  Z.land 4 (@SD_TRANSMISSION_ERROR flag_codes) = @SD_TRANSMISSION_ERROR flag_codes /\
  (@SD_TRANSMISSION_ERROR flag_codes <> SD_OK -> 4 <> SD_OK) /\
  error_in_initialization (sd_card_status crc_refused_after_reset)
  = failed 4 /\
  (if_cond_illegal [0x01; 0x00; 0x00; 0x01; 0x55] = true \/
   if_cond_accepted [0x01; 0x00; 0x00; 0x01; 0x55] = true ->
   exists later,
     commands_issued (history crc_refused_after_reset)
     = commands_issued (history healthy_v2_in_spi_mode)
       ++ [cmd_send_if_cond; cmd_crc_on_off true; cmd_read_ocr] ++ later).
Proof.
  apply (@refused_crc_setting_fails_the_reset flag_codes crc_refused 5%nat
           true power_up healthy_v2_in_spi_mode crc_refused_after_reset
           [0x01; 0x00; 0x00; 0x01; 0x55] 4).
  - vm_compute. reflexivity.
  - vm_compute. reflexivity.
  - vm_compute. discriminate.
  - vm_compute. reflexivity.
Defined.

(** Witness for X19: the geometry of a healthy later-revision card after
    its reset. *)
Lemma geometry_after_reset_on_simulated_card :
  exists info',
    @sd_card_get_common_info healthy_v2 blank_info healthy_v2_after_reset
    = Some ((SD_OK, info'),
            log (EvCsd SD_OK sample_csd) healthy_v2_after_reset) /\
    max_data_block_size info' = 2 ^ (csd_register sample_csd 5 mod 16) /\
    ((version (sd_card_status healthy_v2_after_reset) = 1 /\
      size info' = u32 (blocknr sample_csd * max_data_block_size info'))
     \/
     (version (sd_card_status healthy_v2_after_reset) = 2 /\
      size info' = (c_size sample_csd + 1) * 512)).
Proof.
  apply (@geometry_follows_recorded_revision flag_codes healthy_v2 5%nat true
           power_up healthy_v2_after_reset blank_info sample_csd);
    try discriminate.
  - vm_compute. reflexivity.
  - reflexivity.
Defined.

(** Witness for X20: any card on a clock that advances a millisecond per
    reading; here one that never answers. *)
Lemma reset_returns_on_simulated_card :
  exists r m',
    @sd_card_reset flag_codes (silent_card SD_OK 1) 1001 true power_up
    = Some (r, m') /\
    error_in_initialization (sd_card_status m') = failed r.
Proof.
  apply (@reset_returns_on_advancing_clock flag_codes (silent_card SD_OK 1)
           1001%nat true power_up).
  - intros h h' H1 H2.
    cbn [hw_tick silent_card scripted on_tick]. unfold u32.
    rewrite Z.mod_small; lia.
  - lia.
Defined.

(** Witness for X21: the same card on a clock that stands still. *)
Lemma mode_entry_hangs_on_simulated_card :
  @sd_card_enter_spi_mode flag_codes mute_card 1000 power_up = None /\
  @sd_card_reset flag_codes mute_card 1000 true power_up = None.
Proof.
  apply (@mode_entry_hangs_on_stopped_clock flag_codes mute_card 1000%nat
           true power_up).
  - constructor.
    + intros h p. cbn [hw_transmit mute_card silent_card scripted on_transmit].
      destruct (_ =? _)%nat; reflexivity.
    + intros h. split; [reflexivity | vm_compute; discriminate].
    + intros h h'. vm_compute. discriminate.
  - reflexivity.
Defined.
